(** * Task manager with Google OAuth: sessions, account reconciliation and
      ownership of tasks

    A shallow embedding of the backend (config/passport.js,
    middleware/auth.js, routes/auth.js, routes/tasks.js, models/User.js and
    server.js) together with the contracts of the libraries the code is
    written against (mongoose, express, express-session, passport,
    passport-google-oauth20).  Handlers are functions in a state and
    exception monad over the world the server runs in: the database, the
    session store, the console, the clock, the environment variables and
    the Set-Cookie headers that went out. *)

From Stdlib Require Import String ZArith List Bool Lia.
From stdpp Require Import base option gmap strings list.
Import ListNotations.

Local Open Scope Z_scope.
Local Open Scope string_scope.
Local Open Scope list_scope.

(** ** JavaScript values the code handles *)

(** An [Error] object: the code reads [err.message] and [err.stack]. *)
Definition newline : string := String (Ascii.ascii_of_nat 10) EmptyString.

Module Err.
Record t := mk { name : string; message : string; stack : string }.

(** An error raised at a place of the program: the stack starts with the
    name and the message, as V8 prints it, followed by the frame. *)
Definition raise_at (n msg frame : string) : t :=
  mk n msg (n +:+ ": " +:+ msg +:+ newline +:+ "    at " +:+ frame).
End Err.

Definition TypeError (msg frame : string) : Err.t :=
  Err.raise_at "TypeError" msg frame.

(** JSON documents sent with [res.json]. *)
#[local] Set Warnings "-register-all".
Inductive Json :=
| JNull
| JBool (b : bool)
| JNum (z : Z)
| JStr (s : string)
| JArr (items : list Json)
| JObj (fields : list (string * Json)).

(** A property whose value is [undefined] is left out by JSON.stringify. *)
Definition prop (k : string) (v : option string) : list (string * Json) :=
  match v with
  | Some s => [(k, JStr s)]
  | None => []
  end.

(** MongoDB object ids and session ids are opaque handles. *)
Definition ObjectId := nat.
Definition SessionId := nat.
Bind Scope nat_scope with ObjectId SessionId.

(** ** models/User.js *)

Module User.
Record t := mk {
  _id : ObjectId;
  googleId : string;
  email : string;
  displayName : string;
  firstName : option string;
  lastName : option string;
  picture : option string;
  createdAt : Z;
  lastLogin : Z
}.

(** [user.lastLogin = v] *)
Definition set_lastLogin (v : Z) (u : t) : t :=
  mk (_id u) (googleId u) (email u) (displayName u) (firstName u)
     (lastName u) (picture u) (createdAt u) v.

(** The object handed to [User.create]: any path may be [undefined]. *)
Record fields := mk_fields {
  f_googleId : option string;
  f_email : option string;
  f_displayName : option string;
  f_firstName : option string;
  f_lastName : option string;
  f_picture : option string
}.
End User.

(** ** The Task model, as the routes document it *)

Inductive Status := pending | in_progress | completed.

Module Task.
Record t := mk {
  _id : ObjectId;
  title : string;
  description : string;
  status : Status;
  dueDate : Z;
  userId : ObjectId;
  createdAt : Z
}.
End Task.

(** ** The world a request runs in *)

(** Writes that reached the database, most recent last. *)
Inductive Write :=
| UpdateUser (id : ObjectId)
| InsertUser (id : ObjectId)
| InsertTask (id : ObjectId)
| UpdateTask (id : ObjectId)
| DeleteTask (id : ObjectId).

(** The MongoDB database behind mongoose.  server.js starts listening before
    the connection is up and keeps running when it fails ("Server running
    but database unavailable"), hence [connected]. *)
Record Store := mkStore {
  connected : bool;
  users : list User.t;
  tasks : list Task.t;
  next_oid : ObjectId;
  journal : list Write
}.

(** What express-session keeps per session id: the passport entry
    [session.passport.user] and the expiry of the cookie. *)
Record Sess := mkSess {
  passport_user : option ObjectId;
  expires : Z
}.

Inductive SameSite := strict | lax | none.

Record CookieOptions := mkCookie {
  secure : bool;
  httpOnly : bool;
  maxAge : Z;
  sameSite : SameSite
}.

(** The world: the database, the session store, the console, the clock and
    the environment variables the code reads.  GOOGLE_CLIENT_ID is a
    string: the strategy cannot be constructed without a client id, so a
    server that runs has one.  Then the state express-session keeps next to
    its store.  Session ids are random and not handed out twice: [issued]
    holds the ids generated so far.  [modified] is express-session's
    [isModified] for the request in progress: the id of its session when
    the session was regenerated or its content changed after it was loaded;
    the end of the response clears it.  [set_cookies] are the Set-Cookie
    headers of the responses sent so far, most recent last. *)
Record World := mkWorld {
  db : Store;
  sessions : gmap SessionId Sess;
  console : list string;
  clock : Z;
  NODE_ENV : option string;
  GOOGLE_CLIENT_ID : string;
  GOOGLE_CALLBACK_URL : option string;
  issued : gset SessionId;
  modified : option SessionId;
  set_cookies : list (SessionId * CookieOptions)
}.

Definition set_db (s : Store) (w : World) : World :=
  mkWorld s (sessions w) (console w) (clock w) (NODE_ENV w)
          (GOOGLE_CLIENT_ID w) (GOOGLE_CALLBACK_URL w)
          (issued w) (modified w) (set_cookies w).
Definition set_sessions (m : gmap SessionId Sess) (w : World) : World :=
  mkWorld (db w) m (console w) (clock w) (NODE_ENV w)
          (GOOGLE_CLIENT_ID w) (GOOGLE_CALLBACK_URL w)
          (issued w) (modified w) (set_cookies w).
Definition log_line (l : string) (w : World) : World :=
  mkWorld (db w) (sessions w) (console w ++ [l]) (clock w) (NODE_ENV w)
          (GOOGLE_CLIENT_ID w) (GOOGLE_CALLBACK_URL w)
          (issued w) (modified w) (set_cookies w).
Definition set_clock (t : Z) (w : World) : World :=
  mkWorld (db w) (sessions w) (console w) t (NODE_ENV w)
          (GOOGLE_CLIENT_ID w) (GOOGLE_CALLBACK_URL w)
          (issued w) (modified w) (set_cookies w).
Definition set_issued (ids : gset SessionId) (w : World) : World :=
  mkWorld (db w) (sessions w) (console w) (clock w) (NODE_ENV w)
          (GOOGLE_CLIENT_ID w) (GOOGLE_CALLBACK_URL w)
          ids (modified w) (set_cookies w).
Definition set_modified (m : option SessionId) (w : World) : World :=
  mkWorld (db w) (sessions w) (console w) (clock w) (NODE_ENV w)
          (GOOGLE_CLIENT_ID w) (GOOGLE_CALLBACK_URL w)
          (issued w) m (set_cookies w).
Definition send_cookie (c : SessionId * CookieOptions) (w : World) : World :=
  mkWorld (db w) (sessions w) (console w) (clock w) (NODE_ENV w)
          (GOOGLE_CLIENT_ID w) (GOOGLE_CALLBACK_URL w)
          (issued w) (modified w) (set_cookies w ++ [c]).

(** ** State and exception monad

    A computation either returns or throws, and in both cases leaves a
    world behind.  [await] of a rejected promise is a throw. *)

Inductive Result (A : Type) :=
| Ok (a : A)
| Throw (e : Err.t).
Arguments Ok {A} a.
Arguments Throw {A} e.

Definition M (A : Type) : Type := World -> Result A * World.

Definition ret {A} (a : A) : M A := fun w => (Ok a, w).
Definition throw {A} (e : Err.t) : M A := fun w => (Throw e, w).
Definition bind {A B} (m : M A) (k : A -> M B) : M B :=
  fun w => match m w with
           | (Ok a, w') => k a w'
           | (Throw e, w') => (Throw e, w')
           end.
Definition try_catch {A} (m : M A) (handler : Err.t -> M A) : M A :=
  fun w => match m w with
           | (Ok a, w') => (Ok a, w')
           | (Throw e, w') => handler e w'
           end.
Definition get : M World := fun w => (Ok w, w).
Definition modify (f : World -> World) : M unit := fun w => (Ok tt, f w).

Notation "'let*' x ':=' m 'in' k" := (bind m (fun x => k))
  (at level 10, x pattern, m at level 100, k at level 200).
Notation "'run' m 'then' k" := (bind m (fun _ => k))
  (at level 10, m at level 100, k at level 200).

Definition Date_now : M Z := fun w => (Ok (clock w), w).
Definition console_error (l : string) : M unit := modify (log_line l).

(** Lifts a database operation: it returns or throws, and on return leaves
    the new store. *)
Definition on_db {A} (op : Store -> Result (A * Store)) : M A :=
  fun w => match op (db w) with
           | Ok (a, s) => (Ok a, set_db s w)
           | Throw e => (Throw e, w)
           end.

(** ** mongoose: the User model over the database *)

Definition MongooseError (msg : string) : Err.t :=
  Err.raise_at "MongooseError" msg "mongoose/lib/drivers/node-mongodb-native/collection.js".
Definition ValidationError (msg : string) : Err.t :=
  Err.raise_at "ValidationError" msg "mongoose/lib/document.js".
Definition MongoServerError (msg : string) : Err.t :=
  Err.raise_at "MongoServerError" msg "mongodb/lib/operations/insert.js".
Definition DocumentNotFoundError (msg : string) : Err.t :=
  Err.raise_at "DocumentNotFoundError" msg "mongoose/lib/model.js".

Definition buffering_timed_out (op : string) : Err.t :=
  MongooseError ("Operation `" +:+ op +:+ "` buffering timed out after 10000ms").

(** [required: true] on a String path: the value is a non-empty string. *)
Definition check_required (path : string) (v : option string) : list string :=
  match v with
  | Some (String _ _) => []
  | _ => ["Path `" +:+ path +:+ "` is required."]
  end.

Fixpoint update_one {A} (p : A -> bool) (new : A) (l : list A) : option (list A) :=
  match l with
  | [] => None
  | x :: l' =>
      if p x then Some (new :: l')
      else match update_one p new l' with
           | Some r => Some (x :: r)
           | None => None
           end
  end.

Module Users.
(** The paths of userSchema with [required: true], in schema order. *)
Definition validate (f : User.fields) : list string :=
  check_required "googleId" (User.f_googleId f) ++
  check_required "email" (User.f_email f) ++
  check_required "displayName" (User.f_displayName f).

Definition by_googleId (g : string) (u : User.t) : bool :=
  String.eqb (User.googleId u) g.
Definition by_email (e : string) (u : User.t) : bool :=
  String.eqb (User.email u) e.
Definition by_id (id : ObjectId) (u : User.t) : bool :=
  Nat.eqb (User._id u) id.

(** [User.findOne({ googleId })] *)
Definition findOne_googleId (g : string) : M (option User.t) :=
  on_db (fun s =>
    if connected s then Ok (List.find (by_googleId g) (users s), s)
    else Throw (buffering_timed_out "users.findOne()")).

(** [User.findById(id)] *)
Definition findById (id : ObjectId) : M (option User.t) :=
  on_db (fun s =>
    if connected s then Ok (List.find (by_id id) (users s), s)
    else Throw (buffering_timed_out "users.findOne()")).

(** [user.save()] of a document that was loaded from the collection. *)
Definition save (u : User.t) : M unit :=
  on_db (fun s =>
    if connected s then
      match update_one (by_id (User._id u)) u (users s) with
      | Some us =>
          Ok (tt, mkStore (connected s) us (tasks s) (next_oid s)
                          (journal s ++ [UpdateUser (User._id u)]))
      | None =>
          Throw (DocumentNotFoundError "No document found for query")
      end
    else Throw (buffering_timed_out "users.updateOne()")).

(** [User.create(fields)]: validation against the schema, then the insert,
    which the unique indexes on googleId and email can reject.  The
    defaults of createdAt and lastLogin are [Date.now]. *)
Definition create (f : User.fields) : M User.t :=
  let* now := Date_now in
  on_db (fun s =>
    match validate f, User.f_googleId f, User.f_email f, User.f_displayName f with
    | [], Some g, Some e, Some d =>
        if connected s then
          if existsb (by_googleId g) (users s) then
            Throw (MongoServerError "E11000 duplicate key error collection: users index: googleId_1")
          else if existsb (by_email e) (users s) then
            Throw (MongoServerError "E11000 duplicate key error collection: users index: email_1")
          else
            let u := User.mk (next_oid s) g e d (User.f_firstName f)
                             (User.f_lastName f) (User.f_picture f) now now in
            Ok (u, mkStore (connected s) (users s ++ [u]) (tasks s)
                           (S (next_oid s))
                           (journal s ++ [InsertUser (next_oid s)]))
        else Throw (buffering_timed_out "users.insertOne()")
    | msgs, _, _, _ =>
        Throw (ValidationError
                 ("User validation failed: " +:+ String.concat ", " msgs))
    end).
End Users.

(** ** The profile passport-google-oauth20 hands to the verify callback *)

Module Profile.
Record entry := mk_entry { value : option string }.
Record names := mk_names {
  givenName : option string;
  familyName : option string
}.
(** [name], [emails] and [photos] are set by the strategy only when the
    provider sent them. *)
Record t := mk {
  id : string;
  displayName : option string;
  name : option names;
  emails : option (list entry);
  photos : option (list entry)
}.
End Profile.

Definition cannot_read (what : string) : string :=
  "Cannot read properties of undefined (reading '" +:+ what +:+ "')".

(** [arr[0].value] *)
Definition first_value (arr : option (list Profile.entry)) (frame : string)
  : M (option string) :=
  match arr with
  | None => throw (TypeError (cannot_read "0") frame)
  | Some [] => throw (TypeError (cannot_read "value") frame)
  | Some (e :: _) => ret (Profile.value e)
  end.

(** [profile.name.givenName] and [profile.name.familyName] *)
Definition name_field (n : option Profile.names) (what : string)
  (sel : Profile.names -> option string) (frame : string) : M (option string) :=
  match n with
  | None => throw (TypeError (cannot_read what) frame)
  | Some n => ret (sel n)
  end.

(** ** config/passport.js *)

(** The arguments a callback [done(err, value)] was called with. *)
Record Done (A : Type) := done { done_err : option Err.t; done_value : option A }.
Arguments done {A} _ _.
Arguments done_err {A} _.
Arguments done_value {A} _.

(** [user.id] is the string form of [user._id]. *)
Definition serializeUser (user : User.t) : M (Done ObjectId) :=
  ret (done None (Some (User._id user))).

Definition deserializeUser (id : ObjectId) : M (Done User.t) :=
  try_catch
    (let* user := Users.findById id in
     ret (done None user))
    (fun error => ret (done (Some error) None)).

(** The verify callback of the Google strategy: its [try] block, its
    [catch] block and the callback itself. *)
Definition verify_try (profile : Profile.t) : M (Done User.t) :=
  let* user := Users.findOne_googleId (Profile.id profile) in
  match user with
  | Some user =>
      let* now := Date_now in
      let user := User.set_lastLogin now user in
      run Users.save user then
      ret (done None (Some user))
  | None =>
      let* email :=
        first_value (Profile.emails profile) "config/passport.js:43" in
      let* firstName :=
        name_field (Profile.name profile) "givenName" Profile.givenName
                   "config/passport.js:45" in
      let* lastName :=
        name_field (Profile.name profile) "familyName" Profile.familyName
                   "config/passport.js:46" in
      let* picture :=
        first_value (Profile.photos profile) "config/passport.js:47" in
      let* user :=
        Users.create
          (User.mk_fields (Some (Profile.id profile)) email
                          (Profile.displayName profile)
                          firstName lastName picture) in
      ret (done None (Some user))
  end.

Definition verify_catch (error : Err.t) : M (Done User.t) :=
  run console_error ("Error in Google Strategye: " +:+ Err.stack error) then
  ret (done (Some error) None).

Definition verify (accessToken refreshToken : string) (profile : Profile.t)
  : M (Done User.t) :=
  try_catch (verify_try profile) verify_catch.

(** ** HTTP requests and responses, as express presents them *)

(** The methods that reach the middleware stack.  An OPTIONS request does
    not: the cors middleware, installed first, ends it as a preflight.  A
    HEAD request is served by the GET route of its path, as no route is
    declared for HEAD; of the answer only the head is sent. *)
Inductive Method := GET | HEAD | POST | PUT | DELETE.

(** The [:id] segment of a task route: a well-formed ObjectId or not. *)
Inductive IdParam :=
| bad_id (raw : string)
| oid (id : ObjectId).

Inductive AuthPath :=
| auth_google | auth_google_callback | auth_logout | auth_status
| auth_profile | auth_other (rest : string).

Inductive TasksPath :=
| tasks_root | tasks_item (id : IdParam) | tasks_other (rest : string).

Inductive Path :=
| Root | Dashboard | LoginFailed | ApiDocs
| Auth (p : AuthPath)
| ApiTasks (p : TasksPath)
| Unknown (raw : string).

(** The query of a request to the Google strategy, with what the provider
    answers when the code is exchanged. *)
Inductive OAuthQuery :=
| no_oauth_params
| access_denied
| code_rejected (e : Err.t)
| code_verified (accessToken refreshToken : string) (profile : Profile.t).

(** A date in a request body: well-formed or not. *)
Inductive DateInput :=
| bad_date (raw : string)
| date (d : Z).

Record TaskBody := mkBody {
  b_title : option string;
  b_description : option string;
  b_status : option string;
  b_dueDate : option DateInput
}.

(** A request as it arrives, its body parsed (a body that the parser
    rejects ends in the error handler before the session is looked at). *)
Record Incoming := mkIncoming {
  method : Method;
  path : Path;
  cookie : option SessionId;       (* connect.sid, signature checked *)
  query : OAuthQuery;
  body : TaskBody
}.

(** The request object the middleware stack works on: express-session adds
    [req.session], passport adds [req.user]. *)
Record Request := mkReq {
  incoming :> Incoming;
  session : option (SessionId * Sess);   (* the session, when it is stored *)
  user : option User.t
}.

Definition set_session (s : option (SessionId * Sess)) (r : Request) : Request :=
  mkReq (incoming r) s (user r).
Definition set_user (u : option User.t) (r : Request) : Request :=
  mkReq (incoming r) (session r) u.

(** The callback URL of the strategy: absolute, or a path that the
    strategy resolves against the origin (scheme and host) of the request
    at hand. *)
Inductive CallbackURL :=
| absolute (url : string)
| on_request_origin (path : string).

(** The query of the redirect to the provider's authorization endpoint,
    parameter by parameter in the order the strategy adds them, the values
    before URL encoding. *)
Record AuthorizationRequest := mkAuthorization {
  response_type : string;
  redirect_uri : CallbackURL;
  scope_param : option string;
  client_id : string
}.

Inductive Payload :=
| json_body (j : Json)
| text_body (s : string)
| location (url : string)
| authorization (endpoint : string) (q : AuthorizationRequest).

(** Status and body, or the target of a redirect.  The Set-Cookie header is
    written by express-session when the response ends and is found in the
    world. *)
Record Response := mkRes {
  status : nat;
  payload : Payload
}.

(** [res.status(code).json(j)], [res.json(j)] and [res.redirect(url)] *)
Definition res_status_json (code : nat) (j : Json) : Response :=
  mkRes code (json_body j).
Definition res_json (j : Json) : Response := res_status_json 200 j.
Definition res_redirect (url : string) : Response := mkRes 302 (location url).

Definition Handler := Request -> M Response.
Definition Middleware := Request -> Handler -> M Response.

(** ** server.js: the session configuration *)

Definition is_production (env : option string) : bool :=
  match env with
  | Some e => String.eqb e "production"
  | None => false
  end.

Definition session_cookie (env : option string) : CookieOptions :=
  {| secure := is_production env;
     httpOnly := true;
     maxAge := 24 * 60 * 60 * 1000;
     sameSite := if is_production env then none else lax |}.

Record SessionOptions := mkSessionOptions {
  resave : bool;
  saveUninitialized : bool;
  cookie_options : CookieOptions
}.

Definition session_options (env : option string) : SessionOptions :=
  {| resave := false;
     saveUninitialized := false;
     cookie_options := session_cookie env |}.

(** ** express-session with its default in-memory store *)

Module Session.
Definition destroy (sid : SessionId) : M unit :=
  modify (fun w => set_sessions (delete sid (sessions w)) w).

Definition store (sid : SessionId) (s : Sess) : M unit :=
  modify (fun w => set_sessions (<[sid := s]> (sessions w)) w).

(** At the end of a response the session of the request, when it is still
    in the store, gets its expiry reset from the configured max-age: every
    request that uses a session renews it. *)
Definition touch (sid : SessionId) : M unit :=
  modify (fun w =>
    let opts := cookie_options (session_options (NODE_ENV w)) in
    set_sessions
      (alter (fun s => mkSess (passport_user s) (clock w + maxAge opts))
             sid (sessions w)) w).

(** Loads the session the cookie names; an unknown or expired id gives a
    new session, which is not stored while it is empty
    ([saveUninitialized: false]). *)
Definition load (req : Request) : M Request :=
  let* w := get in
  match cookie req with
  | Some sid =>
      match sessions w !! sid with
      | Some s =>
          if (expires s <=? clock w)%Z then
            run destroy sid then ret (set_session None req)
          else ret (set_session (Some (sid, s)) req)
      | None => ret (set_session None req)
      end
  | None => ret (set_session None req)
  end.

(** The Set-Cookie header for the session [sid].  A secure cookie is sent
    over a secure connection only, and no request arrives on one: server.js
    listens with [app.listen], plain HTTP, and neither the application nor
    the session options trust a proxy, so a forwarded protocol is not
    looked at. *)
Definition set_cookie (sid : SessionId) : M unit :=
  let* w := get in
  let opts := cookie_options (session_options (NODE_ENV w)) in
  if secure opts then ret tt
  else modify (send_cookie (sid, opts)).

(** The end of the response: the session the request came with is touched,
    and the cookie is set when the session was regenerated or changed
    during the request ([rolling] is off: an unchanged session gets no new
    cookie). *)
Definition commit (req : Request) (res : Response) : M Response :=
  run match session req with
      | Some (sid, _) => touch sid
      | None => ret tt
      end then
  let* w := get in
  run match modified w with
      | Some sid =>
          run modify (set_modified None) then
          set_cookie sid
      | None => ret tt
      end then
  ret res.

Definition middleware : Middleware := fun req next =>
  let* req := load req in
  let* res := next req in
  commit req res.

(** A new session id.  Ids are long random strings; what the model keeps
    of that is that a new id is none that a stored session has and none
    that was handed out before. *)
Definition generate_id (w : World) : SessionId :=
  fresh (dom (sessions w) ∪ issued w).

(** [req.session.regenerate]: the old session is destroyed and a new,
    empty one takes its place under a new id.  The id differs from the one
    the request came with, so the new session is saved, at the latest when
    the response ends, and announced to the client. *)
Definition regenerate (req : Request) : M (SessionId * Sess) :=
  let* w := get in
  let sid := generate_id w in
  let opts := cookie_options (session_options (NODE_ENV w)) in
  let s := mkSess None (clock w + maxAge opts) in
  run match session req with
      | Some (old, _) => destroy old
      | None => ret tt
      end then
  run modify (fun w => set_modified (Some sid) (set_issued ({[sid]} ∪ issued w) w)) then
  run store sid s then
  ret (sid, s).
End Session.

(** ** passport *)

Module Passport.
(** [req.isAuthenticated()]: [req.user] is set. *)
Definition isAuthenticated (req : Request) : bool :=
  match user req with
  | Some _ => true
  | None => false
  end.

(** [req.logIn(user)]: regenerates the session, puts the serialized user
    into the new one and saves it. *)
Definition logIn (u : User.t) (req : Request) : M Request :=
  let* (sid, s0) := Session.regenerate req in
  let* d := serializeUser u in
  match done_err d with
  | Some err => throw err
  | None =>
      let s := mkSess (done_value d) (expires s0) in
      run Session.store sid s then
      ret (set_user (Some u) (set_session (Some (sid, s)) req))
  end.

(** [req.logout(cb)]: clears [req.user], drops the user from the session,
    saves it and regenerates it, which leaves a new, empty session in the
    place of the old one; the result is the error handed to [cb], if any. *)
Definition logout (req : Request) : M (Request * option Err.t) :=
  run match session req with
      | Some (sid, s) => Session.store sid (mkSess None (expires s))
      | None => ret tt
      end then
  let* (sid, s) := Session.regenerate req in
  ret (set_user None (set_session (Some (sid, s)) req), None).

(** [passport.session()]: a session that carries a serialized user is
    resolved with [deserializeUser]; an error goes to [next(err)], no user
    drops the entry from the session, a user is attached to the request. *)
Definition session : Middleware := fun req next =>
  match session req with
  | Some (sid, s) =>
      match passport_user s with
      | Some id =>
          let* d := deserializeUser id in
          match done_err d, done_value d with
          | Some err, _ => throw err
          | None, Some u => next (set_user (Some u) req)
          | None, None =>
              let s' := mkSess None (expires s) in
              run Session.store sid s' then
              run modify (set_modified (Some sid)) then
              next (set_session (Some (sid, s')) req)
          end
      | None => next req
      end
  | None => next req
  end.
End Passport.

(** ** passport-google-oauth20: [passport.authenticate('google', options)] *)

(** The options a route passes to [passport.authenticate]. *)
Record AuthOptions := mkAuthOptions {
  scope : option (list string);
  failureRedirect : option string
}.

Definition google_authorization_endpoint : string :=
  "https://accounts.google.com/o/oauth2/v2/auth".

(** A URL with a scheme is absolute: letters, digits, [.], [+] and [-],
    then a colon. *)
Definition scheme_char (c : Ascii.ascii) : bool :=
  let n := Ascii.nat_of_ascii c in
  (Nat.leb 97 n && Nat.leb n 122) || (Nat.leb 65 n && Nat.leb n 90) ||
  (Nat.leb 48 n && Nat.leb n 57) ||
  Nat.eqb n 46 || Nat.eqb n 43 || Nat.eqb n 45.

Fixpoint scheme_then_colon (seen : bool) (s : string) : bool :=
  match s with
  | EmptyString => false
  | String c rest =>
      if Nat.eqb (Ascii.nat_of_ascii c) 58 then seen
      else if scheme_char c then scheme_then_colon true rest
      else false
  end.

(** config/passport.js: [process.env.GOOGLE_CALLBACK_URL ||
    '/auth/google/callback']; an unset or empty variable gives the path. *)
Definition callbackURL (env : option string) : CallbackURL :=
  let url := match env with
             | Some (String c rest) => String c rest
             | _ => "/auth/google/callback"
             end in
  if scheme_then_colon false url then absolute url else on_request_origin url.

(** The redirect that starts the handshake: response type, callback URL,
    the scopes of the route joined by a space when the route gives any (the
    strategy is configured without a scope of its own), and the client id
    of the configuration. *)
Definition authorization_redirect (scope : option (list string)) : M Response :=
  let* w := get in
  ret (mkRes 302
         (authorization google_authorization_endpoint
            {| response_type := "code";
               redirect_uri := callbackURL (GOOGLE_CALLBACK_URL w);
               scope_param := String.concat " " <$> scope;
               client_id := GOOGLE_CLIENT_ID w |})).

(** [strategy.fail()]: the failure redirect when there is one, else 401. *)
Definition auth_fail (options : AuthOptions) : M Response :=
  match failureRedirect options with
  | Some url => ret (res_redirect url)
  | None => ret (mkRes 401 (text_body "Unauthorized"))
  end.

(** Without a code the strategy redirects to the provider; with a code it
    exchanges it, calls the verify callback and acts on what the callback
    reports: an error goes to [next(err)], no user is a failure, a user is
    logged in and the request goes on. *)
Definition authenticate (options : AuthOptions) : Middleware := fun req next =>
  match query req with
  | no_oauth_params => authorization_redirect (scope options)
  | access_denied => auth_fail options
  | code_rejected e => throw e
  | code_verified accessToken refreshToken profile =>
      let* d := verify accessToken refreshToken profile in
      match done_err d, done_value d with
      | Some err, _ => throw err
      | None, None => auth_fail options
      | None, Some u =>
          let* req := Passport.logIn u req in
          next req
      end
  end.

(** ** middleware/auth.js *)

Definition ensureAuthenticated : Middleware := fun req next =>
  if Passport.isAuthenticated req then next req
  else
    ret (res_status_json 401
           (JObj [("success", JBool false);
                  ("message", JStr "Authentication required. Please login first.");
                  ("redirectTo", JStr "/auth/google")])).

Definition ensureGuest : Middleware := fun req next =>
  if Passport.isAuthenticated req then ret (res_redirect "/dashboard")
  else next req.

(** ** routes/auth.js *)

Definition json_id (id : ObjectId) : Json := JNum (Z.of_nat id).

Definition logout_route : Handler := fun req =>
  let* (req, err) := Passport.logout req in
  match err with
  | Some _ =>
      ret (res_status_json 500
             (JObj [("success", JBool false);
                    ("message", JStr "Error logging out")]))
  | None =>
      ret (res_json
             (JObj [("success", JBool true);
                    ("message", JStr "Logged out successfully")]))
  end.

Definition status_route : Handler := fun req =>
  match user req with
  | Some u =>
      ret (res_json
             (JObj [("success", JBool true);
                    ("authenticated", JBool true);
                    ("user", JObj ([("id", json_id (User._id u));
                                    ("email", JStr (User.email u));
                                    ("displayName", JStr (User.displayName u))]
                                   ++ prop "picture" (User.picture u)))]))
  | None =>
      ret (res_json
             (JObj [("success", JBool true);
                    ("authenticated", JBool false);
                    ("message", JStr "Not authenticated")]))
  end.

Definition profile_route : Handler := fun req =>
  match user req with
  | None =>
      ret (res_status_json 401
             (JObj [("success", JBool false);
                    ("message", JStr "Authentication required")]))
  | Some u =>
      ret (res_json
             (JObj [("success", JBool true);
                    ("user", JObj ([("id", json_id (User._id u));
                                    ("googleId", JStr (User.googleId u));
                                    ("email", JStr (User.email u));
                                    ("displayName", JStr (User.displayName u))]
                                   ++ prop "firstName" (User.firstName u)
                                   ++ prop "lastName" (User.lastName u)
                                   ++ prop "picture" (User.picture u)
                                   ++ [("createdAt", JNum (User.createdAt u));
                                       ("lastLogin", JNum (User.lastLogin u))]))]))
  end.

Definition auth_router : Middleware := fun req next =>
  match method req, path req with
  | (GET | HEAD), Auth auth_google =>
      authenticate (mkAuthOptions (Some ["profile"; "email"]) None) req next
  | (GET | HEAD), Auth auth_google_callback =>
      authenticate (mkAuthOptions None (Some "/login-failed")) req
        (fun req => ret (res_redirect "/dashboard"))
  | (GET | HEAD), Auth auth_logout => logout_route req
  | (GET | HEAD), Auth auth_status => status_route req
  | (GET | HEAD), Auth auth_profile => profile_route req
  | _, _ => next req
  end.

(** ** routes/tasks.js *)

(** What the router imports from controllers/taskController. *)
Record TaskController := mkController {
  getAllTasks : Handler;
  getTaskById : Handler;
  createTask : Handler;
  updateTask : Handler;
  deleteTask : Handler
}.

(** The handler a task route selects, if any. *)
Definition task_route (c : TaskController) (m : Method) (p : TasksPath)
  : option Handler :=
  match m, p with
  | (GET | HEAD), tasks_root => Some (getAllTasks c)
  | (GET | HEAD), tasks_item _ => Some (getTaskById c)
  | POST, tasks_root => Some (createTask c)
  | PUT, tasks_item _ => Some (updateTask c)
  | DELETE, tasks_item _ => Some (deleteTask c)
  | _, _ => None
  end.

(** [router.use(ensureAuthenticated)] comes before every route. *)
Definition tasks_router (c : TaskController) : Middleware := fun req next =>
  match path req with
  | ApiTasks p =>
      ensureAuthenticated req (fun req =>
        match task_route c (method req) p with
        | Some handler => handler req
        | None => next req
        end)
  | _ => next req
  end.

(** ** server.js *)

Definition root_route : Handler := fun _ =>
  ret (res_json
         (JObj [("message", JStr "Welcome to Task Manager API with OAuth");
                ("documentation", JStr "/api-docs");
                ("authentication",
                 JObj [("login", JStr "GET /auth/google");
                       ("logout", JStr "GET /auth/logout");
                       ("status", JStr "GET /auth/status");
                       ("profile", JStr "GET /auth/profile")]);
                ("endpoints",
                 JObj [("getAllTasks", JStr "GET /api/tasks (requires authentication)");
                       ("getTaskById", JStr "GET /api/tasks/:id (requires authentication)");
                       ("createTask", JStr "POST /api/tasks (requires authentication)");
                       ("updateTask", JStr "PUT /api/tasks/:id (requires authentication)");
                       ("deleteTask", JStr "DELETE /api/tasks/:id (requires authentication)")]);
                ("note", JStr "All /api/tasks endpoints require Google OAuth authentication")])).

Definition dashboard_route : Handler := fun req =>
  match user req with
  | None =>
      ret (res_status_json 401
             (JObj [("success", JBool false);
                    ("message", JStr "Please login to access dashboard");
                    ("loginUrl", JStr "/auth/google")]))
  | Some u =>
      ret (res_json
             (JObj [("success", JBool true);
                    ("message", JStr ("Welcome " +:+ User.displayName u +:+ "!"));
                    ("user", JObj ([("email", JStr (User.email u));
                                    ("displayName", JStr (User.displayName u))]
                                   ++ prop "picture" (User.picture u)));
                    ("links", JObj [("tasks", JStr "/api/tasks");
                                    ("profile", JStr "/auth/profile");
                                    ("logout", JStr "/auth/logout")])]))
  end.

Definition login_failed_route : Handler := fun _ =>
  ret (res_status_json 401
         (JObj [("success", JBool false);
                ("message", JStr "Authentication failed. Please try again.");
                ("loginUrl", JStr "/auth/google")])).

Definition not_found : Handler := fun _ =>
  ret (res_status_json 404
         (JObj [("success", JBool false);
                ("message", JStr "Route not found")])).

(** The error handler: [app.use((err, req, res, next) => ...)]. *)
Definition error_handler (err : Err.t) : M Response :=
  run console_error (Err.stack err) then
  ret (res_status_json 500
         (JObj [("success", JBool false);
                ("message", JStr "Something went wrong!");
                ("error", JStr (Err.message err))])).

Definition app_routes : Handler := fun req =>
  match method req, path req with
  | (GET | HEAD), Root => root_route req
  | (GET | HEAD), Dashboard => dashboard_route req
  | (GET | HEAD), LoginFailed => login_failed_route req
  | _, _ => not_found req
  end.

(** The middleware stack in the order server.js installs it. *)
Definition routes (c : TaskController) : Handler := fun req =>
  match path req with
  | ApiDocs => ret (mkRes 200 (text_body "swagger-ui"))
  | _ => auth_router req (fun req => tasks_router c req app_routes)
  end.

Definition app (c : TaskController) (i : Incoming) : M Response :=
  Session.middleware (mkReq i None None) (fun req =>
    try_catch (Passport.session req (routes c)) error_handler).

(** ** The task controller *)

(** Modelled from the spec: controllers/taskController.js and
    models/Task.js are not part of the sources at hand.  The five handlers
    below follow section 4.5 of the specification (one shared
    ownership-or-NotFound fetch, partial update, validation before any
    write) with the response envelope and status codes of section 6 and the
    field bounds the route documentation gives (title at most 100
    characters, description at most 500). *)
Module Tasks.
Definition by_id (id : ObjectId) (t : Task.t) : bool :=
  Nat.eqb (Task._id t) id.
Definition owned_by (uid : ObjectId) (t : Task.t) : bool :=
  Nat.eqb (Task.userId t) uid.

Definition lookup (id : ObjectId) (s : Store) : option Task.t :=
  List.find (by_id id) (tasks s).

Definition unavailable (op : string) : Err.t := buffering_timed_out op.

Definition findById (id : ObjectId) : M (option Task.t) :=
  on_db (fun s =>
    if connected s then Ok (lookup id s, s)
    else Throw (unavailable "tasks.findOne()")).

Definition find_owned (uid : ObjectId) : M (list Task.t) :=
  on_db (fun s =>
    if connected s then Ok (List.filter (owned_by uid) (tasks s), s)
    else Throw (unavailable "tasks.find()")).

Definition insert (title description : string) (st : Status) (due : Z)
  (owner : ObjectId) : M Task.t :=
  let* now := Date_now in
  on_db (fun s =>
    if connected s then
      let t := Task.mk (next_oid s) title description st due owner now in
      Ok (t, mkStore (connected s) (users s) (tasks s ++ [t])
                     (S (next_oid s)) (journal s ++ [InsertTask (next_oid s)]))
    else Throw (unavailable "tasks.insertOne()")).

Definition replace (t : Task.t) : M unit :=
  on_db (fun s =>
    if connected s then
      match update_one (by_id (Task._id t)) t (tasks s) with
      | Some ts =>
          Ok (tt, mkStore (connected s) (users s) ts (next_oid s)
                          (journal s ++ [UpdateTask (Task._id t)]))
      | None => Throw (DocumentNotFoundError "No document found for query")
      end
    else Throw (unavailable "tasks.updateOne()")).

Fixpoint remove_first (id : ObjectId) (l : list Task.t) : list Task.t :=
  match l with
  | [] => []
  | t :: l' => if by_id id t then l' else t :: remove_first id l'
  end.

Definition remove (id : ObjectId) : M unit :=
  on_db (fun s =>
    if connected s then
      Ok (tt, mkStore (connected s) (users s) (remove_first id (tasks s))
                      (next_oid s) (journal s ++ [DeleteTask id]))
    else Throw (unavailable "tasks.deleteOne()")).
End Tasks.

Definition status_name (s : Status) : string :=
  match s with
  | pending => "pending"
  | in_progress => "in-progress"
  | completed => "completed"
  end.

Definition parse_status (s : string) : option Status :=
  if String.eqb s "pending" then Some pending
  else if String.eqb s "in-progress" then Some in_progress
  else if String.eqb s "completed" then Some completed
  else None.

Definition task_json (t : Task.t) : Json :=
  JObj [("_id", json_id (Task._id t));
        ("title", JStr (Task.title t));
        ("description", JStr (Task.description t));
        ("status", JStr (status_name (Task.status t)));
        ("dueDate", JNum (Task.dueDate t));
        ("userId", json_id (Task.userId t));
        ("createdAt", JNum (Task.createdAt t))].

(** Modelled from the spec: the handlers of controllers/taskController.js,
    which is not part of the sources at hand (section 4.5, with the status
    codes and the envelope of section 6 and the errors of section 7). *)
Module Controller.
Definition bounded (max : nat) (s : string) : bool :=
  negb (String.eqb s "") && Nat.leb (String.length s) max.

Definition failure (code : nat) (msg : string) : Response :=
  res_status_json code (JObj [("success", JBool false); ("message", JStr msg)]).

Definition task_not_found : Response := failure 404 "Task not found".
Definition invalid_id : Response := failure 400 "Invalid task ID format".
Definition server_error : Response := failure 500 "Server error".

Definition validation_failed (fields : list string) : Response :=
  res_status_json 400
    (JObj [("success", JBool false);
           ("message", JStr "Validation error");
           ("errors", JArr (List.map JStr fields))]).

(** The principal the guard attached to the request. *)
Definition principal (req : Request) : M User.t :=
  match user req with
  | Some u => ret u
  | None => throw (TypeError (cannot_read "_id") "controllers/taskController.js")
  end.

(** Ownership-or-NotFound: the task stored under the id, unless it is
    owned by another account. *)
Definition fetch_owned (id : ObjectId) (u : User.t) : M (option Task.t) :=
  let* t := Tasks.findById id in
  match t with
  | Some t =>
      if Tasks.owned_by (User._id u) t then ret (Some t) else ret None
  | None => ret None
  end.

(** Every handler translates what it catches to a 500. *)
Definition guarded (h : M Response) : M Response :=
  try_catch h (fun _ => ret server_error).

Definition with_task (req : Request) (k : User.t -> Task.t -> M Response)
  : M Response :=
  guarded
    (let* u := principal req in
     match path req with
     | ApiTasks (tasks_item (oid id)) =>
         let* t := fetch_owned id u in
         match t with
         | Some t => k u t
         | None => ret task_not_found
         end
     | _ => ret invalid_id
     end).

Definition getAllTasks : Handler := fun req =>
  guarded
    (let* u := principal req in
     let* ts := Tasks.find_owned (User._id u) in
     ret (res_json
            (JObj [("success", JBool true);
                   ("count", JNum (Z.of_nat (List.length ts)));
                   ("data", JArr (List.map task_json ts))]))).

Definition getTaskById : Handler := fun req =>
  with_task req (fun _ t =>
    ret (res_json (JObj [("success", JBool true); ("data", task_json t)]))).

Definition check (field : string) (ok : bool) : list string :=
  if ok then [] else [field].

Definition create_errors (b : TaskBody) : list string :=
  check "title" (match b_title b with Some s => bounded 100 s | None => false end) ++
  check "description"
    (match b_description b with Some s => bounded 500 s | None => false end) ++
  check "status"
    (match b_status b with
     | Some s => match parse_status s with Some _ => true | None => false end
     | None => true
     end) ++
  check "dueDate" (match b_dueDate b with Some (date _) => true | _ => false end).

Definition createTask : Handler := fun req =>
  guarded
    (let* u := principal req in
     let b := body req in
     match create_errors b, b_title b, b_description b, b_dueDate b with
     | [], Some title, Some description, Some (date due) =>
         let st := match b_status b with
                   | Some s => default pending (parse_status s)
                   | None => pending
                   end in
         let* t := Tasks.insert title description st due (User._id u) in
         ret (res_status_json 201
                (JObj [("success", JBool true);
                       ("message", JStr "Task created successfully");
                       ("data", task_json t)]))
     | errors, _, _, _ => ret (validation_failed errors)
     end).

Definition update_errors (b : TaskBody) : list string :=
  check "title" (match b_title b with Some s => bounded 100 s | None => true end) ++
  check "description"
    (match b_description b with Some s => bounded 500 s | None => true end) ++
  check "status"
    (match b_status b with
     | Some s => match parse_status s with Some _ => true | None => false end
     | None => true
     end) ++
  check "dueDate"
    (match b_dueDate b with Some (bad_date _) => false | _ => true end).

(** Only the fields present in the body change; id, owner and creation
    time never do. *)
Definition apply_update (b : TaskBody) (t : Task.t) : Task.t :=
  Task.mk (Task._id t)
    (default (Task.title t) (b_title b))
    (default (Task.description t) (b_description b))
    (default (Task.status t) (b_status b ≫= parse_status))
    (match b_dueDate b with Some (date d) => d | _ => Task.dueDate t end)
    (Task.userId t)
    (Task.createdAt t).

Definition updateTask : Handler := fun req =>
  with_task req (fun _ t =>
    match update_errors (body req) with
    | [] =>
        let t' := apply_update (body req) t in
        run Tasks.replace t' then
        ret (res_json
               (JObj [("success", JBool true);
                      ("message", JStr "Task updated successfully");
                      ("data", task_json t')]))
    | errors => ret (validation_failed errors)
    end).

Definition deleteTask : Handler := fun req =>
  with_task req (fun _ t =>
    run Tasks.remove (Task._id t) then
    ret (res_json
           (JObj [("success", JBool true);
                  ("message", JStr "Task deleted successfully");
                  ("data", task_json t)]))).

Definition controller : TaskController :=
  mkController getAllTasks getTaskById createTask updateTask deleteTask.
End Controller.

(** ** The Session Manager's [validate], spelled out on the session store

    Section 4.3 of the specification: the handle is looked up; validation
    fails when the handle is absent, expired, or the bound account no longer
    exists.  A lookup that the database cannot answer is neither: it is a
    persistence failure. *)
Inductive Validation :=
| Invalid
| Valid (sid : SessionId) (s : Sess) (u : User.t)
| Failed (e : Err.t).

Definition validate (i : Incoming) (w : World) : Validation :=
  match cookie i with
  | None => Invalid
  | Some sid =>
      match sessions w !! sid with
      | None => Invalid
      | Some s =>
          if (expires s <=? clock w)%Z then Invalid
          else
            match passport_user s with
            | None => Invalid
            | Some id =>
                if connected (db w) then
                  match List.find (Users.by_id id) (users (db w)) with
                  | Some u => Valid sid s u
                  | None => Invalid
                  end
                else Failed (buffering_timed_out "users.findOne()")
            end
      end
  end.

(** The answer of the guard to a request without a principal. *)
Definition authentication_required : Response :=
  res_status_json 401
    (JObj [("success", JBool false);
           ("message", JStr "Authentication required. Please login first.");
           ("redirectTo", JStr "/auth/google")]).

(** The answer of the error handler to [err]. *)
Definition internal_error (err : Err.t) : Response :=
  res_status_json 500
    (JObj [("success", JBool false);
           ("message", JStr "Something went wrong!");
           ("error", JStr (Err.message err))]).

Definition logged_out : Response :=
  res_json (JObj [("success", JBool true);
                  ("message", JStr "Logged out successfully")]).

(** What the database guarantees about object ids: they are unique within a
    collection and below the next one to be handed out. *)
Record Store_ok (s : Store) : Prop := {
  user_ids_unique : List.NoDup (List.map User._id (users s));
  task_ids_unique : List.NoDup (List.map Task._id (tasks s));
  user_ids_used : Forall (fun u => (User._id u < next_oid s)%nat) (users s);
  task_ids_used : Forall (fun t => (Task._id t < next_oid s)%nat) (tasks s)
}.

(** Two account documents that agree on everything but [lastLogin]. *)
Definition same_but_lastLogin (a b : User.t) : Prop :=
  User._id a = User._id b /\
  User.googleId a = User.googleId b /\
  User.email a = User.email b /\
  User.displayName a = User.displayName b /\
  User.firstName a = User.firstName b /\
  User.lastName a = User.lastName b /\
  User.picture a = User.picture b /\
  User.createdAt a = User.createdAt b.

(** ** Relations between worlds, and the reconciler's writes *)

(** Two worlds that differ at most in what express-session keeps: the
    session store, the ids handed out, the mark of a changed session and
    the cookies sent. *)
Definition same_but_sessions (w w' : World) : Prop :=
  db w' = db w /\ console w' = console w /\
  clock w' = clock w /\ NODE_ENV w' = NODE_ENV w /\
  GOOGLE_CLIENT_ID w' = GOOGLE_CLIENT_ID w /\
  GOOGLE_CALLBACK_URL w' = GOOGLE_CALLBACK_URL w.

(** [m] takes every world to a world related to it by [R]. *)
Definition preserves {A} (R : World -> World -> Prop) (m : M A) : Prop :=
  forall w, R w (snd (m w)).

(** The environment and the clock are the same. *)
Definition same_env (w w' : World) : Prop :=
  NODE_ENV w' = NODE_ENV w /\ clock w' = clock w.

(** The accounts are the same. *)
Definition same_users (w w' : World) : Prop := users (db w') = users (db w).

(** The fields the callback hands to [User.create], when every property
    access succeeds. *)
Definition profile_fields (p : Profile.t) : option User.fields :=
  match Profile.emails p, Profile.name p, Profile.photos p with
  | Some (e :: _), Some n, Some (ph :: _) =>
      Some (User.mk_fields (Some (Profile.id p)) (Profile.value e)
                           (Profile.displayName p) (Profile.givenName n)
                           (Profile.familyName n) (Profile.value ph))
  | _, _, _ => None
  end.

(** The schema takes the fields: the required paths are there and the
    unique indexes see no clash. *)
Definition schema_accepts (f : User.fields) (s : Store) : bool :=
  match Users.validate f, User.f_googleId f, User.f_email f with
  | [], Some g, Some e =>
      negb (existsb (Users.by_googleId g) (users s)) &&
      negb (existsb (Users.by_email e) (users s))
  | _, _, _ => false
  end.

(** The document [User.create] builds from the fields. *)
Definition new_user (f : User.fields) (s : Store) (now : Z) : option User.t :=
  match User.f_googleId f, User.f_email f, User.f_displayName f with
  | Some g, Some e, Some d =>
      Some (User.mk (next_oid s) g e d (User.f_firstName f) (User.f_lastName f)
                    (User.f_picture f) now now)
  | _, _, _ => None
  end.

(** The store after the insert of [u], and after the save of the account
    [id] with its lastLogin set to [now]. *)
Definition insert_user (u : User.t) (s : Store) : Store :=
  mkStore (connected s) (users s ++ [u]) (tasks s) (S (next_oid s))
          (journal s ++ [InsertUser (User._id u)]).

Definition touch_login (id : ObjectId) (now : Z) (s : Store) : Store :=
  mkStore (connected s)
          (List.map (fun d => if Users.by_id id d then User.set_lastLogin now d else d)
                    (users s))
          (tasks s) (next_oid s) (journal s ++ [UpdateUser id]).

(** ** Sample data *)

Module Sample.
Definition alice : User.t :=
  User.mk 1 "g-1" "a@x.com" "Alice" (Some "Alice") (Some "Liddell") None 100 100.
Definition bob : User.t :=
  User.mk 2 "g-2" "b@x.com" "Bob" None None (Some "https://img/bob") 200 200.
Definition t1 : Task.t := Task.mk 10 "T1" "D" pending 20251201 1 300.

Definition store : Store := mkStore true [alice; bob] [t1] 11 [].

(** Session 6 belongs to alice, 7 to bob, 8 has expired, 9 is bound to an
    account that is gone. *)
Definition sessions : gmap SessionId Sess :=
  <[9%nat := mkSess (Some 5%nat) 5000]>
    (<[8%nat := mkSess (Some 1%nat) 500]>
       (<[7%nat := mkSess (Some 2%nat) 5000]>
          (<[6%nat := mkSess (Some 1%nat) 5000]> ∅))).

Definition client : string := "1234-abcd.apps.googleusercontent.com".

(** The server in production. *)
Definition world : World :=
  mkWorld store sessions [] 1000 (Some "production") client
          (Some "https://task-manager-oauth-week07.onrender.com/auth/google/callback")
          (dom sessions) None [].

(** The server on a developer's machine: no NODE_ENV, no callback URL. *)
Definition dev : World :=
  mkWorld store sessions [] 1000 None client None (dom sessions) None [].

Definition no_body : TaskBody := mkBody None None None None.

Definition request (m : Method) (p : Path) (c : option SessionId) : Incoming :=
  mkIncoming m p c no_oauth_params no_body.

Definition callback (p : Profile.t) : Incoming :=
  mkIncoming GET (Auth auth_google_callback) None
             (code_verified "access-token" "refresh-token" p) no_body.

Definition entry (s : string) : Profile.entry := Profile.mk_entry (Some s).

(** A new subject with every field. *)
Definition carol : Profile.t :=
  Profile.mk "g-3" (Some "Carol") (Some (Profile.mk_names (Some "Carol") None))
             (Some [entry "c@x.com"]) (Some [entry "https://img/carol"]).

(** A new subject whose email belongs to alice. *)
Definition mallory : Profile.t :=
  Profile.mk "g-4" (Some "Mallory") (Some (Profile.mk_names None None))
             (Some [entry "a@x.com"]) (Some [entry "https://img/m"]).

(** A new subject without a picture: the strategy leaves [photos] out. *)
Definition dave : Profile.t :=
  Profile.mk "g-5" (Some "Dave") (Some (Profile.mk_names (Some "Dave") None))
             (Some [entry "d@x.com"]) None.

(** alice again. *)
Definition alice_profile : Profile.t :=
  Profile.mk "g-1" (Some "Alice") (Some (Profile.mk_names (Some "Alice") None))
             (Some [entry "a@x.com"]) (Some [entry "https://img/alice"]).

Definition econnrefused : Err.t :=
  Err.raise_at "MongoNetworkError" "connect ECONNREFUSED 10.0.0.5:27017"
               "mongodb/lib/sdam/topology.js".
End Sample.

(** ** server.js: start-up *)

Definition console_log (l : string) : M unit := modify (log_line l).

(** [process.env.PORT || 3000]: an unset or empty variable gives 3000. *)
Definition PORT (env : option string) : string :=
  match env with
  | Some (String c rest) => String c rest
  | _ => "3000"
  end.

(** The state of the mongoose connection. *)
Definition set_connected (b : bool) (w : World) : World :=
  set_db (mkStore b (users (db w)) (tasks (db w)) (next_oid (db w))
                  (journal (db w))) w.

(** The callback of [app.listen]: the server announces itself, then
    connects to MongoDB; [connect] is what [mongoose.connect] settles to, an
    error when the connection fails. *)
Definition listening (port_env : option string) (connect : option Err.t)
  : M unit :=
  let port := PORT port_env in
  run console_log ("Server running on port " +:+ port) then
  run console_log ("API Documentation available at http://localhost:"
                   +:+ port +:+ "/api-docs") then
  run console_log ("Login with Google at http://localhost:"
                   +:+ port +:+ "/auth/google") then
  match connect with
  | None =>
      run modify (set_connected true) then
      console_log "MongoDB connected successfully"
  | Some err =>
      run console_error ("MongoDB connection error: " +:+ Err.message err) then
      console_log "Server running but database unavailable"
  end.

(** ** Notions for the properties of the routes *)

(** The principal a validation result stands for. *)
Definition principal_of (v : Validation) : option User.t :=
  match v with
  | Valid _ _ u => Some u
  | _ => None
  end.

(** A request that makes the Google strategy run the verify callback. *)
Definition login_attempt (i : Incoming) : bool :=
  match method i, path i, query i with
  | (GET | HEAD), Auth auth_google, code_verified _ _ _ => true
  | (GET | HEAD), Auth auth_google_callback, code_verified _ _ _ => true
  | _, _, _ => false
  end.

(** The world [w] with what express-session keeps taken from [w0]. *)
Definition with_sessions_of (w0 w : World) : World :=
  mkWorld (db w) (sessions w0) (console w) (clock w) (NODE_ENV w)
          (GOOGLE_CLIENT_ID w) (GOOGLE_CALLBACK_URL w)
          (issued w0) (modified w0) (set_cookies w0).

(** What the session middleware and passport have done to the sessions when
    they hand the request [req1] to the routes in the world [w1]: no id was
    drawn and no cookie sent, the session of the request is the one its
    cookie names, and no other session was looked at. *)
Record session_loaded (i : Incoming) (w : World) (req1 : Request) (w1 : World)
  : Prop := {
  loaded_issued : issued w1 = issued w;
  loaded_cookies : set_cookies w1 = set_cookies w;
  loaded_cookie : forall sid s, session req1 = Some (sid, s) -> cookie i = Some sid;
  loaded_none :
    session req1 = None -> forall sid, cookie i = Some sid -> sessions w1 !! sid = None;
  loaded_others : forall k, cookie i <> Some k -> sessions w1 !! k = sessions w !! k
}.

(** The cookie of a request carries a signature made with the session
    secret, which the session middleware checks: with the secret kept to the
    server, the id is one that the server handed out. *)
Definition signed (i : Incoming) (w : World) : Prop :=
  forall sid, cookie i = Some sid -> sid ∈ issued w.

(** Two worlds with the same database. *)
Definition same_db (w w' : World) : Prop := db w' = db w.

(** Two worlds in which express-session keeps the same. *)
Definition same_sessions (w w' : World) : Prop :=
  sessions w' = sessions w /\ issued w' = issued w /\
  modified w' = modified w /\ set_cookies w' = set_cookies w.

(** Two worlds that differ in the database and the console at most. *)
Definition same_but_db (w w' : World) : Prop :=
  same_sessions w w' /\ clock w' = clock w /\ NODE_ENV w' = NODE_ENV w /\
  GOOGLE_CLIENT_ID w' = GOOGLE_CLIENT_ID w /\
  GOOGLE_CALLBACK_URL w' = GOOGLE_CALLBACK_URL w.

(** A task controller whose handlers work on the database and the console
    and leave the rest of the world alone. *)
Definition database_only (c : TaskController) : Prop :=
  forall m p handler req,
    task_route c m p = Some handler -> preserves same_but_db (handler req).

(** No session was added to the store and no id drawn. *)
Definition no_new_session (w w' : World) : Prop :=
  dom (sessions w') ⊆ dom (sessions w) /\ issued w' = issued w.

(** A request to GET /auth/logout, which HEAD reaches as well. *)
Definition logout_request (i : Incoming) : bool :=
  match method i, path i with
  | (GET | HEAD), Auth auth_logout => true
  | _, _ => false
  end.

(** An id that was handed out and names no session stays that way: no new
    session gets it. *)
Definition keeps_revoked (w w' : World) : Prop :=
  issued w ⊆ issued w' /\
  forall k, k ∈ issued w -> sessions w !! k = None -> sessions w' !! k = None.

(** What happens to the world of a running server: a request is served,
    time passes, the database changes. *)
Inductive step (c : TaskController) : World -> World -> Prop :=
| step_request (i : Incoming) (w : World) : step c w (snd (app c i w))
| step_clock (t : Z) (w : World) : step c w (set_clock t w)
| step_db (s : Store) (w : World) : step c w (set_db s w).

(** In production no Set-Cookie header goes out. *)
Definition no_cookie_in_production (w w' : World) : Prop :=
  NODE_ENV w' = NODE_ENV w /\
  (is_production (NODE_ENV w) = true -> set_cookies w' = set_cookies w).

(** The world [req.session.regenerate] leaves behind. *)
Definition regenerated (req : Request) (w : World) : World :=
  snd (Session.regenerate req w).

(** The world the end of a response leaves behind. *)
Definition response_end (req : Request) (w : World) : World :=
  snd (Session.commit req (res_json JNull) w).

(** The Set-Cookie header that is due in [w], if any. *)
Definition due_cookie (w : World) : list (SessionId * CookieOptions) :=
  match modified w with
  | Some sid =>
      if is_production (NODE_ENV w) then []
      else [(sid, session_cookie (NODE_ENV w))]
  | None => []
  end.

(** A computation that neither reads nor writes what express-session
    keeps. *)
Definition oblivious {A} (m : M A) : Prop :=
  forall w w0,
    m (with_sessions_of w0 w)
    = (fst (m w), with_sessions_of w0 (snd (m w))).

(** What userSchema asks of the accounts of a store: subject ids and emails
    are unique, and the required paths are not empty. *)
Record Users_ok (s : Store) : Prop := {
  googleIds_unique : List.NoDup (List.map User.googleId (users s));
  emails_unique : List.NoDup (List.map User.email (users s));
  required_present :
    List.Forall (fun u => User.googleId u <> "" /\ User.email u <> "" /\
                          User.displayName u <> "") (users s)
}.

(** The answers of /auth/status, /auth/profile and /dashboard for [u]. *)
Definition status_of (u : option User.t) : Response :=
  match u with
  | Some u =>
      res_json
        (JObj [("success", JBool true);
               ("authenticated", JBool true);
               ("user", JObj ([("id", json_id (User._id u));
                               ("email", JStr (User.email u));
                               ("displayName", JStr (User.displayName u))]
                              ++ prop "picture" (User.picture u)))])
  | None =>
      res_json
        (JObj [("success", JBool true);
               ("authenticated", JBool false);
               ("message", JStr "Not authenticated")])
  end.

Definition profile_of (u : option User.t) : Response :=
  match u with
  | None =>
      res_status_json 401
        (JObj [("success", JBool false);
               ("message", JStr "Authentication required")])
  | Some u =>
      res_json
        (JObj [("success", JBool true);
               ("user", JObj ([("id", json_id (User._id u));
                               ("googleId", JStr (User.googleId u));
                               ("email", JStr (User.email u));
                               ("displayName", JStr (User.displayName u))]
                              ++ prop "firstName" (User.firstName u)
                              ++ prop "lastName" (User.lastName u)
                              ++ prop "picture" (User.picture u)
                              ++ [("createdAt", JNum (User.createdAt u));
                                  ("lastLogin", JNum (User.lastLogin u))]))])
  end.

Definition dashboard_of (u : option User.t) : Response :=
  match u with
  | None =>
      res_status_json 401
        (JObj [("success", JBool false);
               ("message", JStr "Please login to access dashboard");
               ("loginUrl", JStr "/auth/google")])
  | Some u =>
      res_json
        (JObj [("success", JBool true);
               ("message", JStr ("Welcome " +:+ User.displayName u +:+ "!"));
               ("user", JObj ([("email", JStr (User.email u));
                               ("displayName", JStr (User.displayName u))]
                              ++ prop "picture" (User.picture u)));
               ("links", JObj [("tasks", JStr "/api/tasks");
                               ("profile", JStr "/auth/profile");
                               ("logout", JStr "/auth/logout")])])
  end.

Definition login_failed : Response :=
  res_status_json 401
    (JObj [("success", JBool false);
           ("message", JStr "Authentication failed. Please try again.");
           ("loginUrl", JStr "/auth/google")]).

Definition route_not_found : Response :=
  res_status_json 404
    (JObj [("success", JBool false); ("message", JStr "Route not found")]).

(** * Properties *)

(** ** The monad *)

Ltac monad :=
  unfold bind, ret, throw, get, modify, try_catch, on_db, Date_now,
    console_error in *; simpl in *.

Lemma try_catch_ok {A} (m : M A) h w a w' :
  m w = (Ok a, w') -> try_catch m h w = (Ok a, w').
Proof. intros H. unfold try_catch. now rewrite H. Qed.

Lemma try_catch_throw {A} (m : M A) h w e w' :
  m w = (Throw e, w') -> try_catch m h w = h e w'.
Proof. intros H. unfold try_catch. now rewrite H. Qed.

(** ** The error handler *)

Lemma error_handler_eq (err : Err.t) (w : World) :
  error_handler err w = (Ok (internal_error err), log_line (Err.stack err) w).
Proof. reflexivity. Qed.

(** C9, as the code has it: whatever reaches the error handler is answered
    with status 500, the fixed text "Something went wrong!" and, next to it,
    the message of the error; the stack goes to the console only, so two
    errors with the same message get the same response. *)
Theorem error_handler_response (h : M Response) (w w1 : World) (err : Err.t) :
  h w = (Throw err, w1) ->
  try_catch h error_handler w
    = (Ok (res_status_json 500
             (JObj [("success", JBool false);
                    ("message", JStr "Something went wrong!");
                    ("error", JStr (Err.message err))])),
       log_line (Err.stack err) w1)
  /\ (forall err', Err.message err' = Err.message err ->
        fst (error_handler err' w1) = fst (error_handler err w1)).
Proof.
  intros H. split.
  - now rewrite (try_catch_throw _ _ _ _ _ H).
  - intros err' Hm. rewrite !error_handler_eq. simpl.
    unfold internal_error. now rewrite Hm.
Qed.

Lemma error_handler_response_witness :
  try_catch (throw Sample.econnrefused) error_handler Sample.world
    = (Ok (internal_error Sample.econnrefused),
       log_line (Err.stack Sample.econnrefused) Sample.world).
Proof.
  apply (error_handler_response (throw Sample.econnrefused) Sample.world
           Sample.world Sample.econnrefused).
  reflexivity.
Defined.

(** C9 as stated fails: the body is not the generic message alone, it
    carries the message of the error, here the address of the database. *)
Lemma error_handler_leaks_message :
  fst (error_handler Sample.econnrefused Sample.world)
    = Ok (res_status_json 500
            (JObj [("success", JBool false);
                   ("message", JStr "Something went wrong!");
                   ("error", JStr "connect ECONNREFUSED 10.0.0.5:27017")]))
  /\ fst (error_handler Sample.econnrefused Sample.world)
       <> Ok (res_status_json 500
                (JObj [("success", JBool false);
                       ("message", JStr "Something went wrong!")])).
Proof. split; [reflexivity | discriminate]. Qed.

(** ** The session middleware and passport in front of the routes *)

Lemma same_but_sessions_refl w : same_but_sessions w w.
Proof. now repeat split. Qed.

Lemma same_but_sessions_set m w : same_but_sessions w (set_sessions m w).
Proof. now repeat split. Qed.

Lemma same_but_sessions_trans w1 w2 w3 :
  same_but_sessions w1 w2 -> same_but_sessions w2 w3 -> same_but_sessions w1 w3.
Proof.
  intros (A & B & C & D & E & F) (A' & B' & C' & D' & E' & F').
  repeat split; congruence.
Qed.

Lemma same_but_sessions_modified m w : same_but_sessions w (set_modified m w).
Proof. now repeat split. Qed.

Lemma same_but_sessions_issued ids w : same_but_sessions w (set_issued ids w).
Proof. now repeat split. Qed.

Lemma same_but_sessions_cookie c w : same_but_sessions w (send_cookie c w).
Proof. now repeat split. Qed.

Create HintDb world.
#[local] Hint Resolve same_but_sessions_refl same_but_sessions_set
  same_but_sessions_modified same_but_sessions_issued
  same_but_sessions_cookie : world.

Lemma commit_eq req res w :
  Session.commit req res w = (Ok res, response_end req w).
Proof.
  unfold response_end, Session.commit, Session.touch, Session.set_cookie.
  destruct (session req) as [[sid s]|]; monad;
    destruct (modified w) as [m|]; simpl;
    try destruct (is_production (NODE_ENV w)); reflexivity.
Qed.

Lemma response_end_same req w : same_but_sessions w (response_end req w).
Proof.
  unfold response_end, Session.commit, Session.touch, Session.set_cookie.
  destruct (session req) as [[sid s]|]; monad;
    destruct (modified w) as [m|]; simpl;
    try destruct (is_production (NODE_ENV w)); now repeat split.
Qed.

Lemma response_end_sessions req w :
  sessions (response_end req w)
  = match session req with
    | Some (sid, _) =>
        alter (fun s => mkSess (passport_user s) (clock w + 86400000)) sid
              (sessions w)
    | None => sessions w
    end.
Proof.
  unfold response_end, Session.commit, Session.touch, Session.set_cookie.
  destruct (session req) as [[sid s]|]; monad;
    destruct (modified w) as [m|]; simpl;
    try destruct (is_production (NODE_ENV w)); reflexivity.
Qed.

Lemma response_end_issued req w : issued (response_end req w) = issued w.
Proof.
  unfold response_end, Session.commit, Session.touch, Session.set_cookie.
  destruct (session req) as [[sid s]|]; monad;
    destruct (modified w) as [m|]; simpl;
    try destruct (is_production (NODE_ENV w)); reflexivity.
Qed.

Lemma response_end_cookies req w :
  set_cookies (response_end req w) = set_cookies w ++ due_cookie w.
Proof.
  unfold response_end, due_cookie, Session.commit, Session.touch,
    Session.set_cookie.
  destruct (session req) as [[sid s]|]; monad;
    destruct (modified w) as [m|]; simpl;
    try destruct (is_production (NODE_ENV w)); simpl;
    now rewrite ?app_nil_r.
Qed.

Lemma response_end_dom req w :
  dom (sessions (response_end req w)) = dom (sessions w).
Proof.
  rewrite response_end_sessions.
  destruct (session req) as [[sid s]|]; [apply dom_alter_L|reflexivity].
Qed.

Lemma commit_response req res w :
  exists w', Session.commit req res w = (Ok res, w') /\ same_but_sessions w w'.
Proof.
  exists (response_end req w). split; [apply commit_eq|apply response_end_same].
Qed.

#[local] Arguments Session.commit : simpl never.
#[local] Arguments response_end : simpl never.

(** The request passport hands to the routes, and the world it leaves, for a
    session that validates. *)
Lemma app_valid c i w sid s u :
  validate i w = Valid sid s u ->
  app c i w
  = (let* res := try_catch (routes c (mkReq i (Some (sid, s)) (Some u)))
                           error_handler in
     Session.commit (mkReq i (Some (sid, s)) None) res) w.
Proof.
  unfold validate. intros H.
  destruct (cookie i) as [sid'|] eqn:Hc; [|discriminate].
  destruct (sessions w !! sid') as [s'|] eqn:Hs; [|discriminate].
  destruct (expires s' <=? clock w)%Z eqn:He; [discriminate|].
  destruct (passport_user s') as [id|] eqn:Hu; [|discriminate].
  destruct (connected (db w)) eqn:Hconn; [|discriminate].
  destruct (List.find (Users.by_id id) (users (db w))) as [u'|] eqn:Hf;
    [|discriminate].
  injection H as -> -> ->.
  unfold app, Session.middleware, Session.load. monad.
  rewrite Hc, Hs, He. simpl.
  unfold Passport.session at 1. simpl. rewrite Hu.
  unfold deserializeUser, Users.findById. monad. rewrite Hconn, Hf. simpl.
  unfold set_user, set_db. simpl.
  replace (mkWorld (db w) (sessions w) (console w) (clock w) (NODE_ENV w)
             (GOOGLE_CLIENT_ID w) (GOOGLE_CALLBACK_URL w) (issued w)
             (modified w) (set_cookies w))
    with w by now destruct w.
  reflexivity.
Qed.

(** A lookup the database cannot answer ends in the error handler. *)
Lemma app_failed_eq i w e :
  validate i w = Failed e ->
  exists sid s,
    cookie i = Some sid /\ sessions w !! sid = Some s /\
    forall c, app c i w
              = (Ok (internal_error e),
                 response_end (mkReq i (Some (sid, s)) None)
                              (log_line (Err.stack e) w)).
Proof.
  unfold validate. intros H.
  destruct (cookie i) as [sid'|] eqn:Hc; [|discriminate].
  destruct (sessions w !! sid') as [s'|] eqn:Hs; [|discriminate].
  destruct (expires s' <=? clock w)%Z eqn:He; [discriminate|].
  destruct (passport_user s') as [id|] eqn:Hu; [|discriminate].
  destruct (connected (db w)) eqn:Hconn.
  { destruct (List.find (Users.by_id id) (users (db w))); discriminate. }
  injection H as <-.
  exists sid', s'. split; [reflexivity|]. split; [exact Hs|]. intros c.
  unfold app, Session.middleware, Session.load. monad.
  rewrite Hc, Hs, He. simpl.
  unfold Passport.session at 1. simpl. rewrite Hu.
  unfold deserializeUser, Users.findById. monad. rewrite Hconn. simpl.
  apply commit_eq.
Qed.

Lemma app_failed i w e :
  validate i w = Failed e ->
  exists w', db w' = db w /\
    forall c, app c i w = (Ok (internal_error e), w').
Proof.
  intros H. destruct (app_failed_eq i w e H) as (sid & s & _ & _ & Happ).
  eexists. split; [|exact Happ].
  now destruct (response_end_same (mkReq i (Some (sid, s)) None)
                  (log_line (Err.stack e) w)) as (A & _).
Qed.

(** A session that does not validate reaches the routes without a
    principal; the database, the console and the clock are as before. *)
Lemma app_invalid i w :
  validate i w = Invalid ->
  exists req1 req0 w1,
    incoming req1 = i /\ user req1 = None /\ same_but_sessions w w1 /\
    forall c,
      app c i w
      = (let* res := try_catch (routes c req1) error_handler in
         Session.commit req0 res) w1.
Proof.
  unfold validate. intros H.
  destruct (cookie i) as [sid'|] eqn:Hc.
  2:{ exists (mkReq i None None), (mkReq i None None), w.
      repeat split. intros c.
      unfold app, Session.middleware, Session.load. monad. now rewrite Hc. }
  destruct (sessions w !! sid') as [s'|] eqn:Hs.
  2:{ exists (mkReq i None None), (mkReq i None None), w.
      repeat split. intros c.
      unfold app, Session.middleware, Session.load. monad. now rewrite Hc, Hs. }
  destruct (expires s' <=? clock w)%Z eqn:He.
  { exists (mkReq i None None), (mkReq i None None),
      (set_sessions (delete sid' (sessions w)) w).
    repeat split. intros c.
    unfold app, Session.middleware, Session.load, Session.destroy. monad.
    now rewrite Hc, Hs, He. }
  destruct (passport_user s') as [id|] eqn:Hu.
  2:{ exists (mkReq i (Some (sid', s')) None), (mkReq i (Some (sid', s')) None), w.
      repeat split. intros c.
      unfold app, Session.middleware, Session.load. monad.
      rewrite Hc, Hs, He. simpl.
      unfold Passport.session at 1. simpl. now rewrite Hu. }
  destruct (connected (db w)) eqn:Hconn; [|discriminate].
  destruct (List.find (Users.by_id id) (users (db w))) as [u'|] eqn:Hf;
    [discriminate|].
  exists (mkReq i (Some (sid', mkSess None (expires s'))) None),
    (mkReq i (Some (sid', s')) None),
    (set_modified (Some sid')
       (set_sessions (<[sid' := mkSess None (expires s')]> (sessions w)) w)).
  repeat split. intros c.
  unfold app, Session.middleware, Session.load. monad.
  rewrite Hc, Hs, He. simpl.
  unfold Passport.session at 1. simpl. rewrite Hu.
  unfold deserializeUser, Users.findById, Session.store. monad.
  now rewrite Hconn, Hf.
Qed.

Ltac loaded_facts :=
  split; simpl; intros;
  try match goal with
      | H : cookie ?i = Some ?a, H' : cookie ?i = Some _ |- _ =>
          rewrite H in H'
      end;
  repeat match goal with
         | H : Some _ = Some _ |- _ => injection H as H; subst
         end;
  try reflexivity; try congruence.

(** When the session lookup is answered, the routes run on a request that
    carries the principal of the session, if any, in a world that differs
    from the one before at most in what express-session keeps, where no
    session has been added. *)
Lemma app_reaches_routes i w :
  (forall e, validate i w <> Failed e) ->
  exists req1 w1,
    incoming req1 = i /\
    user req1 = principal_of (validate i w) /\
    same_but_sessions w w1 /\
    dom (sessions w1) ⊆ dom (sessions w) /\
    (forall sid s, session req1 = Some (sid, s) -> sessions w1 !! sid = Some s) /\
    (forall sid s u, validate i w = Valid sid s u ->
       req1 = mkReq i (Some (sid, s)) (Some u) /\ w1 = w) /\
    session_loaded i w req1 w1 /\
    forall c,
      app c i w
      = (let* res := try_catch (routes c req1) error_handler in
         Session.commit req1 res) w1.
Proof.
  intros H.
  destruct (cookie i) as [sid'|] eqn:Hc.
  2:{ exists (mkReq i None None), w. unfold validate. rewrite Hc.
      split; [reflexivity|]. split; [reflexivity|].
      split; [apply same_but_sessions_refl|].
      split; [reflexivity|].
      split; [intros ? ? Heq; simpl in Heq; discriminate|].
      split; [discriminate|].
      split; [loaded_facts|].
      intros c.
      unfold app, Session.middleware, Session.load. monad. now rewrite Hc. }
  destruct (sessions w !! sid') as [s'|] eqn:Hs.
  2:{ exists (mkReq i None None), w. unfold validate. rewrite Hc, Hs.
      split; [reflexivity|]. split; [reflexivity|].
      split; [apply same_but_sessions_refl|].
      split; [reflexivity|].
      split; [intros ? ? Heq; simpl in Heq; discriminate|].
      split; [discriminate|].
      split; [loaded_facts|].
      intros c.
      unfold app, Session.middleware, Session.load. monad. now rewrite Hc, Hs. }
  destruct (expires s' <=? clock w)%Z eqn:He.
  { exists (mkReq i None None), (set_sessions (delete sid' (sessions w)) w).
    unfold validate. rewrite Hc, Hs, He.
    split; [reflexivity|]. split; [reflexivity|].
    split; [apply same_but_sessions_set|].
    split; [simpl; rewrite dom_delete_L; apply subseteq_difference_l; reflexivity|].
    split; [intros ? ? Heq; simpl in Heq; discriminate|].
    split; [discriminate|].
    split.
    { loaded_facts.
      - apply lookup_delete_eq.
      - apply lookup_delete_ne. congruence. }
    intros c.
    unfold app, Session.middleware, Session.load, Session.destroy. monad.
    now rewrite Hc, Hs, He. }
  destruct (passport_user s') as [id|] eqn:Hu.
  2:{ exists (mkReq i (Some (sid', s')) None), w.
      unfold validate. rewrite Hc, Hs, He, Hu.
      split; [reflexivity|]. split; [reflexivity|].
      split; [apply same_but_sessions_refl|].
      split; [reflexivity|].
      split; [intros sid s Heq; injection Heq as <- <-; exact Hs|].
      split; [discriminate|].
      split; [loaded_facts|].
      intros c.
      unfold app, Session.middleware, Session.load. monad.
      rewrite Hc, Hs, He. simpl.
      unfold Passport.session at 1. simpl. now rewrite Hu. }
  destruct (connected (db w)) eqn:Hconn.
  2:{ exfalso. eapply H. unfold validate. now rewrite Hc, Hs, He, Hu, Hconn. }
  destruct (List.find (Users.by_id id) (users (db w))) as [u'|] eqn:Hf.
  - exists (mkReq i (Some (sid', s')) (Some u')), w.
    assert (Hv : validate i w = Valid sid' s' u').
    { unfold validate. now rewrite Hc, Hs, He, Hu, Hconn, Hf. }
    rewrite Hv.
    split; [reflexivity|]. split; [reflexivity|].
    split; [apply same_but_sessions_refl|].
    split; [reflexivity|].
    split; [intros sid s Heq; injection Heq as <- <-; exact Hs|].
    split; [intros sid s u Heq; injection Heq as <- <- <-; now split|].
    split; [loaded_facts|].
    intros c. now apply (app_valid c i w sid' s' u').
  - exists (mkReq i (Some (sid', mkSess None (expires s'))) None),
      (set_modified (Some sid')
         (set_sessions (<[sid' := mkSess None (expires s')]> (sessions w)) w)).
    unfold validate. rewrite Hc, Hs, He, Hu, Hconn, Hf.
    split; [reflexivity|]. split; [reflexivity|].
    split; [now repeat split|].
    split.
    { simpl. rewrite dom_insert_L. apply union_least; [|reflexivity].
      apply singleton_subseteq_l. apply elem_of_dom. eauto. }
    split.
    { intros sid s Heq; injection Heq as <- <-. simpl. apply lookup_insert_eq. }
    split; [discriminate|].
    split; [loaded_facts; apply lookup_insert_ne; congruence|].
    intros c.
    unfold app, Session.middleware, Session.load. monad.
    rewrite Hc, Hs, He. simpl.
    unfold Passport.session at 1. simpl. rewrite Hu.
    unfold deserializeUser, Users.findById, Session.store. monad.
    now rewrite Hconn, Hf.
Qed.

(** What [app] does with any request: the session lookup fails and the
    error handler answers, or the routes run and the response goes out
    through the session middleware. *)
Lemma app_cases c i w :
  (exists e w', db w' = db w /\ app c i w = (Ok (internal_error e), w')) \/
  (exists req1 req0 w1,
      incoming req1 = i /\ same_but_sessions w w1 /\
      app c i w
      = (let* res := try_catch (routes c req1) error_handler in
         Session.commit req0 res) w1).
Proof.
  destruct (validate i w) as [|sid s u|e] eqn:Hv.
  - destruct (app_invalid i w Hv) as (req1 & req0 & w1 & Hi & _ & Hw & Happ).
    right. exists req1, req0, w1. auto.
  - right. exists (mkReq i (Some (sid, s)) (Some u)),
      (mkReq i (Some (sid, s)) None), w.
    split; [reflexivity|]. split; [auto with world|].
    now apply app_valid.
  - destruct (app_failed i w e Hv) as (w' & Hdb & Happ).
    left. exists e, w'. split; [exact Hdb|apply Happ].
Qed.

Lemma routes_callback c (req : Request) :
  method req = GET -> path req = Auth auth_google_callback ->
  routes c req
  = authenticate (mkAuthOptions None (Some "/login-failed")) req
      (fun req => ret (res_redirect "/dashboard")).
Proof.
  intros Hm Hp. unfold routes, auth_router. now rewrite Hp, Hm.
Qed.

(** ** The guard in front of the task routes *)

Lemma ensureAuthenticated_guest req next w :
  user req = None ->
  ensureAuthenticated req next w = (Ok authentication_required, w).
Proof.
  intros H. unfold ensureAuthenticated, Passport.isAuthenticated. now rewrite H.
Qed.

Lemma ensureAuthenticated_user req next w u :
  user req = Some u -> ensureAuthenticated req next w = next req w.
Proof.
  intros H. unfold ensureAuthenticated, Passport.isAuthenticated. now rewrite H.
Qed.

Lemma routes_tasks c (req : Request) p :
  path req = ApiTasks p ->
  routes c req
  = ensureAuthenticated req (fun req =>
      match task_route c (method req) p with
      | Some handler => handler req
      | None => app_routes req
      end).
Proof.
  intros H. unfold routes, auth_router, tasks_router. rewrite H.
  now destruct (method req).
Qed.

Lemma guard_invalid c i w p :
  path i = ApiTasks p ->
  validate i w = Invalid ->
  fst (app c i w) = Ok authentication_required /\
  same_but_sessions w (snd (app c i w)) /\
  forall c', app c' i w = app c i w.
Proof.
  intros Hp H.
  assert (Hguest : forall c0 req1 w1, incoming req1 = i -> user req1 = None ->
            routes c0 req1 w1 = (Ok authentication_required, w1)).
  { intros c0 req1 w1 Hi Hu.
    rewrite (routes_tasks c0 req1 p) by now rewrite Hi.
    now apply ensureAuthenticated_guest. }
  destruct (app_invalid i w H) as (req1 & req0 & w1 & Hi & Hu & Hw & Happ).
  assert (Hc : forall c0, app c0 i w
                 = Session.commit req0 authentication_required w1).
  { intros c0. rewrite Happ. unfold bind.
    now rewrite (try_catch_ok _ _ _ _ _ (Hguest c0 req1 w1 Hi Hu)). }
  destruct (commit_response req0 authentication_required w1) as (w' & Hw1 & Hw').
  split; [|split].
  - now rewrite Hc, Hw1.
  - rewrite Hc, Hw1. simpl. eapply same_but_sessions_trans; eauto.
  - intros c'. now rewrite !Hc.
Qed.

(** C2: on every task route the guard answers a request whose session does
    not validate (no cookie, unknown or expired session, no account behind
    it) with 401, a message and the login entry point /auth/google, whatever
    the handlers are, and none of them runs; a request whose session
    validates is handed to the handler of the route with the account in
    [req.user]. *)
Theorem guard_protects_task_routes (c : TaskController) (i : Incoming)
    (w : World) (p : TasksPath) :
  path i = ApiTasks p ->
  (forall req next w0,
      Passport.isAuthenticated req = false ->
      ensureAuthenticated req next w0
      = (Ok (res_status_json 401
               (JObj [("success", JBool false);
                      ("message", JStr "Authentication required. Please login first.");
                      ("redirectTo", JStr "/auth/google")])), w0)) /\
  (forall req next w0,
      Passport.isAuthenticated req = true ->
      ensureAuthenticated req next w0 = next req w0) /\
  (validate i w = Invalid ->
     fst (app c i w) = Ok authentication_required /\
     same_but_sessions w (snd (app c i w)) /\
     forall c', app c' i w = app c i w) /\
  (forall sid s u handler,
      validate i w = Valid sid s u ->
      task_route c (method i) p = Some handler ->
      app c i w
      = (let* res := try_catch (handler (mkReq i (Some (sid, s)) (Some u)))
                               error_handler in
         Session.commit (mkReq i (Some (sid, s)) None) res) w).
Proof.
  intros Hp.
  split; [|split; [|split]].
  - intros req next w0 H. unfold ensureAuthenticated. now rewrite H.
  - intros req next w0 H. unfold ensureAuthenticated. now rewrite H.
  - intros H. now apply guard_invalid with (p := p).
  - intros sid s u handler Hv Hr.
    rewrite (app_valid c i w sid s u Hv).
    rewrite (routes_tasks c _ p) by exact Hp.
    unfold bind, try_catch.
    rewrite (ensureAuthenticated_user _ _ _ u) by reflexivity.
    simpl. now rewrite Hr.
Qed.

Lemma guard_protects_task_routes_witness :
  fst (app Controller.controller
           (Sample.request GET (ApiTasks tasks_root) None) Sample.world)
    = Ok authentication_required
  /\ app Controller.controller
         (Sample.request GET (ApiTasks tasks_root) (Some 7%nat)) Sample.world
     = (let* res :=
          try_catch (Controller.getAllTasks
                       (mkReq (Sample.request GET (ApiTasks tasks_root) (Some 7%nat))
                              (Some (7%nat, mkSess (Some 2%nat) 5000))
                              (Some Sample.bob)))
                    error_handler in
        Session.commit
          (mkReq (Sample.request GET (ApiTasks tasks_root) (Some 7%nat))
                 (Some (7%nat, mkSess (Some 2%nat) 5000)) None) res) Sample.world.
Proof.
  split.
  - destruct (guard_protects_task_routes Controller.controller
                (Sample.request GET (ApiTasks tasks_root) None)
                Sample.world tasks_root) as (_ & _ & H & _);
      [reflexivity|].
    apply H. reflexivity.
  - destruct (guard_protects_task_routes Controller.controller
                (Sample.request GET (ApiTasks tasks_root) (Some 7%nat))
                Sample.world tasks_root) as (_ & _ & _ & H);
      [reflexivity|].
    apply H; reflexivity.
Defined.

(** ** Sessions whose account is gone *)

Lemma lookup_after_touch (m : gmap SessionId Sess) sid s0 f :
  alter f sid (<[sid := s0]> m) !! sid = Some (f s0).
Proof. rewrite lookup_alter_eq, lookup_insert_eq. reflexivity. Qed.

(** C5: a session bound to an account id that no account has does not
    authenticate a request to a task route.  [deserializeUser] reports no
    user, passport drops the binding from the session, the guard answers 401
    and no handler runs; when the database cannot be asked at all the
    request ends in the error handler and no handler runs either. *)
Theorem orphan_session_is_unauthenticated (c : TaskController) (i : Incoming)
    (w : World) (p : TasksPath) (sid : SessionId) (s : Sess) (id : ObjectId) :
  path i = ApiTasks p ->
  cookie i = Some sid ->
  sessions w !! sid = Some s ->
  (clock w < expires s)%Z ->
  passport_user s = Some id ->
  List.find (Users.by_id id) (users (db w)) = None ->
  (forall c', app c' i w = app c i w) /\
  db (snd (app c i w)) = db w /\
  (connected (db w) = true ->
     deserializeUser id w = (Ok (done None None), w) /\
     validate i w = Invalid /\
     fst (app c i w) = Ok authentication_required /\
     sessions (snd (app c i w)) !! sid
       = Some (mkSess None (clock w + 86400000))).
Proof.
  intros Hp Hc Hs He Hu Hf.
  assert (He' : (expires s <=? clock w)%Z = false) by now apply Z.leb_gt.
  destruct (connected (db w)) eqn:Hconn.
  - assert (Hv : validate i w = Invalid).
    { unfold validate. now rewrite Hc, Hs, He', Hu, Hconn, Hf. }
    destruct (guard_invalid c i w p Hp Hv) as (Hr & Hw & Hind).
    split; [exact Hind|]. split; [apply Hw|].
    intros _. split; [|split; [exact Hv|split; [exact Hr|]]].
    + unfold deserializeUser, Users.findById. monad. rewrite Hconn, Hf.
      simpl. unfold set_db. now destruct w.
    + unfold app, Session.middleware, Session.load. monad.
      rewrite Hc, Hs, He'. simpl.
      unfold Passport.session at 1. simpl. rewrite Hu.
      unfold deserializeUser, Users.findById, Session.store. monad.
      rewrite Hconn, Hf. simpl.
      rewrite (routes_tasks c _ p) by exact Hp.
      rewrite ensureAuthenticated_guest by reflexivity.
      rewrite commit_eq. simpl. rewrite response_end_sessions. simpl.
      apply lookup_after_touch.
  - assert (Hv : validate i w = Failed (buffering_timed_out "users.findOne()")).
    { unfold validate. now rewrite Hc, Hs, He', Hu, Hconn. }
    destruct (app_failed i w _ Hv) as (w' & Hdb & Happ).
    split; [|split].
    + intros c'. now rewrite !Happ.
    + now rewrite Happ.
    + discriminate.
Qed.

Lemma orphan_session_is_unauthenticated_witness :
  fst (app Controller.controller
           (Sample.request DELETE (ApiTasks (tasks_item (oid 10))) (Some 9%nat))
           Sample.world)
  = Ok authentication_required.
Proof.
  apply (orphan_session_is_unauthenticated Controller.controller
           (Sample.request DELETE (ApiTasks (tasks_item (oid 10))) (Some 9%nat))
           Sample.world (tasks_item (oid 10)) 9%nat (mkSess (Some 5%nat) 5000) 5%nat);
    try reflexivity.
Defined.

(** ** What computations leave alone *)

Section Preserves.
Variable R : World -> World -> Prop.
Hypothesis R_refl : forall w, R w w.
Hypothesis R_trans : forall w1 w2 w3, R w1 w2 -> R w2 w3 -> R w1 w3.

Lemma preserves_ret {A} (a : A) : preserves R (ret a).
Proof. intros w. apply R_refl. Qed.

Lemma preserves_throw {A} (e : Err.t) : preserves R (@throw A e).
Proof. intros w. apply R_refl. Qed.

Lemma preserves_get : preserves R get.
Proof. intros w. apply R_refl. Qed.

Lemma preserves_Date_now : preserves R Date_now.
Proof. intros w. apply R_refl. Qed.

Lemma preserves_bind {A B} (m : M A) (k : A -> M B) :
  preserves R m -> (forall a, preserves R (k a)) -> preserves R (bind m k).
Proof.
  intros Hm Hk w. unfold bind. specialize (Hm w).
  destruct (m w) as [[a|e] w1]; simpl in *.
  - eapply R_trans; [exact Hm | apply Hk].
  - exact Hm.
Qed.

Lemma preserves_try_catch {A} (m : M A) (h : Err.t -> M A) :
  preserves R m -> (forall e, preserves R (h e)) -> preserves R (try_catch m h).
Proof.
  intros Hm Hh w. unfold try_catch. specialize (Hm w).
  destruct (m w) as [[a|e] w1]; simpl in *.
  - exact Hm.
  - eapply R_trans; [exact Hm | apply Hh].
Qed.

Lemma preserves_modify (f : World -> World) :
  (forall w, R w (f w)) -> preserves R (modify f).
Proof. intros H w. apply H. Qed.

Lemma preserves_on_db {A} (op : Store -> Result (A * Store)) :
  (forall w s, R w (set_db s w)) -> preserves R (on_db op).
Proof.
  intros H w. unfold on_db. destruct (op (db w)) as [[a s]|e]; simpl.
  - apply H.
  - apply R_refl.
Qed.
End Preserves.

Lemma same_env_refl w : same_env w w.
Proof. now split. Qed.

Lemma same_env_trans w1 w2 w3 : same_env w1 w2 -> same_env w2 w3 -> same_env w1 w3.
Proof. intros [A B] [A' B']. split; congruence. Qed.

(** Only what express-session keeps is written: the database is the
    same. *)
Lemma same_but_sessions_db w w' : same_but_sessions w w' -> db w' = db w.
Proof. now intros (A & _). Qed.

Ltac preserves_env :=
  repeat first
    [ apply (preserves_bind same_env same_env_trans)
    | apply (preserves_try_catch same_env same_env_trans)
    | apply (preserves_ret same_env same_env_refl)
    | apply (preserves_throw same_env same_env_refl)
    | apply (preserves_get same_env same_env_refl)
    | apply (preserves_Date_now same_env same_env_refl)
    | apply (preserves_on_db same_env same_env_refl); intros; now split
    | apply (preserves_modify same_env); intros; now split
    | match goal with
      | |- preserves _ (match ?x with _ => _ end) => destruct x
      end
    | progress unfold first_value, name_field, console_error
    | intros ].

Lemma verify_same_env at_ rt p : preserves same_env (verify at_ rt p).
Proof. unfold verify, verify_try, verify_catch. preserves_env. Qed.

(** ** Logout *)

Lemma generate_id_fresh w :
  sessions w !! Session.generate_id w = None /\ Session.generate_id w ∉ issued w.
Proof.
  unfold Session.generate_id.
  pose proof (is_fresh (dom (sessions w) ∪ issued w)) as H.
  split.
  - apply not_elem_of_dom. intros Hin. apply H. now apply elem_of_union_l.
  - intros Hin. apply H. now apply elem_of_union_r.
Qed.

Lemma regenerate_eq req w :
  Session.regenerate req w
  = (Ok (Session.generate_id w, mkSess None (clock w + 86400000)),
     regenerated req w).
Proof.
  unfold regenerated, Session.regenerate, Session.destroy, Session.store.
  destruct (session req) as [[sid s]|]; reflexivity.
Qed.

Lemma regenerated_sessions req w :
  sessions (regenerated req w)
  = <[Session.generate_id w := mkSess None (clock w + 86400000)]>
      (match session req with
       | Some (sid, _) => delete sid (sessions w)
       | None => sessions w
       end).
Proof.
  unfold regenerated, Session.regenerate, Session.destroy, Session.store.
  destruct (session req) as [[sid s]|]; reflexivity.
Qed.

Lemma regenerated_same req w : same_but_sessions w (regenerated req w).
Proof.
  unfold regenerated, Session.regenerate, Session.destroy, Session.store.
  destruct (session req) as [[sid s]|]; now repeat split.
Qed.

Lemma regenerated_issued req w :
  issued (regenerated req w) = {[Session.generate_id w]} ∪ issued w.
Proof.
  unfold regenerated, Session.regenerate, Session.destroy, Session.store.
  destruct (session req) as [[sid s]|]; reflexivity.
Qed.

Lemma regenerated_modified req w :
  modified (regenerated req w) = Some (Session.generate_id w).
Proof.
  unfold regenerated, Session.regenerate, Session.destroy, Session.store.
  destruct (session req) as [[sid s]|]; reflexivity.
Qed.

Lemma regenerated_cookies req w : set_cookies (regenerated req w) = set_cookies w.
Proof.
  unfold regenerated, Session.regenerate, Session.destroy, Session.store.
  destruct (session req) as [[sid s]|]; reflexivity.
Qed.

#[local] Arguments Session.regenerate : simpl never.
#[local] Arguments regenerated : simpl never.

Lemma routes_logout c (req : Request) :
  method req = GET -> path req = Auth auth_logout ->
  routes c req = logout_route req.
Proof.
  intros Hm Hp. unfold routes, auth_router. now rewrite Hp, Hm.
Qed.

(** The logout handler: the session of the request is gone, a new, empty
    one is stored under a new id and marked for the cookie. *)
Lemma logout_route_eq req w :
  exists new w',
    logout_route req w = (Ok logged_out, w') /\
    same_but_sessions w w' /\
    sessions w !! new = None /\ (new ∉ issued w) /\
    (forall sid s, session req = Some (sid, s) -> new <> sid) /\
    sessions w'
    = <[new := mkSess None (clock w + 86400000)]>
        (match session req with
         | Some (sid, _) => delete sid (sessions w)
         | None => sessions w
         end) /\
    issued w' = {[new]} ∪ issued w /\
    modified w' = Some new /\
    set_cookies w' = set_cookies w.
Proof.
  unfold logout_route, Passport.logout.
  destruct (session req) as [[sid s]|] eqn:Hs.
  - set (w0 := set_sessions (<[sid := mkSess None (expires s)]> (sessions w)) w).
    destruct (generate_id_fresh w0) as [Hf Hi].
    assert (Hs0 : sessions w0 = <[sid := mkSess None (expires s)]> (sessions w))
      by reflexivity.
    rewrite Hs0 in Hf.
    assert (Hne : sid <> Session.generate_id w0).
    { intros Heq. rewrite <- Heq in Hf. now rewrite lookup_insert_eq in Hf. }
    exists (Session.generate_id w0), (regenerated req w0).
    split.
    { unfold bind, Session.store, modify. fold w0. now rewrite regenerate_eq. }
    split.
    { apply same_but_sessions_trans with (w2 := w0);
        [apply same_but_sessions_set|apply regenerated_same]. }
    split; [now rewrite lookup_insert_ne in Hf by exact Hne|].
    split; [exact Hi|].
    split; [intros sid1 s1 Heq; injection Heq as <- <-; congruence|].
    split.
    { rewrite regenerated_sessions, Hs, Hs0. now rewrite delete_insert_eq. }
    split; [exact (regenerated_issued req w0)|].
    split; [exact (regenerated_modified req w0)|exact (regenerated_cookies req w0)].
  - destruct (generate_id_fresh w) as [Hf Hi].
    exists (Session.generate_id w), (regenerated req w).
    split.
    { unfold bind, ret. now rewrite regenerate_eq. }
    split; [apply regenerated_same|].
    split; [exact Hf|]. split; [exact Hi|].
    split; [discriminate|].
    split; [now rewrite regenerated_sessions, Hs|].
    split; [apply regenerated_issued|].
    split; [apply regenerated_modified|apply regenerated_cookies].
Qed.

Lemma logout_same_but_sessions req w :
  same_but_sessions w (snd (logout_route req w)).
Proof.
  destruct (logout_route_eq req w) as (new & w' & -> & Hw & _). exact Hw.
Qed.

(** GET /auth/logout when the session lookup is answered. *)
Lemma logout_answered c i w :
  method i = GET -> path i = Auth auth_logout ->
  signed i w ->
  (forall e, validate i w <> Failed e) ->
  exists new,
    fst (app c i w) = Ok logged_out /\
    same_but_sessions w (snd (app c i w)) /\
    sessions w !! new = None /\ (new ∉ issued w) /\
    sessions (snd (app c i w)) !! new = Some (mkSess None (clock w + 86400000)) /\
    (forall sid, cookie i = Some sid -> sessions (snd (app c i w)) !! sid = None) /\
    (forall k, k <> new -> cookie i <> Some k ->
               sessions (snd (app c i w)) !! k = sessions w !! k) /\
    issued (snd (app c i w)) = {[new]} ∪ issued w /\
    set_cookies (snd (app c i w))
    = set_cookies w ++ (if is_production (NODE_ENV w) then []
                        else [(new, session_cookie (NODE_ENV w))]).
Proof.
  intros Hm Hp Hsig Hv.
  destruct (app_reaches_routes i w Hv)
    as (req1 & w1 & Hi & _ & Hw & _ & Hs & _ & Hl & Happ).
  destruct Hl as [Hiss Hck Hcookie Hnone Hothers].
  destruct (logout_route_eq req1 w1)
    as (new & w2 & Hlo & Hw2 & Hnew & Hniss & Hne & Hs2 & Hiss2 & Hmod2 & Hck2).
  assert (Heq : app c i w = (Ok logged_out, response_end req1 w2)).
  { rewrite Happ. unfold bind, try_catch.
    rewrite routes_logout by (rewrite Hi; assumption).
    rewrite Hlo. apply commit_eq. }
  assert (Hclock : clock w1 = clock w) by apply Hw.
  assert (Hnew_cookie : cookie i <> Some new).
  { intros Hcn. apply Hniss. rewrite Hiss. now apply Hsig. }
  exists new. rewrite Heq. simpl.
  split; [reflexivity|].
  split.
  { eapply same_but_sessions_trans; [exact Hw|].
    eapply same_but_sessions_trans; [exact Hw2|apply response_end_same]. }
  split; [now rewrite <- Hothers|].
  split; [now rewrite <- Hiss|].
  rewrite response_end_sessions, Hs2, response_end_issued, response_end_cookies.
  split; [|split; [|split; [|split]]].
  - destruct (session req1) as [[sid1 s1]|] eqn:Hsess.
    + rewrite lookup_alter_ne by (intros Heq'; now apply (Hne sid1 s1)).
      now rewrite lookup_insert_eq, Hclock.
    + now rewrite lookup_insert_eq, Hclock.
  - intros sid Hc.
    assert (Hsn : sid <> new) by congruence.
    destruct (session req1) as [[sid1 s1]|] eqn:Hsess.
    + pose proof (Hcookie sid1 s1 eq_refl) as Hc1.
      assert (sid1 = sid) as -> by congruence.
      rewrite lookup_alter_eq, lookup_insert_ne by congruence.
      now rewrite lookup_delete_eq.
    + rewrite lookup_insert_ne by congruence. now apply Hnone.
  - intros k Hkn Hkc.
    destruct (session req1) as [[sid1 s1]|] eqn:Hsess.
    + pose proof (Hcookie sid1 s1 eq_refl) as Hc1.
      assert (Hk1 : sid1 <> k) by congruence.
      rewrite lookup_alter_ne by exact Hk1.
      rewrite lookup_insert_ne by congruence.
      rewrite lookup_delete_ne by exact Hk1. now apply Hothers.
    + rewrite lookup_insert_ne by congruence. now apply Hothers.
  - now rewrite Hiss2, Hiss.
  - rewrite Hck2, Hck. unfold due_cookie. rewrite Hmod2.
    assert (Henv : NODE_ENV w2 = NODE_ENV w).
    { destruct Hw as (_ & _ & _ & E1 & _), Hw2 as (_ & _ & _ & E2 & _).
      congruence. }
    now rewrite Henv.
Qed.

(** C8, as the code has it: when the session lookup is answered - the
    cookie names a session whose account the database returns, an expired
    session, one without an account, or nothing - GET /auth/logout answers
    with the success acknowledgment, leaves no session under the cookie of
    the request and does not touch the database; a new, empty session is
    stored under a new id and, outside production, announced with a cookie.
    Afterwards the cookie validates to nothing and a second logout with it
    succeeds again.  When the cookie names a live session and the database
    cannot be asked for its account, the request ends in the error handler
    before it reaches the route: the answer is 500 and the session stays. *)
Theorem logout_is_idempotent (c : TaskController) (i : Incoming) (w : World) :
  method i = GET ->
  path i = Auth auth_logout ->
  signed i w ->
  ((forall e, validate i w <> Failed e) ->
   fst (app c i w)
     = Ok (res_json (JObj [("success", JBool true);
                           ("message", JStr "Logged out successfully")])) /\
   db (snd (app c i w)) = db w /\
   (forall sid, cookie i = Some sid -> sessions (snd (app c i w)) !! sid = None) /\
   validate i (snd (app c i w)) = Invalid /\
   fst (app c i (snd (app c i w))) = Ok logged_out /\
   exists new,
     sessions w !! new = None /\
     sessions (snd (app c i w)) !! new = Some (mkSess None (clock w + 86400000)) /\
     set_cookies (snd (app c i w))
     = set_cookies w ++ (if is_production (NODE_ENV w) then []
                         else [(new, session_cookie (NODE_ENV w))])) /\
  (forall e sid s,
      validate i w = Failed e ->
      cookie i = Some sid ->
      sessions w !! sid = Some s ->
      fst (app c i w) = Ok (internal_error e) /\
      db (snd (app c i w)) = db w /\
      sessions (snd (app c i w)) !! sid
        = Some (mkSess (passport_user s) (clock w + 86400000))).
Proof.
  intros Hm Hp Hsig. split.
  - intros Hv.
    destruct (logout_answered c i w Hm Hp Hsig Hv)
      as (new & Hr & Hw & Hnew & _ & Hs & Hgone & _ & Hiss & Hck).
    assert (Hinv : validate i (snd (app c i w)) = Invalid).
    { unfold validate. destruct (cookie i) as [sid|]; [|reflexivity].
      now rewrite (Hgone sid eq_refl). }
    split; [exact Hr|]. split; [apply Hw|]. split; [exact Hgone|].
    split; [exact Hinv|]. split.
    + destruct (logout_answered c i (snd (app c i w)) Hm Hp) as (new' & Hr' & _).
      * intros sid Hc. rewrite Hiss. apply elem_of_union_r. now apply Hsig.
      * rewrite Hinv. discriminate.
      * exact Hr'.
    + exists new. split; [exact Hnew|]. split; [exact Hs|exact Hck].
  - intros e sid s Hv Hc Hs.
    destruct (app_failed_eq i w e Hv) as (sid' & s' & Hc' & Hs' & Happ).
    assert (sid' = sid) as -> by congruence.
    assert (s' = s) as -> by congruence.
    rewrite Happ. simpl. split; [reflexivity|]. split.
    + now destruct (response_end_same (mkReq i (Some (sid, s)) None)
                      (log_line (Err.stack e) w)) as (A & _).
    + rewrite response_end_sessions. simpl.
      now rewrite lookup_alter_eq, Hs.
Qed.

Lemma logout_is_idempotent_witness :
  fst (app Controller.controller
           (Sample.request GET (Auth auth_logout) (Some 6%nat)) Sample.dev)
    = Ok logged_out
  /\ sessions (snd (app Controller.controller
                        (Sample.request GET (Auth auth_logout) (Some 6%nat))
                        Sample.dev)) !! 6%nat = None
  /\ fst (app Controller.controller
              (Sample.request GET (Auth auth_logout) None) Sample.dev)
       = Ok logged_out.
Proof.
  destruct (logout_is_idempotent Controller.controller
              (Sample.request GET (Auth auth_logout) (Some 6%nat)) Sample.dev)
    as (H & _); [reflexivity | reflexivity | | ].
  { intros sid Heq. injection Heq as <-. vm_compute. reflexivity. }
  destruct H as (H1 & _ & H2 & _); [intros e; vm_compute; discriminate|].
  destruct (logout_is_idempotent Controller.controller
              (Sample.request GET (Auth auth_logout) None) Sample.dev)
    as (H' & _); [reflexivity | reflexivity | | ].
  { intros sid Heq. discriminate Heq. }
  destruct H' as (H3 & _); [intros e; vm_compute; discriminate|].
  split; [exact H1|]. split; [now apply H2|exact H3].
Defined.

(** C8 as stated fails: alice's session 6 is live, the database is not
    reachable, and GET /auth/logout with her cookie is answered 500 by the
    error handler; the session is not revoked and, once the database is
    back, still authenticates her. *)
Lemma logout_needs_the_database :
  validate (Sample.request GET (Auth auth_logout) (Some 6%nat)) Sample.world
    = Valid 6 (mkSess (Some 1%nat) 5000) Sample.alice
  /\ fst (app Controller.controller
              (Sample.request GET (Auth auth_logout) (Some 6%nat))
              (set_connected false Sample.world))
     = Ok (res_status_json 500
             (JObj [("success", JBool false);
                    ("message", JStr "Something went wrong!");
                    ("error",
                     JStr "Operation `users.findOne()` buffering timed out after 10000ms")]))
  /\ fst (app Controller.controller
              (Sample.request GET (Auth auth_logout) (Some 6%nat))
              (set_connected false Sample.world))
     <> Ok logged_out
  /\ sessions (snd (app Controller.controller
                        (Sample.request GET (Auth auth_logout) (Some 6%nat))
                        (set_connected false Sample.world))) !! 6%nat
     = Some (mkSess (Some 1%nat) 86401000)
  /\ validate (Sample.request GET (ApiTasks tasks_root) (Some 6%nat))
              (set_connected true
                 (snd (app Controller.controller
                           (Sample.request GET (Auth auth_logout) (Some 6%nat))
                           (set_connected false Sample.world))))
     = Valid 6 (mkSess (Some 1%nat) 86401000) Sample.alice.
Proof.
  split; [vm_compute; reflexivity|].
  split; [vm_compute; reflexivity|].
  split; [vm_compute; discriminate|].
  split; vm_compute; reflexivity.
Qed.

(** ** The guest gate and the login route *)

Lemma routes_login c (req : Request) :
  method req = GET -> path req = Auth auth_google ->
  routes c req
  = authenticate (mkAuthOptions (Some ["profile"; "email"]) None) req
      (fun req => tasks_router c req app_routes).
Proof.
  intros Hm Hp. unfold routes, auth_router. now rewrite Hp, Hm.
Qed.

(** C6, as the code has it: [ensureGuest] sends a request with a principal
    to /dashboard without calling the next handler and passes a request
    without one on; no route uses it.  GET /auth/google starts the handshake
    for every request without OAuth parameters, with or without a
    principal: the answer is the redirect to Google's authorization endpoint
    with the response type "code", the callback URL and the client id of
    the configuration and the scope "profile email".  For the server as a
    whole this is the answer whenever the session lookup is answered, and
    the database is not written. *)
Theorem guest_gate_not_on_login_route (c : TaskController) (req : Request)
    (next : Handler) (w : World) :
  (forall u, user req = Some u ->
     ensureGuest req next w = (Ok (res_redirect "/dashboard"), w)) /\
  (user req = None -> ensureGuest req next w = next req w) /\
  (method req = GET -> path req = Auth auth_google ->
   query req = no_oauth_params ->
   routes c req w
   = (Ok (mkRes 302
            (authorization "https://accounts.google.com/o/oauth2/v2/auth"
               {| response_type := "code";
                  redirect_uri := callbackURL (GOOGLE_CALLBACK_URL w);
                  scope_param := Some "profile email";
                  client_id := GOOGLE_CLIENT_ID w |})), w)) /\
  (forall i,
     method i = GET -> path i = Auth auth_google ->
     query i = no_oauth_params ->
     (forall e, validate i w <> Failed e) ->
     fst (app c i w)
     = Ok (mkRes 302
             (authorization "https://accounts.google.com/o/oauth2/v2/auth"
                {| response_type := "code";
                   redirect_uri := callbackURL (GOOGLE_CALLBACK_URL w);
                   scope_param := Some "profile email";
                   client_id := GOOGLE_CLIENT_ID w |})) /\
     db (snd (app c i w)) = db w).
Proof.
  assert (Hroute : forall (r : Request) w0,
             method r = GET -> path r = Auth auth_google ->
             query r = no_oauth_params ->
             routes c r w0
             = (Ok (mkRes 302
                      (authorization "https://accounts.google.com/o/oauth2/v2/auth"
                         {| response_type := "code";
                            redirect_uri := callbackURL (GOOGLE_CALLBACK_URL w0);
                            scope_param := Some "profile email";
                            client_id := GOOGLE_CLIENT_ID w0 |})), w0)).
  { intros r w0 Hm Hp Hq. rewrite routes_login by assumption.
    unfold authenticate. now rewrite Hq. }
  split; [|split; [|split]].
  - intros u Hu. unfold ensureGuest, Passport.isAuthenticated. now rewrite Hu.
  - intros Hu. unfold ensureGuest, Passport.isAuthenticated. now rewrite Hu.
  - apply Hroute.
  - intros i Hm Hp Hq Hv.
    destruct (app_reaches_routes i w Hv)
      as (req1 & w1 & Hi & _ & Hw & _ & _ & _ & _ & Happ).
    rewrite Happ. unfold bind, try_catch.
    rewrite Hroute by now rewrite Hi.
    rewrite commit_eq. simpl.
    destruct Hw as (Hdb & _ & _ & _ & Hid & Hcb). rewrite Hid, Hcb.
    split; [reflexivity|].
    destruct (response_end_same req1 w1) as (Hdb' & _). congruence.
Qed.

Lemma guest_gate_not_on_login_route_witness :
  ensureGuest (mkReq (Sample.request GET (Auth auth_google) (Some 6%nat))
                     None (Some Sample.alice))
              not_found Sample.world
  = (Ok (res_redirect "/dashboard"), Sample.world)
  /\ fst (app Controller.controller
              (Sample.request GET (Auth auth_google) None) Sample.dev)
     = Ok (mkRes 302
             (authorization "https://accounts.google.com/o/oauth2/v2/auth"
                {| response_type := "code";
                   redirect_uri := on_request_origin "/auth/google/callback";
                   scope_param := Some "profile email";
                   client_id := Sample.client |})).
Proof.
  split.
  - destruct (guest_gate_not_on_login_route Controller.controller
                (mkReq (Sample.request GET (Auth auth_google) (Some 6%nat))
                       None (Some Sample.alice))
                not_found Sample.world) as (H & _).
    now apply (H Sample.alice).
  - destruct (guest_gate_not_on_login_route Controller.controller
                (mkReq (Sample.request GET (Auth auth_google) None) None None)
                not_found Sample.dev) as (_ & _ & _ & H).
    destruct (H (Sample.request GET (Auth auth_google) None)) as (H1 & _);
      [reflexivity | reflexivity | reflexivity
      | intros e; vm_compute; discriminate | exact H1].
Defined.

(** C6 as stated fails: alice, logged in with session 6, asks for
    /auth/google and is sent to the provider, not to /dashboard. *)
Lemma authenticated_login_enters_handshake :
  validate (Sample.request GET (Auth auth_google) (Some 6%nat)) Sample.world
    = Valid 6 (mkSess (Some 1%nat) 5000) Sample.alice
  /\ fst (app Controller.controller
              (Sample.request GET (Auth auth_google) (Some 6%nat)) Sample.world)
     = Ok (mkRes 302
             (authorization "https://accounts.google.com/o/oauth2/v2/auth"
                {| response_type := "code";
                   redirect_uri :=
                     absolute "https://task-manager-oauth-week07.onrender.com/auth/google/callback";
                   scope_param := Some "profile email";
                   client_id := "1234-abcd.apps.googleusercontent.com" |}))
  /\ fst (app Controller.controller
              (Sample.request GET (Auth auth_google) (Some 6%nat)) Sample.world)
     <> Ok (res_redirect "/dashboard").
Proof.
  split; [vm_compute; reflexivity|].
  split; [vm_compute; reflexivity|].
  vm_compute. discriminate.
Qed.

(** ** The account reconciler: the verify callback *)

Lemma set_db_id w : set_db (db w) w = w.
Proof. now destruct w. Qed.

Lemma by_id_true id u : Users.by_id id u = true <-> User._id u = id.
Proof. unfold Users.by_id. apply Nat.eqb_eq. Qed.

Lemma update_one_unique (l : list User.t) (u u' : User.t) :
  List.NoDup (List.map User._id l) -> In u l ->
  update_one (Users.by_id (User._id u)) u' l
  = Some (List.map (fun d => if Users.by_id (User._id u) d then u' else d) l).
Proof.
  induction l as [|x l IH]; simpl; [tauto|].
  intros Hnd Hin. apply NoDup_cons_iff in Hnd. destruct Hnd as [Hx Hnd].
  destruct (Users.by_id (User._id u) x) eqn:Hb.
  - apply by_id_true in Hb. f_equal. f_equal.
    rewrite <- (map_id l) at 1. apply map_ext_in.
    intros d Hd. destruct (Users.by_id (User._id u) d) eqn:Hbd; [|reflexivity].
    apply by_id_true in Hbd. exfalso. apply Hx.
    rewrite Hb, <- Hbd. now apply in_map.
  - destruct Hin as [->|Hin].
    + unfold Users.by_id in Hb. now rewrite Nat.eqb_refl in Hb.
    + now rewrite (IH Hnd Hin).
Qed.

Lemma create_accepted f w :
  connected (db w) = true ->
  schema_accepts f (db w) = true ->
  exists u, new_user f (db w) (clock w) = Some u /\
            Users.create f w = (Ok u, set_db (insert_user u (db w)) w).
Proof.
  intros Hc Ha. unfold schema_accepts in Ha.
  unfold Users.create, new_user. monad.
  destruct (Users.validate f) eqn:Hv; [|discriminate].
  destruct (User.f_googleId f) as [g|] eqn:Hg; [|discriminate].
  destruct (User.f_email f) as [e|] eqn:He; [|discriminate].
  destruct (User.f_displayName f) as [d|] eqn:Hd.
  2:{ unfold Users.validate in Hv. rewrite Hd in Hv.
      apply app_eq_nil in Hv. destruct Hv as [_ Hv].
      apply app_eq_nil in Hv. destruct Hv as [_ Hv]. discriminate. }
  apply andb_true_iff in Ha. destruct Ha as [Ha1 Ha2].
  apply negb_true_iff in Ha1, Ha2. rewrite Ha1, Ha2.
  eexists. split; [reflexivity|].
  unfold insert_user. simpl. destruct (connected (db w)); [reflexivity|discriminate].
Qed.

Lemma create_rejected f w :
  schema_accepts f (db w) = false ->
  exists e, Users.create f w = (Throw e, w).
Proof.
  intros Ha. unfold schema_accepts in Ha.
  unfold Users.create. monad.
  destruct (Users.validate f) eqn:Hv.
  2:{ destruct (User.f_googleId f), (User.f_email f), (User.f_displayName f);
      eexists; reflexivity. }
  destruct (User.f_googleId f) as [g|] eqn:Hg.
  2:{ eexists; reflexivity. }
  destruct (User.f_email f) as [e|] eqn:He.
  2:{ eexists; reflexivity. }
  destruct (User.f_displayName f) as [d|] eqn:Hd.
  2:{ eexists; reflexivity. }
  destruct (connected (db w)); [|eexists; reflexivity].
  destruct (existsb (Users.by_googleId g) (users (db w))); [eexists; reflexivity|].
  destruct (existsb (Users.by_email e) (users (db w))); [eexists; reflexivity|].
  discriminate.
Qed.

Lemma verify_catch_eq e w :
  verify_catch e w
  = (Ok (done (Some e) None),
     log_line ("Error in Google Strategye: " +:+ Err.stack e) w).
Proof. reflexivity. Qed.

(** The subject has an account: its lastLogin is set and saved. *)
Lemma verify_existing at_ rt p w u :
  Store_ok (db w) ->
  connected (db w) = true ->
  List.find (Users.by_googleId (Profile.id p)) (users (db w)) = Some u ->
  verify at_ rt p w
  = (Ok (done None (Some (User.set_lastLogin (clock w) u))),
     set_db (touch_login (User._id u) (clock w) (db w)) w).
Proof.
  intros Hok Hc Hf.
  pose proof (find_some _ _ Hf) as [Hin _].
  pose proof (user_ids_unique _ Hok) as Hnd.
  assert (Hmap :
    List.map (fun d => if Users.by_id (User._id u) d
                       then User.set_lastLogin (clock w) u else d) (users (db w))
    = List.map (fun d => if Users.by_id (User._id u) d
                         then User.set_lastLogin (clock w) d else d) (users (db w))).
  { apply map_ext_in. intros d Hd.
    destruct (Users.by_id (User._id u) d) eqn:Hb; [|reflexivity].
    apply by_id_true in Hb. f_equal.
    (* the document with this id is [u] itself *)
    clear - Hnd Hin Hd Hb. induction (users (db w)) as [|x l IH]; [contradiction|].
    simpl in Hnd. apply NoDup_cons_iff in Hnd. destruct Hnd as [Hx Hnd].
    destruct Hin as [->|Hin], Hd as [->|Hd]; auto.
    - exfalso. apply Hx. rewrite <- Hb. now apply in_map.
    - exfalso. apply Hx. rewrite Hb. now apply in_map. }
  unfold verify, verify_try, Users.findOne_googleId, Users.save. monad.
  rewrite Hc, Hf. simpl. rewrite Hc.
  change (User._id (User.set_lastLogin (clock w) u)) with (User._id u).
  rewrite (update_one_unique (users (db w)) u (User.set_lastLogin (clock w) u)
             Hnd Hin).
  simpl. unfold touch_login, set_db. simpl. now rewrite Hmap, Hc.
Qed.

(** The subject is new and every property access succeeds: the callback is
    [User.create] of the fields. *)
Lemma verify_new at_ rt p w f :
  connected (db w) = true ->
  List.find (Users.by_googleId (Profile.id p)) (users (db w)) = None ->
  profile_fields p = Some f ->
  verify at_ rt p w
  = try_catch (let* user := Users.create f in ret (done None (Some user)))
              verify_catch w.
Proof.
  intros Hc Hf Hp. unfold profile_fields in Hp.
  destruct (Profile.emails p) as [[|e es]|] eqn:He; try discriminate.
  destruct (Profile.name p) as [n|] eqn:Hn; try discriminate.
  destruct (Profile.photos p) as [[|ph phs]|] eqn:Hph; try discriminate.
  injection Hp as <-.
  unfold verify, verify_try, Users.findOne_googleId. unfold try_catch, bind at 1.
  unfold on_db at 1. rewrite Hc, Hf, He, Hn, Hph. simpl.
  rewrite set_db_id. reflexivity.
Qed.

(** The subject is new and a property access throws: the TypeError is
    reported and nothing is written. *)
Lemma verify_inaccessible at_ rt p w :
  connected (db w) = true ->
  List.find (Users.by_googleId (Profile.id p)) (users (db w)) = None ->
  profile_fields p = None ->
  exists msg frame,
    verify at_ rt p w
    = (Ok (done (Some (TypeError msg frame)) None),
       log_line ("Error in Google Strategye: " +:+ Err.stack (TypeError msg frame)) w).
Proof.
  intros Hc Hf Hp. unfold profile_fields in Hp.
  unfold verify, verify_try, Users.findOne_googleId. unfold try_catch, bind at 1.
  unfold on_db at 1. rewrite Hc, Hf. simpl. rewrite set_db_id.
  destruct (Profile.emails p) as [[|e es]|] eqn:He;
    [eexists; eexists; reflexivity | | eexists; eexists; reflexivity].
  destruct (Profile.name p) as [n|] eqn:Hn;
    [| eexists; eexists; reflexivity].
  destruct (Profile.photos p) as [[|ph phs]|] eqn:Hph;
    [eexists; eexists; reflexivity | discriminate | eexists; eexists; reflexivity].
Qed.

(** C10, as the code has it: the verify callback always completes by
    calling [done]: whatever its [try] block throws - the TypeError of a
    profile without [emails], [name] or [photos], a rejected [create], a
    failed query - is logged and handed over as [done(error, null)], with
    nothing written for a profile whose property access throws.  The login
    does not take the failure redirect then: the strategy passes the error
    on to [next], the success handler is not reached, no session is issued
    and the request is answered 500 by the error handler, with the message
    of the error. *)
Theorem verify_catches_everything (accessToken refreshToken : string)
    (p : Profile.t) (w : World) :
  (exists d w', verify accessToken refreshToken p w = (Ok d, w')) /\
  (forall e w1,
      verify_try p w = (Throw e, w1) ->
      verify accessToken refreshToken p w
      = (Ok (done (Some e) None),
         log_line ("Error in Google Strategye: " +:+ Err.stack e) w1)) /\
  (connected (db w) = true ->
   List.find (Users.by_googleId (Profile.id p)) (users (db w)) = None ->
   profile_fields p = None ->
   exists msg frame,
     verify accessToken refreshToken p w
     = (Ok (done (Some (TypeError msg frame)) None),
        log_line ("Error in Google Strategye: "
                  +:+ Err.stack (TypeError msg frame)) w)) /\
  (forall options (req : Request) (next : Handler) e w1,
      query req = code_verified accessToken refreshToken p ->
      verify_try p w = (Throw e, w1) ->
      try_catch (authenticate options req next) error_handler w
      = (Ok (internal_error e),
         log_line (Err.stack e)
           (log_line ("Error in Google Strategye: " +:+ Err.stack e) w1))).
Proof.
  assert (Hcatch : forall e w1,
             verify_try p w = (Throw e, w1) ->
             verify accessToken refreshToken p w
             = (Ok (done (Some e) None),
                log_line ("Error in Google Strategye: " +:+ Err.stack e) w1)).
  { intros e w1 H. unfold verify.
    rewrite (try_catch_throw _ _ _ _ _ H). apply verify_catch_eq. }
  split; [|split; [exact Hcatch|split]].
  - unfold verify, try_catch.
    destruct (verify_try p w) as [[d|e] w1]; [now exists d, w1|].
    rewrite verify_catch_eq. eauto.
  - intros Hc Hf Hp. now apply verify_inaccessible.
  - intros options req next e w1 Hq H.
    unfold authenticate. rewrite Hq.
    unfold try_catch at 1. unfold bind.
    rewrite (Hcatch e w1 H). reflexivity.
Qed.

Lemma verify_catches_everything_witness :
  fst (verify "access-token" "refresh-token" Sample.dave Sample.world)
    = Ok (done (Some (TypeError (cannot_read "0") "config/passport.js:47")) None)
  /\ fst (app Controller.controller (Sample.callback Sample.dave) Sample.world)
       = Ok (internal_error (TypeError (cannot_read "0") "config/passport.js:47"))
  /\ db (snd (app Controller.controller (Sample.callback Sample.dave) Sample.world))
       = db Sample.world.
Proof.
  split; [|split; reflexivity].
  destruct (verify_catches_everything "access-token" "refresh-token"
              Sample.dave Sample.world) as (_ & H & _).
  rewrite (H (TypeError (cannot_read "0") "config/passport.js:47") Sample.world);
    reflexivity.
Defined.

(** C10 as stated fails in its last clause: dave's profile comes without
    photos, the callback reports the TypeError through [done], and the
    request is answered 500 by the error handler with the message of the
    TypeError; it does not follow the failure path, the redirect to
    /login-failed that a denied login gets. *)
Lemma failed_verify_is_not_redirected :
  fst (verify "access-token" "refresh-token" Sample.dave Sample.world)
    = Ok (done (Some (TypeError (cannot_read "0") "config/passport.js:47")) None)
  /\ fst (app Controller.controller (Sample.callback Sample.dave) Sample.world)
     = Ok (res_status_json 500
             (JObj [("success", JBool false);
                    ("message", JStr "Something went wrong!");
                    ("error",
                     JStr "Cannot read properties of undefined (reading '0')")]))
  /\ fst (app Controller.controller (Sample.callback Sample.dave) Sample.world)
     <> Ok (res_redirect "/login-failed")
  /\ fst (app Controller.controller
              (mkIncoming GET (Auth auth_google_callback) None access_denied
                          Sample.no_body) Sample.world)
     = Ok (res_redirect "/login-failed").
Proof.
  split; [vm_compute; reflexivity|]. split; [vm_compute; reflexivity|].
  split; [vm_compute; discriminate|vm_compute; reflexivity].
Qed.

(** *** One write per reconciliation *)

Lemma Store_ok_touch id now s : Store_ok s -> Store_ok (touch_login id now s).
Proof.
  intros [A B C D].
  split; simpl in *; try assumption.
  - rewrite List.map_map.
    erewrite map_ext; [exact A|]. intros d. now destruct (Users.by_id id d).
  - apply List.Forall_map.
    eapply List.Forall_impl; [|exact C]. intros d Hd. simpl.
    now destruct (Users.by_id id d).
Qed.

Lemma Store_ok_insert u s :
  Store_ok s -> User._id u = next_oid s -> Store_ok (insert_user u s).
Proof.
  intros [A B C D] Hid. split; simpl.
  - rewrite List.map_app. simpl. apply List.NoDup_app.
    + exact A.
    + constructor; [intros []|constructor].
    + intros x Hx [<-|[]].
      apply in_map_iff in Hx. destruct Hx as (d & Hd & Hin).
      rewrite List.Forall_forall in C. specialize (C d Hin). lia.
  - exact B.
  - apply List.Forall_app. split.
    + eapply List.Forall_impl; [|exact C]. simpl. intros; lia.
    + constructor; [lia|constructor].
  - eapply List.Forall_impl; [|exact D]. simpl. intros; lia.
Qed.

Lemma find_touch g id now l :
  List.find (Users.by_googleId g)
            (List.map (fun d => if Users.by_id id d
                                then User.set_lastLogin now d else d) l)
  = option_map (fun d => if Users.by_id id d then User.set_lastLogin now d else d)
               (List.find (Users.by_googleId g) l).
Proof.
  induction l as [|x l IH]; simpl; [reflexivity|].
  replace (Users.by_googleId g
             (if Users.by_id id x then User.set_lastLogin now x else x))
    with (Users.by_googleId g x) by now destruct (Users.by_id id x).
  now destruct (Users.by_googleId g x).
Qed.

Lemma find_none_app {A} (f : A -> bool) l l' :
  List.find f l = None -> List.find f (l ++ l') = List.find f l'.
Proof.
  induction l as [|x l IH]; simpl; [reflexivity|].
  destruct (f x); [discriminate|exact IH].
Qed.

Lemma verify_new_accepted at_ rt p w f :
  connected (db w) = true ->
  List.find (Users.by_googleId (Profile.id p)) (users (db w)) = None ->
  profile_fields p = Some f ->
  schema_accepts f (db w) = true ->
  exists u, new_user f (db w) (clock w) = Some u /\
    verify at_ rt p w = (Ok (done None (Some u)), set_db (insert_user u (db w)) w).
Proof.
  intros Hc Hf Hp Ha.
  destruct (create_accepted f w Hc Ha) as (u & Hu & Hcr).
  exists u. split; [exact Hu|].
  rewrite (verify_new at_ rt p w f Hc Hf Hp).
  unfold try_catch, bind. now rewrite Hcr.
Qed.

Lemma verify_new_rejected at_ rt p w f :
  connected (db w) = true ->
  List.find (Users.by_googleId (Profile.id p)) (users (db w)) = None ->
  profile_fields p = Some f ->
  schema_accepts f (db w) = false ->
  exists e,
    verify at_ rt p w
    = (Ok (done (Some e) None),
       log_line ("Error in Google Strategye: " +:+ Err.stack e) w).
Proof.
  intros Hc Hf Hp Ha.
  destruct (create_rejected f w Ha) as (e & Hcr).
  exists e. rewrite (verify_new at_ rt p w f Hc Hf Hp).
  unfold try_catch, bind. now rewrite Hcr.
Qed.

Lemma new_user_of_profile p f s now u :
  profile_fields p = Some f -> new_user f s now = Some u ->
  User._id u = next_oid s /\ User.googleId u = Profile.id p.
Proof.
  unfold profile_fields, new_user. intros Hp Hu.
  destruct (Profile.emails p) as [[|e es]|]; try discriminate.
  destruct (Profile.name p) as [n|]; try discriminate.
  destruct (Profile.photos p) as [[|ph phs]|]; try discriminate.
  injection Hp as <-. simpl in Hu.
  destruct (Profile.value e), (Profile.displayName p); try discriminate.
  injection Hu as <-. now split.
Qed.

(** The three ways the callback ends when the database answers. *)
Lemma verify_cases at_ rt p w :
  Store_ok (db w) ->
  connected (db w) = true ->
  (exists u,
      List.find (Users.by_googleId (Profile.id p)) (users (db w)) = Some u /\
      verify at_ rt p w
      = (Ok (done None (Some (User.set_lastLogin (clock w) u))),
         set_db (touch_login (User._id u) (clock w) (db w)) w)) \/
  (exists f u,
      List.find (Users.by_googleId (Profile.id p)) (users (db w)) = None /\
      profile_fields p = Some f /\ new_user f (db w) (clock w) = Some u /\
      verify at_ rt p w
      = (Ok (done None (Some u)), set_db (insert_user u (db w)) w)) \/
  (exists e,
      List.find (Users.by_googleId (Profile.id p)) (users (db w)) = None /\
      verify at_ rt p w
      = (Ok (done (Some e) None),
         log_line ("Error in Google Strategye: " +:+ Err.stack e) w)).
Proof.
  intros Hok Hc.
  destruct (List.find (Users.by_googleId (Profile.id p)) (users (db w)))
    as [u|] eqn:Hf.
  - left. exists u. split; [reflexivity|]. now apply verify_existing.
  - right. destruct (profile_fields p) as [f|] eqn:Hp.
    + destruct (schema_accepts f (db w)) eqn:Ha.
      * left. destruct (verify_new_accepted at_ rt p w f Hc Hf Hp Ha) as (u & Hu & Hv).
        exists f, u. auto.
      * right. destruct (verify_new_rejected at_ rt p w f Hc Hf Hp Ha) as (e & Hv).
        exists e. auto.
    + right. destruct (verify_inaccessible at_ rt p w Hc Hf Hp) as (msg & frame & Hv).
      exists (TypeError msg frame). auto.
Qed.

Lemma find_googleId_not_in g l :
  List.find (Users.by_googleId g) l = None ->
  ~ In g (List.map User.googleId l).
Proof.
  intros Hf Hin. apply in_map_iff in Hin. destruct Hin as (d & Hd & Hin).
  apply (find_none _ _ Hf) in Hin. unfold Users.by_googleId in Hin.
  rewrite Hd, String.eqb_refl in Hin. discriminate.
Qed.

(** C3, as the code has it.  With the database reachable, a reconciliation
    writes at most once, never an update and an insert together.  For a
    subject that has an account the one write is the update of that
    account.  For a new subject whose profile has the fields the callback
    reads, the one write is the insert of the account built from them when
    the schema takes it; when the schema rejects it (a required field empty
    or the email already in use) nothing is written and the failure is
    reported.  Subject ids stay unique, and after a reconciliation that
    returned an account the next one for the same subject updates that
    account instead of inserting. *)
Theorem reconcile_writes_at_most_once (accessToken refreshToken : string)
    (p : Profile.t) (w : World) :
  Store_ok (db w) ->
  connected (db w) = true ->
  match List.find (Users.by_googleId (Profile.id p)) (users (db w)) with
  | Some u =>
      verify accessToken refreshToken p w
      = (Ok (done None (Some (User.set_lastLogin (clock w) u))),
         set_db (touch_login (User._id u) (clock w) (db w)) w)
  | None =>
      forall f, profile_fields p = Some f ->
        if schema_accepts f (db w) then
          exists u, new_user f (db w) (clock w) = Some u /\
            verify accessToken refreshToken p w
            = (Ok (done None (Some u)), set_db (insert_user u (db w)) w)
        else
          exists e,
            verify accessToken refreshToken p w
            = (Ok (done (Some e) None),
               log_line ("Error in Google Strategye: " +:+ Err.stack e) w)
  end /\
  (exists writes,
      journal (db (snd (verify accessToken refreshToken p w)))
      = journal (db w) ++ writes /\ (List.length writes <= 1)%nat) /\
  (List.NoDup (List.map User.googleId (users (db w))) ->
   List.NoDup (List.map User.googleId
                 (users (db (snd (verify accessToken refreshToken p w)))))) /\
  (forall d w' u,
      verify accessToken refreshToken p w = (Ok d, w') ->
      done_value d = Some u ->
      forall at2 rt2 w2, db w2 = db w' ->
        exists u2, User._id u2 = User._id u /\
          verify at2 rt2 p w2
          = (Ok (done None (Some (User.set_lastLogin (clock w2) u2))),
             set_db (touch_login (User._id u) (clock w2) (db w2)) w2)).
Proof.
  intros Hok Hc. split; [|split; [|split]].
  - destruct (List.find (Users.by_googleId (Profile.id p)) (users (db w)))
      as [u|] eqn:Hf.
    + now apply verify_existing.
    + intros f Hp. destruct (schema_accepts f (db w)) eqn:Ha.
      * now apply verify_new_accepted.
      * now apply (verify_new_rejected _ _ p w f).
  - destruct (verify_cases accessToken refreshToken p w Hok Hc)
      as [(u & _ & ->)|[(f & u & _ & _ & _ & ->)|(e & _ & ->)]]; simpl.
    + exists [UpdateUser (User._id u)]. split; [reflexivity|simpl; lia].
    + exists [InsertUser (User._id u)]. split; [reflexivity|simpl; lia].
    + exists []. split; [now rewrite app_nil_r|simpl; lia].
  - intros Hnd.
    destruct (verify_cases accessToken refreshToken p w Hok Hc)
      as [(u & _ & ->)|[(f & u & Hf & Hp & Hu & ->)|(e & _ & ->)]]; simpl.
    + rewrite List.map_map.
      rewrite (List.map_ext _ User.googleId); [exact Hnd|].
      intros d. now destruct (Users.by_id (User._id u) d).
    + rewrite List.map_app. simpl. apply List.NoDup_app.
      * exact Hnd.
      * constructor; [intros []|constructor].
      * intros x Hx [<-|[]].
        destruct (new_user_of_profile p f _ _ u Hp Hu) as [_ Hg].
        rewrite Hg in Hx. now apply (find_googleId_not_in _ _ Hf).
    + exact Hnd.
  - intros d w' u Hv Hd at2 rt2 w2 Hw2.
    destruct (verify_cases accessToken refreshToken p w Hok Hc)
      as [(u0 & Hf & Hv')|[(f & u0 & Hf & Hp & Hu & Hv')|(e & _ & Hv')]];
      rewrite Hv' in Hv; injection Hv as <- <-; simpl in Hd;
      [injection Hd as <-|injection Hd as <-|discriminate].
    + (* the account was updated: it is found again *)
      assert (Hf2 : List.find (Users.by_googleId (Profile.id p)) (users (db w2))
                    = Some (User.set_lastLogin (clock w) u0)).
      { rewrite Hw2. simpl. rewrite find_touch, Hf. simpl.
        unfold Users.by_id. now rewrite Nat.eqb_refl. }
      exists (User.set_lastLogin (clock w) u0). split; [reflexivity|].
      apply verify_existing; try assumption.
      * rewrite Hw2. simpl. now apply Store_ok_touch.
      * rewrite Hw2. simpl. exact Hc.
    + (* the account was inserted: it is found now *)
      destruct (new_user_of_profile p f _ _ u0 Hp Hu) as [Hid Hg].
      assert (Hf2 : List.find (Users.by_googleId (Profile.id p)) (users (db w2))
                    = Some u0).
      { rewrite Hw2. simpl. rewrite (find_none_app _ _ _ Hf). simpl.
        unfold Users.by_googleId. now rewrite Hg, String.eqb_refl. }
      exists u0. split; [reflexivity|].
      apply verify_existing; try assumption.
      * rewrite Hw2. simpl. now apply Store_ok_insert.
      * rewrite Hw2. simpl. exact Hc.
Qed.

Lemma Sample_store_ok : Store_ok Sample.store.
Proof.
  split; simpl.
  - repeat constructor; simpl; intuition discriminate.
  - repeat constructor; simpl; intuition discriminate.
  - repeat constructor.
  - repeat constructor.
Qed.

Lemma reconcile_writes_at_most_once_witness :
  verify "access-token" "refresh-token" Sample.alice_profile Sample.world
  = (Ok (done None (Some (User.set_lastLogin 1000 Sample.alice))),
     set_db (touch_login 1 1000 Sample.store) Sample.world).
Proof.
  pose proof (reconcile_writes_at_most_once "access-token" "refresh-token"
                Sample.alice_profile Sample.world Sample_store_ok eq_refl)
    as (H & _).
  exact H.
Defined.

(** C3 as stated fails: mallory is a new subject with a complete profile,
    her email is the one alice registered, and reconciling her writes
    nothing: the unique index on email rejects the insert. *)
Lemma conflicting_email_writes_nothing :
  List.find (Users.by_googleId (Profile.id Sample.mallory)) (users Sample.store)
    = None
  /\ profile_fields Sample.mallory
       = Some (User.mk_fields (Some "g-4") (Some "a@x.com") (Some "Mallory")
                              None None (Some "https://img/m"))
  /\ db (snd (verify "access-token" "refresh-token" Sample.mallory Sample.world))
       = Sample.store
  /\ journal (db (snd (verify "access-token" "refresh-token" Sample.mallory
                              Sample.world))) = []
  /\ fst (verify "access-token" "refresh-token" Sample.mallory Sample.world)
       = Ok (done (Some (MongoServerError
                           "E11000 duplicate key error collection: users index: email_1"))
                  None).
Proof. repeat split. Qed.

(** *** What a reconciliation and the task routes leave alone *)

Lemma same_users_refl w : same_users w w.
Proof. reflexivity. Qed.

Lemma same_users_trans w1 w2 w3 :
  same_users w1 w2 -> same_users w2 w3 -> same_users w1 w3.
Proof. unfold same_users. congruence. Qed.

Lemma preserves_on_db_users {A} (op : Store -> Result (A * Store)) :
  (forall s a s', op s = Ok (a, s') -> users s' = users s) ->
  preserves same_users (on_db op).
Proof.
  intros H w. unfold on_db, same_users.
  destruct (op (db w)) as [[a s]|e] eqn:Hop; simpl; [|reflexivity].
  now apply (H _ _ _ Hop).
Qed.

Ltac on_db_users :=
  apply preserves_on_db_users;
  let s := fresh "s" in let a := fresh "a" in let s' := fresh "s'" in
  let H := fresh "H" in
  intros s a s' H;
  repeat match type of H with
         | context [match ?x with _ => _ end] => destruct x; try discriminate
         | context [if ?x then _ else _] => destruct x; try discriminate
         end;
  injection H as <- <-; reflexivity.

Ltac preserves_users :=
  repeat first
    [ apply (preserves_bind same_users same_users_trans)
    | apply (preserves_try_catch same_users same_users_trans)
    | apply (preserves_ret same_users same_users_refl)
    | apply (preserves_throw same_users same_users_refl)
    | apply (preserves_get same_users same_users_refl)
    | apply (preserves_Date_now same_users same_users_refl)
    | apply (preserves_modify same_users); intros; reflexivity
    | on_db_users
    | match goal with
      | |- preserves _ (match ?x with _ => _ end) => destruct x
      | |- preserves _ (if ?x then _ else _) => destruct x
      end
    | intros ].

Lemma controller_same_users m tp handler req :
  task_route Controller.controller m tp = Some handler ->
  preserves same_users (handler req).
Proof.
  intros H.
  destruct m, tp; simpl in H; try discriminate; injection H as <-;
    unfold Controller.getAllTasks, Controller.getTaskById, Controller.createTask,
      Controller.updateTask, Controller.deleteTask, Controller.with_task,
      Controller.guarded, Controller.principal, Controller.fetch_owned,
      Tasks.findById, Tasks.find_owned, Tasks.insert, Tasks.replace, Tasks.remove;
    preserves_users.
Qed.

Lemma commit_same_users req res : preserves same_users (Session.commit req res).
Proof.
  intros w. rewrite commit_eq. simpl. unfold same_users.
  destruct (response_end_same req w) as (H & _). now rewrite H.
Qed.

Lemma error_handler_same_users e : preserves same_users (error_handler e).
Proof. unfold error_handler, console_error. preserves_users. Qed.

Lemma app_tasks_same_users i w tp :
  path i = ApiTasks tp ->
  users (db (snd (app Controller.controller i w))) = users (db w).
Proof.
  intros Hp.
  destruct (app_cases Controller.controller i w)
    as [(e & w0 & Hdb & H)|(req1 & req0 & w1 & Hi & Hw & H)]; rewrite H.
  - simpl. now rewrite Hdb.
  - apply same_but_sessions_db in Hw. rewrite <- Hw.
    apply (preserves_bind same_users same_users_trans).
    + apply (preserves_try_catch same_users same_users_trans).
      * rewrite (routes_tasks _ req1 tp) by now rewrite Hi.
        unfold ensureAuthenticated.
        destruct (Passport.isAuthenticated req1).
        -- destruct (task_route Controller.controller (method req1) tp)
             as [handler|] eqn:Hr.
           ++ now apply (controller_same_users (method req1) tp).
           ++ unfold app_routes, root_route, dashboard_route, login_failed_route,
                not_found.
              preserves_users.
        -- preserves_users.
      * apply error_handler_same_users.
    + intros res. apply commit_same_users.
Qed.

Lemma Forall2_map_same {A} (R : A -> A -> Prop) (f : A -> A) (l : list A) :
  (forall x, R x (f x)) -> List.Forall2 R l (List.map f l).
Proof. intros H. induction l; simpl; constructor; auto. Qed.

(** C4: when the subject of the profile has an account, the reconciliation
    sets its lastLogin to the current time and changes no other field of
    it, no other account and no task; and a request to a task route,
    whatever it does to tasks, leaves every account as it was. *)
Theorem reconcile_touches_lastLogin_only (accessToken refreshToken : string)
    (p : Profile.t) (w : World) (u : User.t) :
  Store_ok (db w) ->
  connected (db w) = true ->
  List.find (Users.by_googleId (Profile.id p)) (users (db w)) = Some u ->
  List.Forall2 same_but_lastLogin (users (db w))
    (users (db (snd (verify accessToken refreshToken p w)))) /\
  In (User.set_lastLogin (clock w) u)
     (users (db (snd (verify accessToken refreshToken p w)))) /\
  (forall d, In d (users (db w)) -> User._id d <> User._id u ->
             In d (users (db (snd (verify accessToken refreshToken p w))))) /\
  tasks (db (snd (verify accessToken refreshToken p w))) = tasks (db w) /\
  (forall i w0 tp,
      path i = ApiTasks tp ->
      users (db (snd (app Controller.controller i w0))) = users (db w0)).
Proof.
  intros Hok Hc Hf.
  rewrite (verify_existing accessToken refreshToken p w u Hok Hc Hf). simpl.
  split; [|split; [|split; [|split]]].
  - apply Forall2_map_same. intros d.
    destruct (Users.by_id (User._id u) d); now repeat split.
  - apply in_map_iff. exists u. split.
    + unfold Users.by_id. now rewrite Nat.eqb_refl.
    + now apply (find_some _ _ Hf).
  - intros d Hd Hne. apply in_map_iff. exists d. split; [|exact Hd].
    destruct (Users.by_id (User._id u) d) eqn:Hb; [|reflexivity].
    apply by_id_true in Hb. contradiction.
  - reflexivity.
  - intros i w0 tp Hp. now apply app_tasks_same_users with (tp := tp).
Qed.

Lemma reconcile_touches_lastLogin_only_witness :
  In (User.set_lastLogin 1000 Sample.alice)
     (users (db (snd (verify "access-token" "refresh-token"
                             Sample.alice_profile Sample.world)))).
Proof.
  destruct (reconcile_touches_lastLogin_only "access-token" "refresh-token"
              Sample.alice_profile Sample.world Sample.alice Sample_store_ok
              eq_refl eq_refl) as (_ & H & _).
  exact H.
Defined.

(** ** Ownership of tasks *)

Lemma validate_valid_connected i w sid s u :
  validate i w = Valid sid s u -> connected (db w) = true.
Proof.
  unfold validate. intros H.
  destruct (cookie i); [|discriminate].
  destruct (sessions w !! _); [|discriminate].
  destruct (_ <=? _)%Z; [discriminate|].
  destruct (passport_user _); [|discriminate].
  now destruct (connected (db w)).
Qed.

Lemma lookup_unique (T : Task.t) (s : Store) :
  List.NoDup (List.map Task._id (tasks s)) -> In T (tasks s) ->
  Tasks.lookup (Task._id T) s = Some T.
Proof.
  unfold Tasks.lookup. induction (tasks s) as [|x l IH]; simpl; [tauto|].
  intros Hnd Hin. apply NoDup_cons_iff in Hnd. destruct Hnd as [Hx Hnd].
  destruct (Tasks.by_id (Task._id T) x) eqn:Hb.
  - destruct Hin as [->|Hin]; [reflexivity|].
    exfalso. apply Hx. apply Nat.eqb_eq in Hb. rewrite Hb. now apply in_map.
  - destruct Hin as [->|Hin]; [|auto].
    unfold Tasks.by_id in Hb. now rewrite Nat.eqb_refl in Hb.
Qed.

(** The shared fetch answers NotFound for a task of another account and for
    an id no task has, and hands nothing to the operation. *)
Lemma with_task_not_found (req : Request) k w u id :
  user req = Some u ->
  path req = ApiTasks (tasks_item (oid id)) ->
  connected (db w) = true ->
  match Tasks.lookup id (db w) with
  | Some t => Task.userId t <> User._id u
  | None => True
  end ->
  Controller.with_task req k w = (Ok Controller.task_not_found, w).
Proof.
  intros Hu Hp Hc Ht.
  unfold Controller.with_task, Controller.guarded, Controller.principal,
    Controller.fetch_owned, Tasks.findById.
  rewrite Hu, Hp. monad. rewrite Hc.
  destruct (Tasks.lookup id (db w)) as [t|]; simpl.
  - unfold Tasks.owned_by. apply Nat.eqb_neq in Ht. rewrite Ht. simpl.
    now rewrite set_db_id.
  - now rewrite set_db_id.
Qed.

Lemma item_route_with_task m id handler :
  m = GET \/ m = PUT \/ m = DELETE ->
  task_route Controller.controller m (tasks_item id) = Some handler ->
  exists k, forall req, handler req = Controller.with_task req (k req).
Proof.
  intros [-> | [-> | ->]]; simpl; intros Heq; injection Heq as <-.
  - eexists (fun _ _ t => _). intros req. reflexivity.
  - eexists (fun req _ t => _). intros req. reflexivity.
  - eexists (fun _ _ t => _). intros req. reflexivity.
Qed.

Lemma app_item_not_found i w sid s u id :
  method i = GET \/ method i = PUT \/ method i = DELETE ->
  path i = ApiTasks (tasks_item (oid id)) ->
  validate i w = Valid sid s u ->
  match Tasks.lookup id (db w) with
  | Some t => Task.userId t <> User._id u
  | None => True
  end ->
  fst (app Controller.controller i w) = Ok Controller.task_not_found /\
  db (snd (app Controller.controller i w)) = db w.
Proof.
  intros Hm Hp Hv Ht.
  pose proof (validate_valid_connected _ _ _ _ _ Hv) as Hc.
  rewrite (app_valid _ i w sid s u Hv).
  rewrite (routes_tasks _ _ (tasks_item (oid id))) by exact Hp.
  unfold bind, try_catch.
  rewrite (ensureAuthenticated_user _ _ _ u) by reflexivity.
  simpl.
  destruct (task_route Controller.controller (method i) (tasks_item (oid id)))
    as [handler|] eqn:Hr.
  2:{ destruct Hm as [Hm|[Hm|Hm]]; rewrite Hm in Hr; discriminate. }
  destruct (item_route_with_task _ _ _ Hm Hr) as (k & Hk).
  rewrite Hk.
  rewrite (with_task_not_found (mkReq i (Some (sid, s)) (Some u)) _ w u id
             eq_refl Hp Hc Ht).
  destruct (commit_response (mkReq i (Some (sid, s)) None)
              Controller.task_not_found w) as (w' & -> & Hw').
  split; [reflexivity|]. simpl. now apply same_but_sessions_db.
Qed.

(** C1: for a task T of account A and a request to GET, PUT or DELETE
    /api/tasks/{T.id} whose session is that of another account B, the answer
    is the 404 "Task not found" and the database is left as it was: T is
    neither shown, changed nor removed.  The answer is the same, to the
    letter, as for an id that no task has. *)
Theorem other_owner_is_not_found (i : Incoming) (w : World) (A B : User.t)
    (T : Task.t) (sid : SessionId) (s : Sess) :
  method i = GET \/ method i = PUT \/ method i = DELETE ->
  path i = ApiTasks (tasks_item (oid (Task._id T))) ->
  Store_ok (db w) ->
  In T (tasks (db w)) ->
  Task.userId T = User._id A ->
  User._id A <> User._id B ->
  validate i w = Valid sid s B ->
  fst (app Controller.controller i w)
    = Ok (res_status_json 404
            (JObj [("success", JBool false); ("message", JStr "Task not found")])) /\
  db (snd (app Controller.controller i w)) = db w /\
  (forall w0 sid0 s0 u0,
      validate i w0 = Valid sid0 s0 u0 ->
      Tasks.lookup (Task._id T) (db w0) = None ->
      fst (app Controller.controller i w0) = fst (app Controller.controller i w)).
Proof.
  intros Hm Hp Hok Hin Hown Hne Hv.
  pose proof (lookup_unique T (db w) (task_ids_unique _ Hok) Hin) as Hl.
  assert (H : fst (app Controller.controller i w) = Ok Controller.task_not_found /\
              db (snd (app Controller.controller i w)) = db w).
  { apply (app_item_not_found i w sid s B (Task._id T) Hm Hp Hv).
    rewrite Hl, Hown. exact Hne. }
  destruct H as [Hr Hdb]. split; [exact Hr|]. split; [exact Hdb|].
  intros w0 sid0 s0 u0 Hv0 Hl0. rewrite Hr.
  apply (app_item_not_found i w0 sid0 s0 u0 (Task._id T) Hm Hp Hv0).
  now rewrite Hl0.
Qed.

Lemma other_owner_is_not_found_witness :
  fst (app Controller.controller
           (Sample.request DELETE (ApiTasks (tasks_item (oid 10))) (Some 7%nat))
           Sample.world)
    = Ok Controller.task_not_found
  /\ db (snd (app Controller.controller
                  (Sample.request DELETE (ApiTasks (tasks_item (oid 10))) (Some 7%nat))
                  Sample.world))
     = Sample.store.
Proof.
  destruct (other_owner_is_not_found
              (Sample.request DELETE (ApiTasks (tasks_item (oid 10))) (Some 7%nat))
              Sample.world Sample.alice Sample.bob Sample.t1
              7%nat (mkSess (Some 2%nat) 5000))
    as (H1 & H2 & _).
  - right. right. reflexivity.
  - reflexivity.
  - exact Sample_store_ok.
  - left. reflexivity.
  - reflexivity.
  - discriminate.
  - reflexivity.
  - split; [exact H1 | exact H2].
Defined.

(** ** The session a login opens *)

Lemma find_by_id_unique (u : User.t) (l : list User.t) :
  List.NoDup (List.map User._id l) -> In u l ->
  List.find (Users.by_id (User._id u)) l = Some u.
Proof.
  induction l as [|x l IH]; simpl; [tauto|].
  intros Hnd Hin. apply NoDup_cons_iff in Hnd. destruct Hnd as [Hx Hnd].
  destruct (Users.by_id (User._id u) x) eqn:Hb.
  - destruct Hin as [->|Hin]; [reflexivity|].
    exfalso. apply Hx. apply by_id_true in Hb. rewrite Hb. now apply in_map.
  - destruct Hin as [->|Hin]; [|auto].
    unfold Users.by_id in Hb. now rewrite Nat.eqb_refl in Hb.
Qed.

Lemma world_eta w w1 : same_but_sessions w w1 -> w1 = with_sessions_of w1 w.
Proof.
  intros (A & B & C & D & E & F). destruct w, w1; simpl in *.
  unfold with_sessions_of. simpl. congruence.
Qed.

Lemma oblivious_ret {A} (a : A) : oblivious (ret a).
Proof. intros w s. reflexivity. Qed.

Lemma oblivious_throw {A} (e : Err.t) : oblivious (@throw A e).
Proof. intros w s. reflexivity. Qed.

Lemma oblivious_Date_now : oblivious Date_now.
Proof. intros w s. reflexivity. Qed.

Lemma oblivious_console_error l : oblivious (console_error l).
Proof. intros w s. reflexivity. Qed.

Lemma oblivious_on_db {A} (op : Store -> Result (A * Store)) : oblivious (on_db op).
Proof.
  intros w s. unfold on_db. simpl. now destruct (op (db w)) as [[a s']|e].
Qed.

Lemma oblivious_bind {A B} (m : M A) (k : A -> M B) :
  oblivious m -> (forall a, oblivious (k a)) -> oblivious (bind m k).
Proof.
  intros Hm Hk w s. unfold bind. rewrite Hm.
  destruct (m w) as [[a|e] w1]; simpl; [apply Hk|reflexivity].
Qed.

Lemma oblivious_try_catch {A} (m : M A) (h : Err.t -> M A) :
  oblivious m -> (forall e, oblivious (h e)) -> oblivious (try_catch m h).
Proof.
  intros Hm Hh w s. unfold try_catch. rewrite Hm.
  destruct (m w) as [[a|e] w1]; simpl; [reflexivity|apply Hh].
Qed.

Ltac oblivious_steps :=
  repeat first
    [ apply oblivious_bind
    | apply oblivious_try_catch
    | apply oblivious_ret
    | apply oblivious_throw
    | apply oblivious_Date_now
    | apply oblivious_console_error
    | apply oblivious_on_db
    | match goal with
      | |- oblivious (match ?x with _ => _ end) => destruct x
      end
    | progress unfold first_value, name_field
    | intros ].

(** The verify callback does not look at what express-session keeps. *)
Lemma verify_oblivious at_ rt p : oblivious (verify at_ rt p).
Proof.
  unfold verify, verify_try, verify_catch, Users.findOne_googleId, Users.save,
    Users.create.
  oblivious_steps.
Qed.

Lemma verify_disconnected at_ rt p w :
  connected (db w) = false ->
  exists e, verify at_ rt p w
            = (Ok (done (Some e) None),
               log_line ("Error in Google Strategye: " +:+ Err.stack e) w).
Proof.
  intros Hc. unfold verify, verify_try, Users.findOne_googleId. monad.
  rewrite Hc. simpl. eexists. reflexivity.
Qed.

(** An account the callback returns is stored, under a unique id. *)
Lemma verify_returns_stored at_ rt p w u w2 :
  Store_ok (db w) ->
  verify at_ rt p w = (Ok (done None (Some u)), w2) ->
  connected (db w2) = true /\ Store_ok (db w2) /\ In u (users (db w2)) /\
  User.googleId u = Profile.id p.
Proof.
  intros Hok Hv.
  destruct (connected (db w)) eqn:Hc.
  2:{ destruct (verify_disconnected at_ rt p w Hc) as (e & He).
      rewrite He in Hv. discriminate. }
  destruct (verify_cases at_ rt p w Hok Hc)
    as [(u0 & Hf & Hv')|[(f & u0 & Hf & Hp & Hu & Hv')|(e & _ & Hv')]];
    rewrite Hv' in Hv; [| |discriminate].
  - injection Hv as <- <-. simpl. split; [exact Hc|].
    split; [now apply Store_ok_touch|]. split.
    + apply in_map_iff. exists u0. split.
      * unfold Users.by_id. now rewrite Nat.eqb_refl.
      * now apply (find_some _ _ Hf).
    + apply find_some in Hf. destruct Hf as [_ Hg].
      unfold Users.by_googleId in Hg. now apply String.eqb_eq in Hg.
  - injection Hv as <- <-. simpl.
    destruct (new_user_of_profile p f _ _ u0 Hp Hu) as [Hid Hg].
    split; [exact Hc|]. split; [now apply Store_ok_insert|].
    split; [|exact Hg]. apply in_app_iff. right. now left.
Qed.

(** [req.logIn]: a new session, bound to the account, under a new id. *)
Lemma logIn_eq u (req : Request) w :
  Passport.logIn u req w
  = (Ok (mkReq req
               (Some (Session.generate_id w,
                      mkSess (Some (User._id u)) (clock w + 86400000)))
               (Some u)),
     set_sessions
       (<[Session.generate_id w
          := mkSess (Some (User._id u)) (clock w + 86400000)]>
          (sessions (regenerated req w)))
       (regenerated req w)).
Proof.
  unfold Passport.logIn, bind. rewrite regenerate_eq. reflexivity.
Qed.

Lemma routes_callback_login c (req : Request) w at_ rt p u w2 :
  method req = GET ->
  path req = Auth auth_google_callback ->
  query req = code_verified at_ rt p ->
  verify at_ rt p w = (Ok (done None (Some u)), w2) ->
  routes c req w
  = (Ok (res_redirect "/dashboard"),
     set_sessions
       (<[Session.generate_id w2
          := mkSess (Some (User._id u)) (clock w2 + 86400000)]>
          (sessions (regenerated req w2)))
       (regenerated req w2)).
Proof.
  intros Hm Hp Hq Hv.
  rewrite routes_callback by assumption.
  unfold authenticate. rewrite Hq. unfold bind at 1. rewrite Hv.
  cbv beta iota delta [done_err done_value].
  unfold bind. now rewrite logIn_eq.
Qed.

(** The outcome of a callback request whose profile the reconciler accepts. *)
Lemma login_outcome c i w at_ rt p u w2 :
  method i = GET ->
  path i = Auth auth_google_callback ->
  query i = code_verified at_ rt p ->
  Store_ok (db w) ->
  verify at_ rt p w = (Ok (done None (Some u)), w2) ->
  exists sid,
    fst (app c i w) = Ok (res_redirect "/dashboard") /\
    (sid ∉ issued w) /\
    sessions (snd (app c i w)) !! sid
    = Some (mkSess (Some (User._id u)) (clock w + 86400000)) /\
    db (snd (app c i w)) = db w2 /\
    clock (snd (app c i w)) = clock w /\
    set_cookies (snd (app c i w))
    = set_cookies w ++ (if is_production (NODE_ENV w) then []
                        else [(sid, session_cookie (NODE_ENV w))]) /\
    issued (snd (app c i w)) = {[sid]} ∪ issued w /\
    (signed i w ->
     forall k, cookie i = Some k -> sessions (snd (app c i w)) !! k = None) /\
    forall i2, cookie i2 = Some sid ->
      validate i2 (snd (app c i w))
      = Valid sid (mkSess (Some (User._id u)) (clock w + 86400000)) u.
Proof.
  intros Hm Hp Hq Hok Hv.
  destruct (verify_returns_stored at_ rt p w u w2 Hok Hv)
    as (Hc2 & Hok2 & Hin2 & _).
  pose proof (verify_same_env at_ rt p w) as Henv. rewrite Hv in Henv.
  destruct Henv as [Henv Hclock]. simpl in Henv, Hclock.
  assert (Hc : connected (db w) = true).
  { destruct (connected (db w)) eqn:Hc; [reflexivity|].
    destruct (verify_disconnected at_ rt p w Hc) as (e & He).
    rewrite He in Hv. discriminate. }
  assert (Hnf : forall e, validate i w <> Failed e).
  { intros e. unfold validate.
    destruct (cookie i); [|discriminate].
    destruct (sessions w !! _); [|discriminate].
    destruct (_ <=? _)%Z; [discriminate|].
    destruct (passport_user _); [|discriminate].
    rewrite Hc. destruct (List.find _ _); discriminate. }
  destruct (app_reaches_routes i w Hnf)
    as (req1 & w1 & Hi & _ & Hw & _ & Hs1 & _ & Hl & Happ).
  destruct Hl as [Hiss Hck Hlc Hln _].
  pose proof (world_eta w w1 Hw) as Heta.
  set (w3 := with_sessions_of w1 w2).
  assert (Hv1 : verify at_ rt p w1 = (Ok (done None (Some u)), w3)).
  { rewrite Heta at 1. rewrite verify_oblivious, Hv. reflexivity. }
  assert (Hfind : List.find (Users.by_id (User._id u)) (users (db w2)) = Some u).
  { apply find_by_id_unique; [apply (user_ids_unique _ Hok2)|exact Hin2]. }
  assert (Hlive : (clock w2 + 86400000 <=? clock w2)%Z = false)
    by (apply Z.leb_gt; lia).
  destruct (generate_id_fresh w3) as [Hfresh Hnew].
  set (sid := Session.generate_id w3) in *.
  set (w4 := set_sessions
               (<[sid := mkSess (Some (User._id u)) (clock w3 + 86400000)]>
                  (sessions (regenerated req1 w3)))
               (regenerated req1 w3)).
  assert (Heq : app c i w = (Ok (res_redirect "/dashboard"), response_end req1 w4)).
  { rewrite Happ. unfold bind, try_catch.
    rewrite (routes_callback_login c req1 w1 at_ rt p u w3
               ltac:(now rewrite Hi) ltac:(now rewrite Hi) ltac:(now rewrite Hi) Hv1).
    apply commit_eq. }
  assert (Hw4 : same_but_sessions w2 (response_end req1 w4)).
  { apply same_but_sessions_trans with (w2 := w3); [now repeat split|].
    apply same_but_sessions_trans with (w2 := regenerated req1 w3);
      [apply regenerated_same|].
    apply same_but_sessions_trans with (w2 := w4);
      [apply same_but_sessions_set|apply response_end_same]. }
  destruct Hw4 as (Hdb4 & _ & Hclock4 & Henv4 & _).
  assert (Hne : forall sid1 s1, session req1 = Some (sid1, s1) -> sid1 <> sid).
  { intros sid1 s1 Hsess Heq1. rewrite Heq1 in Hsess.
    pose proof (Hs1 sid s1 Hsess) as Hin.
    assert (Hs3 : sessions w3 = sessions w1) by reflexivity.
    rewrite Hs3 in Hfresh. congruence. }
  assert (Hs4 : sessions w4
                = <[sid := mkSess (Some (User._id u)) (clock w2 + 86400000)]>
                    (sessions (regenerated req1 w3))) by reflexivity.
  assert (Hlook :
    sessions (snd (app c i w)) !! sid
    = Some (mkSess (Some (User._id u)) (clock w2 + 86400000))).
  { rewrite Heq. cbn [snd]. rewrite response_end_sessions, Hs4.
    destruct (session req1) as [[sid1 s1]|] eqn:Hsess.
    - rewrite lookup_alter_ne by now apply (Hne sid1 s1).
      apply lookup_insert_eq.
    - apply lookup_insert_eq. }
  exists sid.
  split; [now rewrite Heq|].
  split; [now rewrite <- Hiss|].
  split; [now rewrite Hlook, Hclock|].
  split; [now rewrite Heq|].
  split; [rewrite Heq; cbn [snd]; congruence|].
  split.
  { rewrite Heq. cbn [snd]. rewrite response_end_cookies.
    assert (Hck4 : set_cookies w4 = set_cookies w1)
      by (exact (regenerated_cookies req1 w3)).
    assert (Hmod4 : modified w4 = Some sid)
      by (exact (regenerated_modified req1 w3)).
    assert (Henv4' : NODE_ENV w4 = NODE_ENV w2).
    { now destruct (regenerated_same req1 w3) as (_ & _ & _ & B & _). }
    unfold due_cookie. now rewrite Hck4, Hmod4, Henv4', Hck, Henv. }
  split.
  { rewrite Heq. cbn [snd]. rewrite response_end_issued.
    assert (Hi4 : issued w4 = {[sid]} ∪ issued w1)
      by (exact (regenerated_issued req1 w3)).
    now rewrite Hi4, Hiss. }
  split.
  { intros Hsig k Hk.
    assert (Hks : sid <> k).
    { intros <-. apply Hnew. change (issued w3) with (issued w1).
      rewrite Hiss. now apply Hsig. }
    rewrite Heq. cbn [snd].
    rewrite response_end_sessions, Hs4, regenerated_sessions.
    destruct (session req1) as [[sid1 s1]|] eqn:Hsess.
    - pose proof (Hlc sid1 s1 eq_refl) as Hc1.
      assert (sid1 = k) as -> by congruence.
      rewrite lookup_alter_eq, !lookup_insert_ne by exact Hks.
      now rewrite lookup_delete_eq.
    - rewrite !lookup_insert_ne by exact Hks.
      now apply (Hln eq_refl). }
  intros i2 Hc2i. unfold validate. rewrite Hc2i, Hlook. simpl.
  rewrite Heq. cbn [snd]. rewrite Hclock4, Hlive, Hdb4, Hc2, Hfind.
  now rewrite Hclock.
Qed.

(** ** What the routes leave alone *)

(** A relation between worlds that every write to the console respects is
    kept by the routes as soon as it is kept by the three things that do
    more than answer: a login, a logout and the handlers of the task
    controller. *)
Section Routes.
Variable R : World -> World -> Prop.
Hypothesis R_refl : forall w, R w w.
Hypothesis R_trans : forall w1 w2 w3, R w1 w2 -> R w2 w3 -> R w1 w3.
Hypothesis R_log : forall l w, R w (log_line l w).
Variable c : TaskController.
Variable req : Request.
Hypothesis R_login : login_attempt req = true -> preserves R (routes c req).
Hypothesis R_logout : logout_request req = true -> preserves R (logout_route req).
Hypothesis R_tasks :
  forall p handler,
    path req = ApiTasks p -> task_route c (method req) p = Some handler ->
    preserves R (handler req).

Ltac answers :=
  repeat first
    [ apply (preserves_bind R R_trans)
    | apply (preserves_ret R R_refl)
    | apply (preserves_throw R R_refl)
    | apply (preserves_get R R_refl)
    | match goal with
      | |- preserves _ (match ?x with _ => _ end) => destruct x
      end
    | intros ].

Lemma error_handler_preserves e : preserves R (error_handler e).
Proof.
  unfold error_handler, console_error.
  apply (preserves_bind R R_trans); [|intros; apply (preserves_ret R R_refl)].
  apply (preserves_modify R). intros w. apply R_log.
Qed.

Lemma app_routes_preserves (r : Request) : preserves R (app_routes r).
Proof.
  unfold app_routes, root_route, dashboard_route, login_failed_route, not_found.
  answers.
Qed.

Lemma handshake_preserves options (r : Request) next :
  (forall at_ rt p, query r <> code_verified at_ rt p) ->
  preserves R (authenticate options r next).
Proof.
  intros Hq. unfold authenticate, authorization_redirect, auth_fail.
  destruct (query r) as [| |e|at_ rt p]; [answers..|].
  now elim (Hq at_ rt p).
Qed.

Lemma routes_preserves : preserves R (try_catch (routes c req) error_handler).
Proof.
  apply (preserves_try_catch R R_trans); [|apply error_handler_preserves].
  destruct (login_attempt req) eqn:Hl; [now apply R_login|].
  unfold routes, auth_router, tasks_router.
  destruct (path req) as [ | | | |a|p|raw] eqn:Hp.
  - destruct (method req); apply app_routes_preserves.
  - destruct (method req); apply app_routes_preserves.
  - destruct (method req); apply app_routes_preserves.
  - answers.
  - destruct (method req) eqn:Hm, a;
      try apply app_routes_preserves;
      try (apply handshake_preserves; intros at_ rt p0 Hq;
           unfold login_attempt in Hl; rewrite Hm, Hp, Hq in Hl;
           discriminate Hl);
      try (apply R_logout; unfold logout_request; now rewrite Hm, Hp);
      unfold status_route, profile_route; answers.
  - assert (Ht : preserves R
                   (ensureAuthenticated req (fun r =>
                      match task_route c (method r) p with
                      | Some handler => handler r
                      | None => app_routes r
                      end))).
    { unfold ensureAuthenticated.
      destruct (Passport.isAuthenticated req); [|answers].
      destruct (task_route c (method req) p) as [handler|] eqn:Hr.
      - now apply (R_tasks p).
      - apply app_routes_preserves. }
    destruct (method req); exact Ht.
  - destruct (method req); apply app_routes_preserves.
Qed.
End Routes.

(** The same for the server as a whole, for a relation that what the
    session middleware does before and after the routes respects. *)
Section Served.
Variable R : World -> World -> Prop.
Hypothesis R_refl : forall w, R w w.
Hypothesis R_trans : forall w1 w2 w3, R w1 w2 -> R w2 w3 -> R w1 w3.
Hypothesis R_log : forall l w, R w (log_line l w).
Hypothesis R_loaded :
  forall i w req1 w1,
    session_loaded i w req1 w1 -> dom (sessions w1) ⊆ dom (sessions w) ->
    same_but_sessions w w1 -> R w w1.
Hypothesis R_end : forall req w, R w (response_end req w).
Variable c : TaskController.
Variable i : Incoming.
Hypothesis R_login :
  login_attempt i = true ->
  forall req : Request, incoming req = i -> preserves R (routes c req).
Hypothesis R_logout :
  logout_request i = true ->
  forall req : Request, incoming req = i -> preserves R (logout_route req).
Hypothesis R_tasks :
  forall (req : Request) p handler,
    incoming req = i -> path i = ApiTasks p ->
    task_route c (method i) p = Some handler ->
    preserves R (handler req).

Lemma app_preserves : preserves R (app c i).
Proof.
  intros w.
  destruct (validate i w) as [|sid s u|e] eqn:Hv.
  3:{ destruct (app_failed_eq i w e Hv) as (sid & s & _ & _ & Happ).
      rewrite Happ. cbn [snd].
      eapply R_trans; [apply R_log|apply R_end]. }
  all: assert (Hnf : forall e, validate i w <> Failed e)
      by (rewrite Hv; discriminate);
    destruct (app_reaches_routes i w Hnf)
      as (req1 & w1 & Hi & _ & Hw & Hd & _ & _ & Hl & Happ);
    rewrite Happ; unfold bind;
    pose proof (routes_preserves R R_refl R_trans R_log c req1) as Hr;
    (eapply R_trans; [apply (R_loaded i w req1 w1 Hl Hd Hw)|]);
    specialize (Hr
      ltac:(unfold login_attempt; rewrite Hi; intros H; now apply R_login)
      ltac:(unfold logout_request; rewrite Hi; intros H; now apply R_logout)
      ltac:(rewrite Hi; intros p h Hp Ht; now apply (R_tasks req1 p))
      w1);
    destruct (try_catch (routes c req1) error_handler w1) as [[res|e] w2];
    cbn [snd] in *;
    [ rewrite commit_eq; cbn [snd]; eapply R_trans; [exact Hr|apply R_end]
    | exact Hr ].
Qed.
End Served.

(** A login, for a relation that writes to the database and the console
    and the new session of [req.logIn] respect. *)
Section Login.
Variable R : World -> World -> Prop.
Hypothesis R_refl : forall w, R w w.
Hypothesis R_trans : forall w1 w2 w3, R w1 w2 -> R w2 w3 -> R w1 w3.
Hypothesis R_log : forall l w, R w (log_line l w).
Hypothesis R_db : forall s w, R w (set_db s w).
Hypothesis R_logIn : forall u (req : Request) w, R w (snd (Passport.logIn u req w)).

Ltac reconciles :=
  repeat first
    [ apply (preserves_bind R R_trans)
    | apply (preserves_try_catch R R_trans)
    | apply (preserves_ret R R_refl)
    | apply (preserves_throw R R_refl)
    | apply (preserves_get R R_refl)
    | apply (preserves_Date_now R R_refl)
    | apply (preserves_on_db R R_refl); intros; apply R_db
    | apply (preserves_modify R); intros; apply R_log
    | match goal with
      | |- preserves _ (match ?x with _ => _ end) => destruct x
      end
    | progress unfold first_value, name_field, console_error
    | intros ].

Lemma verify_preserves at_ rt p : preserves R (verify at_ rt p).
Proof.
  unfold verify, verify_try, verify_catch, Users.findOne_googleId, Users.save,
    Users.create.
  reconciles.
Qed.

Lemma login_preserves c (req : Request) :
  login_attempt req = true -> preserves R (routes c req).
Proof.
  intros Hl. unfold login_attempt in Hl.
  assert (Hnext : forall (next : Handler) u w,
             (forall s, preserves R (next (mkReq req s (Some u)))) ->
             R w (snd ((let* r := Passport.logIn u req in next r) w))).
  { intros next u w Hn. unfold bind.
    pose proof (R_logIn u req w) as H1. rewrite logIn_eq in *. cbn [snd] in H1.
    eapply R_trans; [exact H1|apply Hn]. }
  assert (Hauth : forall options (next : Handler),
             (forall s u, preserves R (next (mkReq req s (Some u)))) ->
             preserves R (authenticate options req next)).
  { intros options next Hn. unfold authenticate, authorization_redirect, auth_fail.
    destruct (query req) as [| |e|at_ rt p]; [reconciles..|].
    apply (preserves_bind R R_trans); [apply verify_preserves|].
    intros d. destruct (done_err d); [reconciles|].
    destruct (done_value d) as [u|]; [|reconciles].
    intros w. apply Hnext. intros s. apply Hn. }
  unfold routes, auth_router.
  destruct (path req) as [ | | | |a|p|raw] eqn:Hp;
    try (destruct (method req); discriminate Hl).
  destruct a; try (destruct (method req); discriminate Hl).
  - assert (H : preserves R
                  (authenticate (mkAuthOptions (Some ["profile"; "email"]) None) req
                     (fun r => tasks_router c r app_routes))).
    { apply Hauth. intros s u. unfold tasks_router. cbn [path incoming].
      rewrite Hp. unfold app_routes, root_route, dashboard_route,
        login_failed_route, not_found. reconciles. }
    destruct (method req); try discriminate Hl; exact H.
  - assert (H : preserves R
                  (authenticate (mkAuthOptions None (Some "/login-failed")) req
                     (fun _ => ret (res_redirect "/dashboard")))).
    { apply Hauth. intros s u. reconciles. }
    destruct (method req); try discriminate Hl; exact H.
Qed.
End Login.

(** ** The session cookie *)

Lemma same_but_db_refl w : same_but_db w w.
Proof. now repeat split. Qed.

Lemma same_but_db_trans w1 w2 w3 :
  same_but_db w1 w2 -> same_but_db w2 w3 -> same_but_db w1 w3.
Proof.
  intros ((A & B & C & D) & E & F & G & H) ((A' & B' & C' & D') & E' & F' & G' & H').
  repeat split; congruence.
Qed.

Lemma answered (m : M Response) w :
  exists res w', try_catch m error_handler w = (Ok res, w').
Proof.
  unfold try_catch. destruct (m w) as [[res|e] w']; [eauto|].
  rewrite error_handler_eq. eauto.
Qed.

(** A request that comes with a valid session and neither logs in nor out
    leaves the session state to the end of the response, which renews the
    session. *)
Lemma valid_session_is_renewed c i w sid s u :
  login_attempt i = false ->
  logout_request i = false ->
  database_only c ->
  validate i w = Valid sid s u ->
  sessions (snd (app c i w)) !! sid
  = Some (mkSess (passport_user s) (clock w + 86400000)) /\
  set_cookies (snd (app c i w)) = set_cookies w ++ due_cookie w.
Proof.
  intros Hl Ho Hc Hv.
  assert (Hnf : forall e, validate i w <> Failed e) by (rewrite Hv; discriminate).
  destruct (app_reaches_routes i w Hnf)
    as (req1 & w1 & _ & _ & _ & _ & Hs & Hvalid & _ & Happ).
  destruct (Hvalid sid s u Hv) as [-> ->].
  pose proof (routes_preserves same_but_db same_but_db_refl same_but_db_trans
                ltac:(intros; now repeat split) c
                (mkReq i (Some (sid, s)) (Some u))
                ltac:(intros H; change (login_attempt i = true) in H; congruence)
                ltac:(intros H; change (logout_request i = true) in H; congruence)
                ltac:(intros p h _ Hr; now apply (Hc _ _ _ _ Hr))
                w) as Hr.
  rewrite Happ. unfold bind.
  destruct (answered (routes c (mkReq i (Some (sid, s)) (Some u))) w)
    as (res & w2 & Heq).
  rewrite Heq in *. cbn [snd] in Hr.
  destruct Hr as ((Hss & _ & Hmod & Hck) & Hclock & Henv & _).
  rewrite commit_eq. cbn [snd].
  rewrite response_end_sessions, response_end_cookies. cbn [session].
  split.
  - rewrite lookup_alter_eq, Hss, (Hs sid s eq_refl), Hclock. reflexivity.
  - unfold due_cookie. now rewrite Hck, Hmod, Henv.
Qed.

Lemma routes_status c (req : Request) w :
  method req = GET -> path req = Auth auth_status ->
  routes c req w = (Ok (status_of (user req)), w).
Proof.
  intros Hm Hp. unfold routes, auth_router. rewrite Hp, Hm.
  unfold status_route, status_of. now destruct (user req).
Qed.

(** C7, as the code has it: the session cookie is configured http-only,
    secure exactly when NODE_ENV is "production", same-site "none" in
    production and "lax" otherwise, with the max-age of 24 hours in
    milliseconds.  A login stores a new session, bound to the account, that
    expires one max-age after the login, and announces it with a Set-Cookie
    header of these attributes exactly when the cookie is not secure, that
    is outside production: no request arrives on a secure connection, so
    the secure cookie of production is never sent.  The max-age is a
    constant and a session that is used gets no new cookie, but its expiry
    in the store slides: every request that presents it and neither logs in
    nor out - these replace the session - moves the expiry to one max-age
    from then (the handlers of the task controller are taken to work on the
    database only). *)
Theorem login_cookie_attributes (c : TaskController) (i : Incoming)
    (w w2 : World) (accessToken refreshToken : string) (p : Profile.t)
    (u : User.t) :
  method i = GET ->
  path i = Auth auth_google_callback ->
  query i = code_verified accessToken refreshToken p ->
  Store_ok (db w) ->
  verify accessToken refreshToken p w = (Ok (done None (Some u)), w2) ->
  httpOnly (session_cookie (NODE_ENV w)) = true /\
  secure (session_cookie (NODE_ENV w)) = is_production (NODE_ENV w) /\
  sameSite (session_cookie (NODE_ENV w))
    = (if is_production (NODE_ENV w) then none else lax) /\
  maxAge (session_cookie (NODE_ENV w)) = 86400000 /\
  (exists sid,
      (sid ∉ issued w) /\
      sessions (snd (app c i w)) !! sid
      = Some (mkSess (Some (User._id u))
                     (clock w + maxAge (session_cookie (NODE_ENV w)))) /\
      set_cookies (snd (app c i w))
      = set_cookies w ++ (if is_production (NODE_ENV w) then []
                          else [(sid, session_cookie (NODE_ENV w))])) /\
  (forall i2 sid s u2,
      login_attempt i2 = false ->
      logout_request i2 = false ->
      database_only c ->
      validate i2 w = Valid sid s u2 ->
      sessions (snd (app c i2 w)) !! sid
      = Some (mkSess (passport_user s)
                     (clock w + maxAge (session_cookie (NODE_ENV w)))) /\
      (modified w = None -> set_cookies (snd (app c i2 w)) = set_cookies w)).
Proof.
  intros Hm Hp Hq Hok Hv.
  split; [reflexivity|]. split; [reflexivity|]. split; [reflexivity|].
  split; [reflexivity|]. split.
  - destruct (login_outcome c i w accessToken refreshToken p u w2 Hm Hp Hq Hok Hv)
      as (sid & _ & Hnew & Hs & _ & _ & Hck & _).
    exists sid. split; [exact Hnew|]. split; [exact Hs|exact Hck].
  - intros i2 sid s u2 Hl2 Ho2 Hc2 Hv2.
    destruct (valid_session_is_renewed c i2 w sid s u2 Hl2 Ho2 Hc2 Hv2)
      as (Hs & Hck).
    split; [exact Hs|].
    intros Hmod. rewrite Hck. unfold due_cookie. rewrite Hmod. apply app_nil_r.
Qed.

Lemma login_cookie_attributes_witness :
  sameSite (session_cookie None) = lax /\
  secure (session_cookie None) = false /\
  exists sid,
    set_cookies (snd (app Controller.controller (Sample.callback Sample.carol)
                          Sample.dev))
    = [(sid, session_cookie None)].
Proof.
  destruct (login_cookie_attributes Controller.controller
              (Sample.callback Sample.carol) Sample.dev
              (snd (verify "access-token" "refresh-token" Sample.carol Sample.dev))
              "access-token" "refresh-token" Sample.carol
              (User.mk 11 "g-3" "c@x.com" "Carol" (Some "Carol") None
                       (Some "https://img/carol") 1000 1000))
    as (_ & Hsec & Hsame & _ & (sid & _ & _ & Hck) & _); try reflexivity.
  - exact Sample_store_ok.
  - split; [exact Hsame|]. split; [exact Hsec|]. exists sid. exact Hck.
Defined.

(** C7 as stated fails.  In production the configured cookie is same-site
    "none", not "strict", and carol's login there sets no cookie at all.
    And the expiry slides: alice's session 6 was to expire at 5000; she asks
    for /auth/status at 1000, which moves the expiry to 1000 + 24 h, so that
    at 6000 her cookie, which would have been stale, still authenticates
    her. *)
Lemma production_cookie_is_not_strict :
  NODE_ENV Sample.world = Some "production"
  /\ session_cookie (NODE_ENV Sample.world) = mkCookie true true 86400000 none
  /\ sameSite (session_cookie (NODE_ENV Sample.world)) <> strict
  /\ fst (app Controller.controller (Sample.callback Sample.carol) Sample.world)
     = Ok (res_redirect "/dashboard")
  /\ set_cookies (snd (app Controller.controller (Sample.callback Sample.carol)
                           Sample.world)) = []
  /\ sessions Sample.world !! 6%nat = Some (mkSess (Some 1%nat) 5000)
  /\ sessions (snd (app Controller.controller
                        (Sample.request GET (Auth auth_status) (Some 6%nat))
                        Sample.world)) !! 6%nat
     = Some (mkSess (Some 1%nat) 86401000)
  /\ validate (Sample.request GET (Auth auth_status) (Some 6%nat))
              (set_clock 6000 Sample.world) = Invalid
  /\ validate (Sample.request GET (Auth auth_status) (Some 6%nat))
              (set_clock 6000
                 (snd (app Controller.controller
                           (Sample.request GET (Auth auth_status) (Some 6%nat))
                           Sample.world)))
     = Valid 6 (mkSess (Some 1%nat) 86401000) Sample.alice.
Proof.
  split; [reflexivity|]. split; [reflexivity|]. split; [discriminate|].
  split; [vm_compute; reflexivity|]. split; [vm_compute; reflexivity|].
  split; [vm_compute; reflexivity|]. split; [vm_compute; reflexivity|].
  split; vm_compute; reflexivity.
Qed.

(** * Further properties *)

(** ** The end of a response *)

Lemma commit_dom req res w :
  exists w', Session.commit req res w = (Ok res, w') /\
             same_but_sessions w w' /\
             dom (sessions w') = dom (sessions w).
Proof.
  exists (response_end req w). split; [apply commit_eq|].
  split; [apply response_end_same|apply response_end_dom].
Qed.

Lemma response_end_db req w : db (response_end req w) = db w.
Proof. now destruct (response_end_same req w) as (A & _). Qed.

(** ** Routes that only look at the principal *)

(** A route whose handler answers from [req.user] alone and leaves the
    world alone. *)
Lemma app_answers_from_principal c i w (answer : option User.t -> Response) :
  (forall e, validate i w <> Failed e) ->
  (forall (req : Request) w1,
      incoming req = i -> routes c req w1 = (Ok (answer (user req)), w1)) ->
  fst (app c i w) = Ok (answer (principal_of (validate i w))) /\
  same_but_sessions w (snd (app c i w)) /\
  dom (sessions (snd (app c i w))) ⊆ dom (sessions w).
Proof.
  intros Hv Hroute.
  destruct (app_reaches_routes i w Hv)
    as (req1 & w1 & Hi & Hu & Hw & Hd & _ & _ & _ & Happ).
  rewrite Happ. unfold bind, try_catch. rewrite (Hroute req1 w1 Hi), Hu.
  destruct (commit_dom req1 (answer (principal_of (validate i w))) w1)
    as (w2 & -> & Hw2 & Hd2).
  simpl. split; [reflexivity|]. split.
  - eapply same_but_sessions_trans; eauto.
  - now rewrite Hd2.
Qed.

(** X5: GET /auth/status answers 200 in both cases: with the id, email,
    display name and picture of the account when the session of the request
    validates, and with [authenticated: false] otherwise; the database is
    not written. *)
Theorem status_reports_the_principal (c : TaskController) (i : Incoming)
    (w : World) :
  method i = GET ->
  path i = Auth auth_status ->
  (forall e, validate i w <> Failed e) ->
  fst (app c i w) = Ok (status_of (principal_of (validate i w))) /\
  status (status_of (principal_of (validate i w))) = 200%nat /\
  db (snd (app c i w)) = db w.
Proof.
  intros Hm Hp Hv.
  destruct (app_answers_from_principal c i w status_of Hv) as (Hr & Hw & _).
  - intros req w1 Hi. unfold routes, auth_router. rewrite Hi, Hp, Hm.
    unfold status_route, status_of. now destruct (user req).
  - split; [exact Hr|]. split; [now destruct (validate i w)|].
    now apply same_but_sessions_db.
Qed.

Lemma status_reports_the_principal_witness :
  fst (app Controller.controller
           (Sample.request GET (Auth auth_status) (Some 7%nat)) Sample.world)
    = Ok (status_of (Some Sample.bob))
  /\ fst (app Controller.controller
              (Sample.request GET (Auth auth_status) (Some 8%nat)) Sample.world)
       = Ok (status_of None).
Proof.
  split.
  - destruct (status_reports_the_principal Controller.controller
                (Sample.request GET (Auth auth_status) (Some 7%nat)) Sample.world)
      as (H & _); [reflexivity | reflexivity | intros e; vm_compute; discriminate |].
    exact H.
  - destruct (status_reports_the_principal Controller.controller
                (Sample.request GET (Auth auth_status) (Some 8%nat)) Sample.world)
      as (H & _); [reflexivity | reflexivity | intros e; vm_compute; discriminate |].
    exact H.
Defined.

(** X6: GET /auth/profile shows the stored account of the session, with
    googleId, names, creation and last-login time, and answers 401
    "Authentication required" to a request whose session does not validate;
    it is 200 exactly when /auth/status reports [authenticated: true]. *)
Theorem profile_shows_the_principal (c : TaskController) (i i' : Incoming)
    (w : World) :
  method i = GET ->
  path i = Auth auth_profile ->
  (forall e, validate i w <> Failed e) ->
  fst (app c i w) = Ok (profile_of (principal_of (validate i w))) /\
  db (snd (app c i w)) = db w /\
  (method i' = GET -> path i' = Auth auth_status -> cookie i' = cookie i ->
   (fst (app c i w) = Ok (profile_of None)
    <-> fst (app c i' w) = Ok (status_of None))).
Proof.
  intros Hm Hp Hv.
  destruct (app_answers_from_principal c i w profile_of Hv) as (Hr & Hw & _).
  - intros req w1 Hi. unfold routes, auth_router. rewrite Hi, Hp, Hm.
    unfold profile_route, profile_of. now destruct (user req).
  - split; [exact Hr|]. split; [now apply same_but_sessions_db|].
    intros Hm' Hp' Hc'.
    assert (Hsame : validate i' w = validate i w).
    { unfold validate. now rewrite Hc'. }
    assert (Hv' : forall e, validate i' w <> Failed e) by now rewrite Hsame.
    destruct (app_answers_from_principal c i' w status_of Hv') as (Hr' & _).
    { intros req w1 Hi. unfold routes, auth_router. rewrite Hi, Hp', Hm'.
      unfold status_route, status_of. now destruct (user req). }
    rewrite Hr, Hr', Hsame.
    destruct (principal_of (validate i w)); simpl; split; intros H; discriminate || reflexivity.
Qed.

Lemma profile_shows_the_principal_witness :
  fst (app Controller.controller
           (Sample.request GET (Auth auth_profile) (Some 6%nat)) Sample.world)
    = Ok (profile_of (Some Sample.alice)).
Proof.
  destruct (profile_shows_the_principal Controller.controller
              (Sample.request GET (Auth auth_profile) (Some 6%nat))
              (Sample.request GET (Auth auth_status) (Some 6%nat)) Sample.world)
    as (H & _); [reflexivity | reflexivity | intros e; vm_compute; discriminate |].
  exact H.
Defined.

(** ** Requests that no route matches *)

(** X9: a request that no route matches - an unknown path with any method,
    or POST, PUT or DELETE on the authentication routes, the root, the
    dashboard or the login-failed page - is answered 404 "Route not found"
    when the lookup of its session is answered, and 500 by the error handler
    when it is not; either way the database is not written, and a session
    that validates stays bound to its account: a POST to /auth/logout does
    not log out.  A HEAD request is not among them: HEAD /auth/logout
    reaches the logout handler like GET. *)
Theorem unmatched_request_is_not_found (c : TaskController) (i : Incoming)
    (w : World) :
  (exists raw, path i = Unknown raw) \/
  (method i <> GET /\ method i <> HEAD /\ path i <> ApiDocs /\
   forall p, path i <> ApiTasks p) ->
  ((forall e, validate i w <> Failed e) ->
   fst (app c i w)
   = Ok (res_status_json 404
           (JObj [("success", JBool false); ("message", JStr "Route not found")]))) /\
  (forall e, validate i w = Failed e -> fst (app c i w) = Ok (internal_error e)) /\
  db (snd (app c i w)) = db w /\
  (forall sid s u, validate i w = Valid sid s u ->
     passport_user <$> (sessions (snd (app c i w)) !! sid)
     = Some (Some (User._id u))) /\
  (forall req : Request,
     method req = HEAD -> path req = Auth auth_logout ->
     routes c req = logout_route req).
Proof.
  intros Hno.
  assert (Hroute : forall (req : Request) w1,
             incoming req = i -> routes c req w1 = (Ok route_not_found, w1)).
  { intros req w1 Hi. unfold routes, auth_router, tasks_router, app_routes.
    rewrite Hi.
    destruct Hno as [(raw & ->)|(Hm & Hh & Hd & Ht)].
    - now destruct (method i).
    - destruct (path i) as [ | | | |a|p|raw] eqn:Hpi; destruct (method i);
        try congruence; try (exfalso; eapply Ht; reflexivity);
        try reflexivity; destruct a; reflexivity. }
  assert (Hquiet : login_attempt i = false /\ forall p, path i <> ApiTasks p).
  { unfold login_attempt.
    destruct Hno as [(raw & Hp)|(Hm & Hh & Hd & Ht)].
    - rewrite Hp. split; [now destruct (method i)|discriminate].
    - split; [|exact Ht]. destruct (method i); congruence. }
  destruct Hquiet as [Hl Ht].
  split; [|split; [|split; [|split]]].
  - intros Hv.
    destruct (app_reaches_routes i w Hv)
      as (req1 & w1 & Hi & _ & _ & _ & _ & _ & _ & Happ).
    rewrite Happ. unfold bind, try_catch. rewrite (Hroute req1 w1 Hi).
    now rewrite commit_eq.
  - intros e Hv. destruct (app_failed i w e Hv) as (w' & _ & Happ).
    now rewrite Happ.
  - apply (app_preserves same_db); try reflexivity.
    + intros w1 w2 w3 H1 H2. unfold same_db in *. congruence.
    + intros i0 w0 req1 w1 _ _ Hw. apply Hw.
    + intros req w0. apply response_end_db.
    + rewrite Hl. discriminate.
    + intros _ req _ w0. apply logout_same_but_sessions.
    + intros req p handler _ Hp. now elim (Ht p).
  - intros sid s u Hval.
    assert (Hv : forall e, validate i w <> Failed e)
      by (rewrite Hval; discriminate).
    destruct (app_reaches_routes i w Hv)
      as (req1 & w1 & Hi & _ & _ & _ & Hs & Hvalid & _ & Happ).
    destruct (Hvalid sid s u Hval) as [-> ->].
    pose proof (Hs sid s eq_refl) as Hlook.
    rewrite Happ. unfold bind, try_catch. rewrite (Hroute _ w Hi).
    rewrite commit_eq. cbn [snd]. rewrite response_end_sessions. cbn [session].
    rewrite lookup_alter_eq, Hlook. simpl. f_equal.
    unfold validate in Hval.
    destruct (cookie i) as [sid'|]; [|discriminate].
    destruct (sessions w !! sid') as [s'|]; [|discriminate].
    destruct (expires s' <=? clock w)%Z; [discriminate|].
    destruct (passport_user s') as [id|] eqn:Hpu; [|discriminate].
    destruct (connected (db w)); [|discriminate].
    destruct (List.find (Users.by_id id) (users (db w))) as [u'|] eqn:Hf;
      [|discriminate].
    injection Hval as <- <- <-. rewrite Hpu. f_equal.
    apply find_some in Hf. destruct Hf as [_ Hid]. now apply by_id_true in Hid.
  - intros req Hm Hp. unfold routes, auth_router. now rewrite Hp, Hm.
Qed.

Lemma unmatched_request_is_not_found_witness :
  fst (app Controller.controller
           (Sample.request POST (Auth auth_logout) (Some 6%nat)) Sample.world)
    = Ok route_not_found
  /\ passport_user
       <$> (sessions (snd (app Controller.controller
                              (Sample.request POST (Auth auth_logout) (Some 6%nat))
                              Sample.world)) !! 6%nat)
     = Some (Some 1%nat).
Proof.
  destruct (unmatched_request_is_not_found Controller.controller
              (Sample.request POST (Auth auth_logout) (Some 6%nat)) Sample.world)
    as (H1 & _ & _ & H3 & _).
  - right. split; [discriminate|]. split; [discriminate|].
    split; [discriminate|]. intros p; discriminate.
  - split; [apply H1; intros e; vm_compute; discriminate|].
    apply (H3 6%nat (mkSess (Some 1%nat) 5000) Sample.alice). reflexivity.
Defined.

(** ** The task router beyond its five routes *)

(** X10: under /api/tasks a request with a valid session that matches none
    of the five routes (another method, a longer path) is answered 404
    "Route not found" without any handler of the controller being called;
    the database is not written. *)
Theorem unmatched_task_route_is_not_found (c : TaskController) (i : Incoming)
    (w : World) (p : TasksPath) (sid : SessionId) (s : Sess) (u : User.t) :
  path i = ApiTasks p ->
  task_route c (method i) p = None ->
  validate i w = Valid sid s u ->
  fst (app c i w) = Ok route_not_found /\
  db (snd (app c i w)) = db w /\
  forall c', app c' i w = app c i w.
Proof.
  intros Hp Hr Hv.
  assert (Hroute : forall c0, routes c0 (mkReq i (Some (sid, s)) (Some u)) w
                              = (Ok route_not_found, w)).
  { intros c0. rewrite (routes_tasks c0 _ p) by exact Hp.
    rewrite (ensureAuthenticated_user _ _ _ u) by reflexivity. simpl.
    replace (task_route c0 (method i) p) with (@None Handler).
    - unfold app_routes. simpl. rewrite Hp. now destruct (method i).
    - destruct (method i), p; simpl in *; congruence. }
  assert (Happ : forall c0, app c0 i w
                   = Session.commit (mkReq i (Some (sid, s)) None) route_not_found w).
  { intros c0. rewrite (app_valid c0 i w sid s u Hv). unfold bind, try_catch.
    now rewrite Hroute. }
  destruct (commit_response (mkReq i (Some (sid, s)) None) route_not_found w)
    as (w' & Hc & Hw).
  rewrite Happ, Hc. split; [reflexivity|]. split.
  - now apply same_but_sessions_db.
  - intros c'. now rewrite Happ, Hc.
Qed.

Lemma unmatched_task_route_is_not_found_witness :
  fst (app Controller.controller
           (Sample.request DELETE (ApiTasks tasks_root) (Some 6%nat)) Sample.world)
    = Ok route_not_found.
Proof.
  apply (unmatched_task_route_is_not_found Controller.controller
           (Sample.request DELETE (ApiTasks tasks_root) (Some 6%nat)) Sample.world
           tasks_root 6%nat (mkSess (Some 1%nat) 5000) Sample.alice);
    reflexivity.
Defined.

(** ** deserializeUser *)

(** X1: what [serializeUser] puts into the session, [deserializeUser] turns
    back into the same account: for a stored account, with object ids unique
    and the database reachable, the round trip returns the account and
    changes nothing. *)
Theorem serialize_deserialize_round_trip (u : User.t) (w : World) :
  Store_ok (db w) ->
  connected (db w) = true ->
  In u (users (db w)) ->
  exists id,
    serializeUser u w = (Ok (done None (Some id)), w) /\
    deserializeUser id w = (Ok (done None (Some u)), w).
Proof.
  intros Hok Hc Hin. exists (User._id u). split; [reflexivity|].
  unfold deserializeUser, Users.findById. monad. rewrite Hc.
  rewrite (find_by_id_unique u _ (user_ids_unique _ Hok) Hin). simpl.
  now rewrite set_db_id.
Qed.

Lemma serialize_deserialize_round_trip_witness :
  exists id,
    serializeUser Sample.bob Sample.world = (Ok (done None (Some id)), Sample.world) /\
    deserializeUser id Sample.world = (Ok (done None (Some Sample.bob)), Sample.world).
Proof.
  apply (serialize_deserialize_round_trip Sample.bob Sample.world Sample_store_ok).
  - reflexivity.
  - right. left. reflexivity.
Defined.

(** X2: while the database is unreachable, [deserializeUser] does not throw
    but reports the error through [done], and every request that carries a
    live session bound to an account - whatever its route, /auth/logout and
    /auth/status included - is answered by the error handler with that
    error; no route handler runs and nothing is written. *)
Theorem unreachable_database_fails_bound_sessions (c : TaskController)
    (i : Incoming) (w : World) (sid : SessionId) (s : Sess) (id : ObjectId) :
  cookie i = Some sid ->
  sessions w !! sid = Some s ->
  (clock w < expires s)%Z ->
  passport_user s = Some id ->
  connected (db w) = false ->
  exists e,
    deserializeUser id w = (Ok (done (Some e) None), w) /\
    fst (app c i w)
      = Ok (res_status_json 500
              (JObj [("success", JBool false);
                     ("message", JStr "Something went wrong!");
                     ("error", JStr (Err.message e))])) /\
    db (snd (app c i w)) = db w /\
    forall c', app c' i w = app c i w.
Proof.
  intros Hc Hs He Hu Hconn.
  assert (He' : (expires s <=? clock w)%Z = false) by now apply Z.leb_gt.
  exists (buffering_timed_out "users.findOne()").
  assert (Hv : validate i w = Failed (buffering_timed_out "users.findOne()")).
  { unfold validate. now rewrite Hc, Hs, He', Hu, Hconn. }
  destruct (app_failed i w _ Hv) as (w' & Hdb & Happ).
  split; [|split; [|split]].
  - unfold deserializeUser, Users.findById. monad. now rewrite Hconn.
  - now rewrite Happ.
  - now rewrite Happ.
  - intros c'. now rewrite !Happ.
Qed.

Lemma unreachable_database_fails_bound_sessions_witness :
  exists e,
    fst (app Controller.controller
             (Sample.request GET (Auth auth_logout) (Some 6%nat))
             (set_connected false Sample.world))
    = Ok (internal_error e).
Proof.
  destruct (unreachable_database_fails_bound_sessions Controller.controller
              (Sample.request GET (Auth auth_logout) (Some 6%nat))
              (set_connected false Sample.world) 6%nat (mkSess (Some 1%nat) 5000)
              1%nat) as (e & _ & H & _); try reflexivity.
  exists e. exact H.
Defined.

(** ** Logins that do not come about *)

(** X4: on the callback route a denial by the user is redirected to
    /login-failed, while a code the provider rejects is an error answered by
    the error handler with the provider's message; in both cases the
    database is not written.  The page /login-failed answers 401 and points
    back to /auth/google. *)
Theorem denied_and_rejected_logins (c : TaskController) (i : Incoming) (w : World) :
  method i = GET ->
  path i = Auth auth_google_callback ->
  (forall e, validate i w <> Failed e) ->
  (query i = access_denied ->
     fst (app c i w) = Ok (res_redirect "/login-failed") /\
     db (snd (app c i w)) = db w) /\
  (forall e, query i = code_rejected e ->
     fst (app c i w) = Ok (internal_error e) /\
     db (snd (app c i w)) = db w) /\
  (forall i2 w2,
     method i2 = GET -> path i2 = LoginFailed ->
     (forall e, validate i2 w2 <> Failed e) ->
     fst (app c i2 w2)
     = Ok (res_status_json 401
             (JObj [("success", JBool false);
                    ("message", JStr "Authentication failed. Please try again.");
                    ("loginUrl", JStr "/auth/google")]))).
Proof.
  intros Hm Hp Hv.
  destruct (app_reaches_routes i w Hv)
    as (req1 & w1 & Hi & Hu & Hw & Hd & Hs & Hvalid & _ & Happ).
  assert (Hcb : routes c req1
                = authenticate (mkAuthOptions None (Some "/login-failed")) req1
                    (fun req => ret (res_redirect "/dashboard"))).
  { apply routes_callback; now rewrite Hi. }
  split; [|split].
  - intros Hq. rewrite Happ, Hcb. unfold bind, try_catch, authenticate.
    rewrite Hi, Hq. simpl.
    destruct (commit_dom req1 (res_redirect "/login-failed") w1)
      as (w2 & -> & Hw2 & _).
    split; [reflexivity|]. simpl.
    apply same_but_sessions_db. eapply same_but_sessions_trans; eauto.
  - intros e Hq. rewrite Happ, Hcb. unfold bind, try_catch, authenticate.
    rewrite Hi, Hq. unfold throw. rewrite error_handler_eq.
    destruct (commit_dom req1 (internal_error e) (log_line (Err.stack e) w1))
      as (w2 & -> & Hw2 & _).
    split; [reflexivity|]. simpl.
    apply same_but_sessions_db in Hw, Hw2. simpl in Hw2. congruence.
  - intros i2 w2 Hm2 Hp2 Hv2.
    apply (app_answers_from_principal c i2 w2 (fun _ => login_failed) Hv2).
    intros req w0 Hi2. unfold routes, auth_router, tasks_router, app_routes.
    now rewrite Hi2, Hp2, Hm2.
Qed.

Lemma denied_and_rejected_logins_witness :
  fst (app Controller.controller
           (mkIncoming GET (Auth auth_google_callback) None access_denied
                       Sample.no_body) Sample.world)
  = Ok (res_redirect "/login-failed").
Proof.
  destruct (denied_and_rejected_logins Controller.controller
              (mkIncoming GET (Auth auth_google_callback) None access_denied
                          Sample.no_body) Sample.world)
    as (H & _); [reflexivity | reflexivity | intros e; vm_compute; discriminate |].
  now apply H.
Defined.

(** ** What only a login and the task routes can do *)

(** X11: only a login and the task routes write to the database.  Every
    other request - status, profile, logout, dashboard, the start of the
    handshake, a denied or rejected callback, an unknown path - leaves the
    database exactly as it was, whatever its session and also when the
    lookup of the session fails. *)
Theorem only_logins_and_tasks_write (c : TaskController) (i : Incoming)
    (w : World) :
  login_attempt i = false ->
  (forall p, path i <> ApiTasks p) ->
  db (snd (app c i w)) = db w.
Proof.
  intros Hl Ht.
  apply (app_preserves same_db); try reflexivity.
  - intros w1 w2 w3 H1 H2. unfold same_db in *. congruence.
  - intros i0 w0 req1 w1 _ _ Hw. apply Hw.
  - intros req w0. apply response_end_db.
  - rewrite Hl. discriminate.
  - intros _ req _ w0. apply logout_same_but_sessions.
  - intros req p handler _ Hp. now elim (Ht p).
Qed.

Lemma only_logins_and_tasks_write_witness :
  db (snd (app Controller.controller
               (Sample.request GET (Auth auth_logout) (Some 6%nat)) Sample.world))
  = Sample.store.
Proof.
  apply (only_logins_and_tasks_write Controller.controller
           (Sample.request GET (Auth auth_logout) (Some 6%nat)) Sample.world).
  - reflexivity.
  - intros p; discriminate.
Defined.

(** X12: no session is stored for a visitor who neither logs in nor out.
    A request outside the task routes that is no login attempt and no
    logout never adds an entry to the session store and draws no session
    id - [saveUninitialized: false] - whatever its cookie. *)
Theorem visitors_get_no_session (c : TaskController) (i : Incoming) (w : World) :
  login_attempt i = false ->
  logout_request i = false ->
  (forall p, path i <> ApiTasks p) ->
  dom (sessions (snd (app c i w))) ⊆ dom (sessions w) /\
  issued (snd (app c i w)) = issued w /\
  (forall sid, sessions w !! sid = None ->
               sessions (snd (app c i w)) !! sid = None).
Proof.
  intros Hl Ho Ht.
  assert (H : no_new_session w (snd (app c i w))).
  { apply (app_preserves no_new_session).
    - intros w0. now split.
    - intros w1 w2 w3 [H1 H1'] [H2 H2']. split; [|congruence].
      etransitivity; eauto.
    - intros l w0. now split.
    - intros i0 w0 req1 w1 Hlo Hd _. split; [exact Hd|apply Hlo].
    - intros req w0. split; [now rewrite response_end_dom|].
      apply response_end_issued.
    - rewrite Hl. discriminate.
    - rewrite Ho. discriminate.
    - intros req p handler _ Hp. now elim (Ht p). }
  destruct H as [Hdom Hiss]. split; [exact Hdom|]. split; [exact Hiss|].
  intros sid Hnone. apply not_elem_of_dom. apply not_elem_of_dom in Hnone.
  intros Hin. apply Hnone. now apply Hdom.
Qed.

Lemma visitors_get_no_session_witness :
  sessions (snd (app Controller.controller
                     (Sample.request GET Dashboard None) Sample.world)) !! 42%nat
  = None.
Proof.
  destruct (visitors_get_no_session Controller.controller
              (Sample.request GET Dashboard None) Sample.world) as (_ & _ & H).
  - reflexivity.
  - reflexivity.
  - intros p; discriminate.
  - apply H. reflexivity.
Defined.

(** ** A successful login *)

(** X3: when the reconciler returns an account for the profile of a
    callback request, the request is redirected to /dashboard, a new session
    is stored under an id that was never handed out, bound to the id of that
    account and expiring 24 hours later, the database is as the reconciler
    left it, and any request presenting that id as its cookie validates to
    the account.  The Set-Cookie header that announces the id goes out
    exactly when NODE_ENV is not "production". *)
Theorem login_opens_a_session (c : TaskController) (i : Incoming) (w w2 : World)
    (accessToken refreshToken : string) (p : Profile.t) (u : User.t) :
  method i = GET ->
  path i = Auth auth_google_callback ->
  query i = code_verified accessToken refreshToken p ->
  Store_ok (db w) ->
  verify accessToken refreshToken p w = (Ok (done None (Some u)), w2) ->
  exists sid,
    fst (app c i w) = Ok (res_redirect "/dashboard") /\
    (sid ∉ issued w) /\
    sessions (snd (app c i w)) !! sid
    = Some (mkSess (Some (User._id u)) (clock w + 86400000)) /\
    db (snd (app c i w)) = db w2 /\
    (is_production (NODE_ENV w) = false ->
     set_cookies (snd (app c i w))
     = set_cookies w ++ [(sid, session_cookie (NODE_ENV w))]) /\
    (is_production (NODE_ENV w) = true ->
     set_cookies (snd (app c i w)) = set_cookies w) /\
    forall i2, cookie i2 = Some sid ->
      principal_of (validate i2 (snd (app c i w))) = Some u.
Proof.
  intros Hm Hp Hq Hok Hv.
  destruct (login_outcome c i w accessToken refreshToken p u w2 Hm Hp Hq Hok Hv)
    as (sid & Hr & Hnew & Hs & Hdb & _ & Hck & _ & _ & Hval).
  exists sid. split; [exact Hr|]. split; [exact Hnew|]. split; [exact Hs|].
  split; [exact Hdb|]. split; [|split].
  - intros Hprod. now rewrite Hck, Hprod.
  - intros Hprod. rewrite Hck, Hprod. apply app_nil_r.
  - intros i2 Hc. now rewrite (Hval i2 Hc).
Qed.

Lemma login_opens_a_session_witness :
  exists sid,
    fst (app Controller.controller (Sample.callback Sample.carol) Sample.dev)
    = Ok (res_redirect "/dashboard") /\
    set_cookies (snd (app Controller.controller (Sample.callback Sample.carol)
                          Sample.dev))
    = [(sid, mkCookie false true 86400000 lax)].
Proof.
  destruct (login_opens_a_session Controller.controller
              (Sample.callback Sample.carol) Sample.dev
              (snd (verify "access-token" "refresh-token" Sample.carol Sample.dev))
              "access-token" "refresh-token" Sample.carol
              (User.mk 11 "g-3" "c@x.com" "Carol" (Some "Carol") None
                       (Some "https://img/carol") 1000 1000))
    as (sid & H & _ & _ & _ & Hck & _); try reflexivity.
  - exact Sample_store_ok.
  - exists sid. split; [exact H|]. now apply Hck.
Defined.

(** X7: following the redirect of a successful login with the id of the
    session it opened as the cookie, GET /dashboard welcomes the account by
    its display name and GET /auth/status reports it as authenticated. *)
Theorem login_then_dashboard (c : TaskController) (i : Incoming) (w w2 : World)
    (accessToken refreshToken : string) (p : Profile.t) (u : User.t) :
  method i = GET ->
  path i = Auth auth_google_callback ->
  query i = code_verified accessToken refreshToken p ->
  Store_ok (db w) ->
  verify accessToken refreshToken p w = (Ok (done None (Some u)), w2) ->
  exists sid,
    fst (app c i w) = Ok (res_redirect "/dashboard") /\
    sessions (snd (app c i w)) !! sid
    = Some (mkSess (Some (User._id u)) (clock w + 86400000)) /\
    (forall i2, cookie i2 = Some sid -> method i2 = GET -> path i2 = Dashboard ->
       fst (app c i2 (snd (app c i w)))
       = Ok (res_json
               (JObj [("success", JBool true);
                      ("message", JStr ("Welcome " +:+ User.displayName u +:+ "!"));
                      ("user", JObj ([("email", JStr (User.email u));
                                      ("displayName", JStr (User.displayName u))]
                                     ++ prop "picture" (User.picture u)));
                      ("links", JObj [("tasks", JStr "/api/tasks");
                                      ("profile", JStr "/auth/profile");
                                      ("logout", JStr "/auth/logout")])]))) /\
    (forall i2, cookie i2 = Some sid -> method i2 = GET ->
       path i2 = Auth auth_status ->
       fst (app c i2 (snd (app c i w))) = Ok (status_of (Some u))).
Proof.
  intros Hm Hp Hq Hok Hv.
  destruct (login_outcome c i w accessToken refreshToken p u w2 Hm Hp Hq Hok Hv)
    as (sid & Hr & _ & Hs & _ & _ & _ & _ & _ & Hval).
  exists sid. split; [exact Hr|]. split; [exact Hs|]. split.
  - intros i2 Hc Hm2 Hp2.
    assert (Hnf : forall e, validate i2 (snd (app c i w)) <> Failed e)
      by (rewrite (Hval i2 Hc); discriminate).
    destruct (app_answers_from_principal c i2 (snd (app c i w)) dashboard_of Hnf)
      as (H & _).
    + intros req w1 Hi. unfold routes, auth_router, tasks_router, app_routes.
      rewrite Hi, Hp2, Hm2. unfold dashboard_route, dashboard_of.
      now destruct (user req).
    + now rewrite H, (Hval i2 Hc).
  - intros i2 Hc Hm2 Hp2.
    assert (Hnf : forall e, validate i2 (snd (app c i w)) <> Failed e)
      by (rewrite (Hval i2 Hc); discriminate).
    destruct (app_answers_from_principal c i2 (snd (app c i w)) status_of Hnf)
      as (H & _).
    + intros req w1 Hi. apply routes_status; now rewrite Hi.
    + now rewrite H, (Hval i2 Hc).
Qed.

Lemma login_then_dashboard_witness :
  exists sid,
    sessions (snd (app Controller.controller
                       (Sample.callback Sample.alice_profile) Sample.world))
      !! sid
    = Some (mkSess (Some 1%nat) 86401000) /\
    forall i2, cookie i2 = Some sid -> method i2 = GET ->
      path i2 = Auth auth_status ->
      fst (app Controller.controller i2
               (snd (app Controller.controller
                         (Sample.callback Sample.alice_profile) Sample.world)))
      = Ok (status_of (Some (User.set_lastLogin 1000 Sample.alice))).
Proof.
  destruct (login_then_dashboard Controller.controller
              (Sample.callback Sample.alice_profile) Sample.world
              (snd (verify "access-token" "refresh-token" Sample.alice_profile
                           Sample.world))
              "access-token" "refresh-token" Sample.alice_profile
              (User.set_lastLogin 1000 Sample.alice))
    as (sid & _ & Hs & _ & H); try reflexivity.
  - exact Sample_store_ok.
  - exists sid. split; [exact Hs|exact H].
Defined.

(** X19: a login does not carry the session of the request over.  When
    the reconciler returns an account for a callback request that came with
    a cookie, whatever session the cookie named is gone from the store
    afterwards, and the account is bound to a session under an id that was
    never handed out: an id that was known before the login never comes to
    authenticate the account. *)
Theorem login_replaces_the_session (c : TaskController) (i : Incoming)
    (w w2 : World) (accessToken refreshToken : string) (p : Profile.t)
    (u : User.t) (old : SessionId) :
  method i = GET ->
  path i = Auth auth_google_callback ->
  query i = code_verified accessToken refreshToken p ->
  Store_ok (db w) ->
  verify accessToken refreshToken p w = (Ok (done None (Some u)), w2) ->
  cookie i = Some old ->
  signed i w ->
  sessions (snd (app c i w)) !! old = None /\
  validate i (snd (app c i w)) = Invalid /\
  exists sid,
    sid <> old /\ (sid ∉ issued w) /\
    sessions (snd (app c i w)) !! sid
    = Some (mkSess (Some (User._id u)) (clock w + 86400000)).
Proof.
  intros Hm Hp Hq Hok Hv Hc Hsig.
  destruct (login_outcome c i w accessToken refreshToken p u w2 Hm Hp Hq Hok Hv)
    as (sid & _ & Hnew & Hs & _ & _ & _ & _ & Hgone & _).
  pose proof (Hgone Hsig old Hc) as Hold.
  split; [exact Hold|]. split.
  - unfold validate. now rewrite Hc, Hold.
  - exists sid. split; [|split; [exact Hnew|exact Hs]].
    intros ->. apply Hnew. now apply Hsig.
Qed.

Lemma login_replaces_the_session_witness :
  sessions (snd (app Controller.controller
                     (mkIncoming GET (Auth auth_google_callback) (Some 7%nat)
                        (code_verified "access-token" "refresh-token"
                                       Sample.alice_profile)
                        Sample.no_body)
                     Sample.dev)) !! 7%nat
  = None.
Proof.
  destruct (login_replaces_the_session Controller.controller
              (mkIncoming GET (Auth auth_google_callback) (Some 7%nat)
                 (code_verified "access-token" "refresh-token"
                                Sample.alice_profile)
                 Sample.no_body)
              Sample.dev
              (snd (verify "access-token" "refresh-token" Sample.alice_profile
                           Sample.dev))
              "access-token" "refresh-token" Sample.alice_profile
              (User.set_lastLogin 1000 Sample.alice) 7%nat)
    as (H & _);
    [ reflexivity | reflexivity | reflexivity | exact Sample_store_ok
    | vm_compute; reflexivity | reflexivity
    | intros sid Heq; injection Heq as <-; vm_compute; reflexivity
    | exact H ].
Defined.

(** ** What the schema of the accounts guarantees *)

Lemma existsb_by_email_not_in e l :
  existsb (Users.by_email e) l = false -> ~ In e (List.map User.email l).
Proof.
  intros Hex Hin. apply in_map_iff in Hin. destruct Hin as (d & Hd & Hin).
  assert (existsb (Users.by_email e) l = true).
  { apply existsb_exists. exists d. split; [exact Hin|].
    unfold Users.by_email. rewrite Hd. apply String.eqb_refl. }
  congruence.
Qed.

Lemma existsb_by_googleId_not_in g l :
  existsb (Users.by_googleId g) l = false -> ~ In g (List.map User.googleId l).
Proof.
  intros Hex Hin. apply in_map_iff in Hin. destruct Hin as (d & Hd & Hin).
  assert (existsb (Users.by_googleId g) l = true).
  { apply existsb_exists. exists d. split; [exact Hin|].
    unfold Users.by_googleId. rewrite Hd. apply String.eqb_refl. }
  congruence.
Qed.

Lemma schema_accepts_new f s now u :
  schema_accepts f s = true ->
  new_user f s now = Some u ->
  ~ In (User.googleId u) (List.map User.googleId (users s)) /\
  ~ In (User.email u) (List.map User.email (users s)) /\
  User.googleId u <> "" /\ User.email u <> "" /\ User.displayName u <> "".
Proof.
  unfold schema_accepts, new_user, Users.validate. intros Ha Hu.
  destruct (User.f_googleId f) as [[|c1 g]|]; simpl in Ha; try discriminate.
  destruct (User.f_email f) as [[|c2 e]|]; simpl in Ha; try discriminate.
  destruct (User.f_displayName f) as [[|c3 d]|]; simpl in Ha; try discriminate.
  apply andb_true_iff in Ha. destruct Ha as [Hg He].
  apply negb_true_iff in Hg, He.
  injection Hu as <-. simpl.
  split; [now apply existsb_by_googleId_not_in|].
  split; [now apply existsb_by_email_not_in|].
  repeat split; discriminate.
Qed.

Lemma Users_ok_touch id now s : Users_ok s -> Users_ok (touch_login id now s).
Proof.
  intros [A B C]. split; simpl.
  - rewrite List.map_map.
    rewrite (List.map_ext _ User.googleId); [exact A|].
    intros d. now destruct (Users.by_id id d).
  - rewrite List.map_map.
    rewrite (List.map_ext _ User.email); [exact B|].
    intros d. now destruct (Users.by_id id d).
  - apply List.Forall_map. eapply List.Forall_impl; [|exact C].
    intros d Hd. now destruct (Users.by_id id d).
Qed.

Lemma NoDup_snoc {A} (x : A) (l : list A) :
  List.NoDup l -> ~ In x l -> List.NoDup (l ++ [x]).
Proof.
  intros Hnd Hx. apply List.NoDup_app.
  - exact Hnd.
  - constructor; [intros []|constructor].
  - intros y Hy [<-|[]]. contradiction.
Qed.

Lemma Users_ok_insert f u s now :
  Users_ok s -> schema_accepts f s = true -> new_user f s now = Some u ->
  Users_ok (insert_user u s).
Proof.
  intros [A B C] Ha Hu.
  destruct (schema_accepts_new f s now u Ha Hu) as (Hg & He & Hreq).
  split; simpl.
  - rewrite List.map_app. simpl. now apply NoDup_snoc.
  - rewrite List.map_app. simpl. now apply NoDup_snoc.
  - apply List.Forall_app. split; [exact C|]. constructor; [exact Hreq|constructor].
Qed.

(** X13: the verify callback keeps the collection of accounts as userSchema
    wants it.  If, before, subject ids and emails are unique and googleId,
    email and displayName are non-empty in every account, the same holds
    after any call, for any profile, reachable database or not; object ids
    stay unique as well. *)
Theorem verify_keeps_the_schema (accessToken refreshToken : string)
    (p : Profile.t) (w : World) :
  Store_ok (db w) ->
  Users_ok (db w) ->
  Users_ok (db (snd (verify accessToken refreshToken p w))) /\
  Store_ok (db (snd (verify accessToken refreshToken p w))).
Proof.
  intros Hok Huk.
  destruct (connected (db w)) eqn:Hc.
  2:{ destruct (verify_disconnected accessToken refreshToken p w Hc) as (e & ->).
      now split. }
  destruct (List.find (Users.by_googleId (Profile.id p)) (users (db w)))
    as [u0|] eqn:Hf.
  { rewrite (verify_existing _ _ p w u0 Hok Hc Hf). simpl.
    split; [now apply Users_ok_touch|now apply Store_ok_touch]. }
  destruct (profile_fields p) as [f|] eqn:Hp.
  2:{ destruct (verify_inaccessible accessToken refreshToken p w Hc Hf Hp)
        as (msg & frame & ->). now split. }
  destruct (schema_accepts f (db w)) eqn:Ha.
  - destruct (verify_new_accepted accessToken refreshToken p w f Hc Hf Hp Ha)
      as (u & Hu & ->). simpl.
    destruct (new_user_of_profile p f _ _ u Hp Hu) as [Hid _].
    split; [now apply (Users_ok_insert f u _ (clock w))|now apply Store_ok_insert].
  - destruct (verify_new_rejected accessToken refreshToken p w f Hc Hf Hp Ha)
      as (e & ->). now split.
Qed.

Lemma Sample_users_ok : Users_ok Sample.store.
Proof.
  split; simpl.
  - repeat constructor; simpl; intuition discriminate.
  - repeat constructor; simpl; intuition discriminate.
  - repeat constructor; discriminate.
Qed.

Lemma verify_keeps_the_schema_witness :
  Users_ok (db (snd (verify "access-token" "refresh-token" Sample.carol
                            Sample.world))).
Proof.
  apply (verify_keeps_the_schema "access-token" "refresh-token" Sample.carol
           Sample.world Sample_store_ok Sample_users_ok).
Defined.

(** X17: for a subject that has an account, the callback reads nothing of
    the profile but its id: two profiles with the same id give the same
    result, so a returning user is logged in as before even when the
    provider's profile has changed or lacks emails, name or photos, and the
    changes do not reach the account. *)
Theorem returning_user_profile_is_not_read (accessToken refreshToken : string)
    (p p' : Profile.t) (w : World) (u : User.t) :
  List.find (Users.by_googleId (Profile.id p)) (users (db w)) = Some u ->
  Profile.id p' = Profile.id p ->
  verify accessToken refreshToken p' w = verify accessToken refreshToken p w /\
  (Store_ok (db w) -> connected (db w) = true ->
   fst (verify accessToken refreshToken p' w)
   = Ok (done None (Some (User.set_lastLogin (clock w) u)))).
Proof.
  intros Hf Hid. split.
  - unfold verify, verify_try, Users.findOne_googleId. monad.
    rewrite Hid. destruct (connected (db w)); [|reflexivity].
    now rewrite Hf.
  - intros Hok Hc. rewrite <- Hid in Hf.
    now rewrite (verify_existing accessToken refreshToken p' w u Hok Hc Hf).
Qed.

Lemma returning_user_profile_is_not_read_witness :
  fst (verify "access-token" "refresh-token"
              (Profile.mk "g-1" None None None None) Sample.world)
  = Ok (done None (Some (User.set_lastLogin 1000 Sample.alice))).
Proof.
  destruct (returning_user_profile_is_not_read "access-token" "refresh-token"
              Sample.alice_profile (Profile.mk "g-1" None None None None)
              Sample.world Sample.alice eq_refl eq_refl) as (_ & H).
  apply H; [exact Sample_store_ok|reflexivity].
Defined.

(** ** The lifetime of a session *)

(** X15: a session lasts 24 hours from the login if it is not used: with
    the session store as the login left it, a request to a task route that
    presents the id of the session as its cookie 86 400 000 ms after the
    login or later is answered 401, and the stale session is no longer valid
    for any route. *)
Theorem session_expires_after_a_day (c : TaskController) (i i2 : Incoming)
    (w w2 w3 : World) (accessToken refreshToken : string) (p : Profile.t)
    (u : User.t) (tp : TasksPath) :
  method i = GET ->
  path i = Auth auth_google_callback ->
  query i = code_verified accessToken refreshToken p ->
  Store_ok (db w) ->
  verify accessToken refreshToken p w = (Ok (done None (Some u)), w2) ->
  sessions w3 = sessions (snd (app c i w)) ->
  (clock w + 86400000 <= clock w3)%Z ->
  path i2 = ApiTasks tp ->
  exists sid,
    sessions (snd (app c i w)) !! sid
    = Some (mkSess (Some (User._id u)) (clock w + 86400000)) /\
    (forall i1, cookie i1 = Some sid ->
       principal_of (validate i1 (snd (app c i w))) = Some u) /\
    (cookie i2 = Some sid ->
     validate i2 w3 = Invalid /\
     fst (app c i2 w3) = Ok authentication_required).
Proof.
  intros Hm Hp Hq Hok Hv Hs Hlate Hp2.
  destruct (login_outcome c i w accessToken refreshToken p u w2 Hm Hp Hq Hok Hv)
    as (sid & _ & _ & Hl & _ & _ & _ & _ & _ & Hval).
  exists sid. split; [exact Hl|]. split.
  { intros i1 Hc1. now rewrite (Hval i1 Hc1). }
  intros Hc.
  assert (Hinv : validate i2 w3 = Invalid).
  { unfold validate. rewrite Hc, Hs, Hl. simpl.
    replace (clock w + 86400000 <=? clock w3)%Z with true; [reflexivity|].
    symmetry. now apply Z.leb_le. }
  split; [exact Hinv|].
  now apply (guard_invalid c i2 w3 tp Hp2 Hinv).
Qed.

Lemma session_expires_after_a_day_witness :
  exists sid,
    sessions (snd (app Controller.controller (Sample.callback Sample.carol)
                       Sample.dev)) !! sid
    = Some (mkSess (Some 11%nat) 86401000) /\
    (cookie (Sample.request GET (ApiTasks tasks_root) (Some 10%nat)) = Some sid ->
     fst (app Controller.controller
              (Sample.request GET (ApiTasks tasks_root) (Some 10%nat))
              (set_clock 86401000
                 (snd (app Controller.controller (Sample.callback Sample.carol)
                           Sample.dev))))
     = Ok authentication_required).
Proof.
  destruct (session_expires_after_a_day Controller.controller
              (Sample.callback Sample.carol)
              (Sample.request GET (ApiTasks tasks_root) (Some 10%nat))
              Sample.dev
              (snd (verify "access-token" "refresh-token" Sample.carol Sample.dev))
              (set_clock 86401000
                 (snd (app Controller.controller (Sample.callback Sample.carol)
                           Sample.dev)))
              "access-token" "refresh-token" Sample.carol
              (User.mk 11 "g-3" "c@x.com" "Carol" (Some "Carol") None
                       (Some "https://img/carol") 1000 1000)
              tasks_root)
    as (sid & Hs & _ & H);
    [reflexivity | reflexivity | reflexivity | exact Sample_store_ok
    | vm_compute; reflexivity | vm_compute; reflexivity
    | vm_compute; discriminate | reflexivity | ].
  exists sid. split; [exact Hs|]. intros Hc. now apply H.
Defined.

(** ** What stays true while the server runs *)

Ltac database_steps :=
  repeat first
    [ apply (preserves_bind same_but_db same_but_db_trans)
    | apply (preserves_try_catch same_but_db same_but_db_trans)
    | apply (preserves_ret same_but_db same_but_db_refl)
    | apply (preserves_throw same_but_db same_but_db_refl)
    | apply (preserves_get same_but_db same_but_db_refl)
    | apply (preserves_Date_now same_but_db same_but_db_refl)
    | apply (preserves_on_db same_but_db same_but_db_refl); intros; now repeat split
    | match goal with
      | |- preserves _ (match ?x with _ => _ end) => destruct x
      | |- preserves _ (if ?x then _ else _) => destruct x
      end
    | intros ].

(** The handlers of the task controller work on the database only. *)
Lemma controller_database_only : database_only Controller.controller.
Proof.
  intros m p handler req H.
  destruct m, p; simpl in H; try discriminate; injection H as <-;
    unfold Controller.getAllTasks, Controller.getTaskById, Controller.createTask,
      Controller.updateTask, Controller.deleteTask, Controller.with_task,
      Controller.guarded, Controller.principal, Controller.fetch_owned,
      Tasks.findById, Tasks.find_owned, Tasks.insert, Tasks.replace, Tasks.remove;
    database_steps.
Qed.

Lemma keeps_revoked_refl w : keeps_revoked w w.
Proof. split; [reflexivity|auto]. Qed.

Lemma keeps_revoked_trans w1 w2 w3 :
  keeps_revoked w1 w2 -> keeps_revoked w2 w3 -> keeps_revoked w1 w3.
Proof.
  intros [H1 H1'] [H2 H2']. split; [etransitivity; eauto|].
  intros k Hk Hn. apply H2'; [now apply H1|now apply H1'].
Qed.

Lemma keeps_revoked_log l w : keeps_revoked w (log_line l w).
Proof. split; [reflexivity|auto]. Qed.

Lemma keeps_revoked_db s w : keeps_revoked w (set_db s w).
Proof. split; [reflexivity|auto]. Qed.

Lemma keeps_revoked_clock t w : keeps_revoked w (set_clock t w).
Proof. split; [reflexivity|auto]. Qed.

(** Neither [req.logIn] nor the logout hands a revoked id out again. *)
Lemma logIn_keeps_revoked u (req : Request) w :
  keeps_revoked w (snd (Passport.logIn u req w)).
Proof.
  rewrite logIn_eq. cbn [snd].
  destruct (generate_id_fresh w) as [_ Hnew]. split.
  - cbn [issued set_sessions]. rewrite regenerated_issued.
    apply union_subseteq_r.
  - intros k Hk Hn. cbn [sessions set_sessions].
    assert (Hne : Session.generate_id w <> k) by (intros <-; contradiction).
    rewrite lookup_insert_ne by exact Hne.
    rewrite regenerated_sessions, lookup_insert_ne by exact Hne.
    destruct (session req) as [[sid s]|]; [|exact Hn].
    destruct (decide (sid = k)) as [->|Hsk];
      [apply lookup_delete_eq|now rewrite lookup_delete_ne].
Qed.

Lemma logout_keeps_revoked req w : keeps_revoked w (snd (logout_route req w)).
Proof.
  destruct (logout_route_eq req w)
    as (new & w' & -> & _ & _ & Hnew & _ & Hs & Hi & _).
  cbn [snd]. split.
  - rewrite Hi. apply union_subseteq_r.
  - intros k Hk Hn. rewrite Hs.
    assert (Hne : new <> k) by (intros <-; contradiction).
    rewrite lookup_insert_ne by exact Hne.
    destruct (session req) as [[sid s]|]; [|exact Hn].
    destruct (decide (sid = k)) as [->|Hsk];
      [apply lookup_delete_eq|now rewrite lookup_delete_ne].
Qed.

Lemma app_keeps_revoked c i w :
  database_only c -> keeps_revoked w (snd (app c i w)).
Proof.
  intros Hc.
  apply (app_preserves keeps_revoked keeps_revoked_refl keeps_revoked_trans).
  - apply keeps_revoked_log.
  - intros i0 w0 req1 w1 Hl Hd _. split.
    + now rewrite (loaded_issued _ _ _ _ Hl).
    + intros k _ Hn. apply not_elem_of_dom. apply not_elem_of_dom in Hn.
      intros Hin. apply Hn. now apply Hd.
  - intros req w0. split; [now rewrite response_end_issued|].
    intros k _ Hn. rewrite response_end_sessions.
    destruct (session req) as [[sid s]|]; [|exact Hn].
    destruct (decide (sid = k)) as [->|Hsk].
    + now rewrite lookup_alter_eq, Hn.
    + now rewrite lookup_alter_ne.
  - intros Hl req Hi.
    apply (login_preserves keeps_revoked keeps_revoked_refl keeps_revoked_trans);
      [ apply keeps_revoked_log
      | apply keeps_revoked_db
      | apply logIn_keeps_revoked
      | unfold login_attempt; now rewrite Hi ].
  - intros _ req _ w0. apply logout_keeps_revoked.
  - intros req p handler _ _ Hr w0.
    destruct (Hc _ _ _ req Hr w0) as ((Hs & Hi & _) & _).
    split; [now rewrite Hi|]. intros k _ Hn. now rewrite Hs.
Qed.

Lemma step_keeps_revoked c w w' :
  database_only c -> step c w w' -> keeps_revoked w w'.
Proof.
  intros Hc [i w0|t w0|s w0].
  - now apply app_keeps_revoked.
  - apply keeps_revoked_clock.
  - apply keeps_revoked_db.
Qed.

Lemma later_keeps_revoked c w w' :
  database_only c -> rtc (step c) w w' -> keeps_revoked w w'.
Proof.
  intros Hc H. induction H as [w|w1 w2 w3 H1 _ IH].
  - apply keeps_revoked_refl.
  - apply keeps_revoked_trans with (w2 := w2); [|exact IH].
    now apply (step_keeps_revoked c).
Qed.

(** X16: after GET /auth/logout the cookie of that request opens no task
    route any more, whatever happens afterwards: the server may serve any
    requests, logins and logouts among them, time may pass and the database
    may change, and a request to /api/tasks with the same cookie is still
    answered 401 with the login entry point.  The id the cookie carries is
    one the server handed out, as its signature shows, and no new session
    gets an id that was handed out before; the handlers of the task
    controller are taken to work on the database only. *)
Theorem logout_closes_task_routes (c : TaskController) (i i2 : Incoming)
    (w w2 : World) (p : TasksPath) :
  method i = GET ->
  path i = Auth auth_logout ->
  signed i w ->
  (forall e, validate i w <> Failed e) ->
  database_only c ->
  rtc (step c) (snd (app c i w)) w2 ->
  cookie i2 = cookie i ->
  path i2 = ApiTasks p ->
  validate i2 w2 = Invalid /\
  fst (app c i2 w2) = Ok authentication_required.
Proof.
  intros Hm Hp Hsig Hv Hc Hlater Hck Hp2.
  destruct (logout_answered c i w Hm Hp Hsig Hv)
    as (new & _ & _ & _ & _ & _ & Hgone & _ & Hiss & _).
  destruct (later_keeps_revoked c _ _ Hc Hlater) as [_ Hkeep].
  assert (Hinv : validate i2 w2 = Invalid).
  { unfold validate. rewrite Hck.
    destruct (cookie i) as [sid|] eqn:Hcookie; [|reflexivity].
    rewrite (Hkeep sid); [reflexivity| |now apply Hgone].
    rewrite Hiss. apply elem_of_union_r. now apply Hsig. }
  split; [exact Hinv|].
  now apply (guard_invalid c i2 w2 p Hp2 Hinv).
Qed.

Lemma logout_closes_task_routes_witness :
  fst (app Controller.controller
           (Sample.request GET (ApiTasks tasks_root) (Some 6%nat))
           (set_clock 5000
              (snd (app Controller.controller (Sample.callback Sample.carol)
                        (snd (app Controller.controller
                                  (Sample.request GET (Auth auth_logout) (Some 6%nat))
                                  Sample.dev))))))
  = Ok authentication_required.
Proof.
  apply (logout_closes_task_routes Controller.controller
           (Sample.request GET (Auth auth_logout) (Some 6%nat))
           (Sample.request GET (ApiTasks tasks_root) (Some 6%nat))
           Sample.dev _ tasks_root).
  - reflexivity.
  - reflexivity.
  - intros sid Heq. injection Heq as <-. vm_compute. reflexivity.
  - intros e. vm_compute. discriminate.
  - exact controller_database_only.
  - eapply rtc_l; [apply (step_request _ (Sample.callback Sample.carol))|].
    eapply rtc_l; [apply (step_clock _ 5000)|]. apply rtc_refl.
  - reflexivity.
  - reflexivity.
Defined.

(** ** Cookies in production *)

Lemma no_cookie_in_production_refl w : no_cookie_in_production w w.
Proof. now split. Qed.

Lemma no_cookie_in_production_trans w1 w2 w3 :
  no_cookie_in_production w1 w2 -> no_cookie_in_production w2 w3 ->
  no_cookie_in_production w1 w3.
Proof.
  intros [H1 H1'] [H2 H2']. split; [congruence|].
  intros Hp. rewrite H2' by now rewrite H1. now apply H1'.
Qed.

Lemma app_sends_no_cookie_in_production c i w :
  database_only c -> no_cookie_in_production w (snd (app c i w)).
Proof.
  intros Hc.
  apply (app_preserves no_cookie_in_production no_cookie_in_production_refl
           no_cookie_in_production_trans).
  - intros l w0. now split.
  - intros i0 w0 req1 w1 Hl _ Hw. split; [apply Hw|].
    intros _. apply Hl.
  - intros req w0.
    destruct (response_end_same req w0) as (_ & _ & _ & Henv & _).
    split; [exact Henv|]. intros Hp.
    rewrite response_end_cookies. unfold due_cookie. rewrite Hp.
    destruct (modified w0); apply app_nil_r.
  - intros Hl req Hi.
    apply (login_preserves no_cookie_in_production no_cookie_in_production_refl
             no_cookie_in_production_trans);
      [ intros; now split | intros; now split | | unfold login_attempt; now rewrite Hi ].
    intros u r w0. rewrite logIn_eq. cbn [snd].
    destruct (regenerated_same r w0) as (_ & _ & _ & Henv & _).
    split; [exact Henv|]. intros _. apply regenerated_cookies.
  - intros _ req _ w0.
    destruct (logout_route_eq req w0)
      as (new & w' & -> & Hw & _ & _ & _ & _ & _ & _ & Hck).
    split; [apply Hw|]. intros _. exact Hck.
  - intros req p handler _ _ Hr w0.
    destruct (Hc _ _ _ req Hr w0) as ((_ & _ & _ & Hck) & _ & Henv & _).
    split; [exact Henv|]. intros _. exact Hck.
Qed.

(** X18: in production the server never sends a Set-Cookie header.  The
    cookie is secure there, the server listens on plain HTTP and trusts no
    proxy, so express-session withholds it from every response: whatever
    requests are served - logins, which do open sessions, and logouts among
    them - no cookie goes out.  The handlers of the task controller are
    taken to work on the database only. *)
Theorem production_sends_no_cookie (c : TaskController) (w w' : World) :
  database_only c ->
  is_production (NODE_ENV w) = true ->
  rtc (step c) w w' ->
  set_cookies w' = set_cookies w /\ NODE_ENV w' = NODE_ENV w.
Proof.
  intros Hc Hp H.
  assert (Hr : no_cookie_in_production w w').
  { clear Hp. induction H as [w|w1 w2 w3 H1 _ IH].
    - apply no_cookie_in_production_refl.
    - apply no_cookie_in_production_trans with (w2 := w2); [|exact IH].
      destruct H1 as [i w0|t w0|s w0].
      + now apply app_sends_no_cookie_in_production.
      + now split.
      + now split. }
  destruct Hr as [Henv Hck]. split; [now apply Hck|exact Henv].
Qed.

Lemma production_sends_no_cookie_witness :
  set_cookies (snd (app Controller.controller
                        (Sample.request GET (Auth auth_logout) (Some 6%nat))
                        (snd (app Controller.controller
                                  (Sample.callback Sample.carol) Sample.world))))
  = [].
Proof.
  apply (production_sends_no_cookie Controller.controller Sample.world).
  - exact controller_database_only.
  - reflexivity.
  - eapply rtc_l; [apply (step_request _ (Sample.callback Sample.carol))|].
    eapply rtc_l;
      [apply (step_request _ (Sample.request GET (Auth auth_logout) (Some 6%nat)))|].
    apply rtc_refl.
Defined.

(** ** Start-up *)

(** X14: the start-up never fails and never touches the stored accounts
    and tasks; a successful connection makes the database reachable.  When
    the connection fails the last line on the console is "Server running but
    database unavailable", the server still answers - /auth/status tells a
    visitor without a cookie that they are not authenticated - and every
    login attempt ends in the error handler with nothing written. *)
Theorem startup_survives_a_database_outage (c : TaskController)
    (port : option string) (connect : option Err.t) (w : World) :
  fst (listening port connect w) = Ok tt /\
  users (db (snd (listening port connect w))) = users (db w) /\
  tasks (db (snd (listening port connect w))) = tasks (db w) /\
  sessions (snd (listening port connect w)) = sessions w /\
  (connect = None -> connected (db (snd (listening port connect w))) = true) /\
  (forall err, connect = Some err -> connected (db w) = false ->
     List.last (console (snd (listening port connect w))) ""
       = "Server running but database unavailable" /\
     (forall i, cookie i = None -> method i = GET -> path i = Auth auth_status ->
        fst (app c i (snd (listening port connect w))) = Ok (status_of None)) /\
     (forall i at_ rt p,
        method i = GET -> path i = Auth auth_google_callback ->
        query i = code_verified at_ rt p ->
        exists e,
          fst (app c i (snd (listening port connect w))) = Ok (internal_error e) /\
          users (db (snd (app c i (snd (listening port connect w)))))
            = users (db w))).
Proof.
  destruct connect as [err|].
  - split; [reflexivity|]. split; [reflexivity|]. split; [reflexivity|].
    split; [reflexivity|]. split; [discriminate|].
    intros err' _ Hc.
    set (w' := snd (listening port (Some err) w)).
    assert (Hdb : db w' = db w) by reflexivity.
    assert (Hc' : connected (db w') = false) by now rewrite Hdb.
    split; [|split].
    + unfold w'. simpl. now rewrite !last_last.
    + intros i Hck Hm Hp.
      assert (Hv : validate i w' = Invalid) by (unfold validate; now rewrite Hck).
      assert (Hnf : forall e, validate i w' <> Failed e)
        by (rewrite Hv; discriminate).
      destruct (app_answers_from_principal c i w' status_of Hnf) as (H & _).
      * intros req w1 Hi. unfold routes, auth_router. rewrite Hi, Hp, Hm.
        unfold status_route, status_of. now destruct (user req).
      * now rewrite H, Hv.
    + intros i at_ rt p Hm Hp Hq.
      destruct (validate i w') as [|sid s u|e] eqn:Hv.
      3:{ destruct (app_failed i w' e Hv) as (w0 & Hdb0 & H).
          exists e. rewrite H. simpl. split; [reflexivity|]. now rewrite Hdb0, Hdb. }
      all: assert (Hnf : forall e, validate i w' <> Failed e)
          by (rewrite Hv; discriminate);
        destruct (app_reaches_routes i w' Hnf)
          as (req1 & w1 & Hi & _ & Hw & _ & _ & _ & _ & Happ);
        assert (Hc1 : connected (db w1) = false)
          by (apply same_but_sessions_db in Hw; now rewrite Hw);
        destruct (verify_disconnected at_ rt p w1 Hc1) as (e & He);
        exists e; rewrite Happ;
        rewrite routes_callback by (now rewrite Hi);
        unfold bind, try_catch, authenticate; rewrite Hi, Hq;
        unfold bind; rewrite He;
        cbv beta iota delta [done_err done_value throw];
        rewrite error_handler_eq, commit_eq;
        (split; [reflexivity|]);
        apply same_but_sessions_db in Hw;
        cbn [snd]; rewrite response_end_db; simpl; now rewrite Hw, Hdb.
  - split; [reflexivity|]. split; [reflexivity|]. split; [reflexivity|].
    split; [reflexivity|]. split; [reflexivity|]. discriminate.
Qed.

Lemma startup_survives_a_database_outage_witness :
  fst (app Controller.controller (Sample.callback Sample.carol)
           (snd (listening None (Some Sample.econnrefused)
                           (set_connected false Sample.world))))
  = Ok (internal_error (buffering_timed_out "users.findOne()"))
  /\ List.last (console (snd (listening None (Some Sample.econnrefused)
                                        (set_connected false Sample.world)))) ""
     = "Server running but database unavailable".
Proof.
  destruct (startup_survives_a_database_outage Controller.controller None
              (Some Sample.econnrefused) (set_connected false Sample.world))
    as (_ & _ & _ & _ & _ & H).
  destruct (H Sample.econnrefused eq_refl eq_refl) as (Hlast & _ & _).
  split; [reflexivity | exact Hlast].
Defined.
